(* ===== verification/_CoqProject ===== *)
-Q . S2P
Prelude.v
Threads.v
PyStr.v
PyFormat.v
Regex.v
Http.v
Downloader.v
PageProbe.v
AdjacentSearch.v
TimeWindow.v
SearchWorker.v
Scripts.v
Agreement.v
WorkerThread.v
Gui.v
