(* ===== verification/Prelude.v ===== *)
(** * Pixiv-Deleted-Retrieval: a verification development

    This library models the Python program of the repository
    FatShion-FTD/Pixiv-Deleted-Retrieval and proves what makes it correct.
    The program locates the original image files of a Pixiv artwork whose
    page was removed.  It has four source files:

    - [src/find_adj.py] (page probe and adjacent-id search):
      [build_pixiv_artwork_url], [is_valid_artwork_page],
      [get_artwork_page_content] fetch one artwork page and classify it.
      [find_adjacent_valid_artworks] walks the id space down from
      [center-1] and up from [center+1] to the nearest valid pages.
    - [src/find_resource.py] (time-window probe):
      [check_pixiv_image_existence] parses two [HH:MM:SS] times with
      [datetime.strptime].  It then requests one URL per second of the
      window and collects the timestamps that answer 200.
    - [src/resource_downloader.py] (gallery downloader):
      [download_pixiv_gallery] parses a seed image URL with a regular
      expression.  It then downloads pages [_p0], [_p1], ... until the
      first non-200 answer, sleeping 0.5 s between requests.
    - [src/main.py] (Tk front end and extension resolver): the
      [PixivResourceFinder] class.  [extract_time_range] reads the window
      from two image URIs.  [search_worker] scans the window once per
      checked extension, stops at the first 200 and hands the URL to the
      downloader.  [setup_gui] wires the entries, check buttons and
      buttons to the Tk variables and to these methods; [start_search]
      runs the worker in a new thread, so the window stays live while
      searches run.  [main()] builds the window and runs [mainloop].

    How the parts interact: the user runs the adjacent search, reads the
    neighbours' image URIs by hand, and pastes them into the form.
    [search_worker] calls [extract_time_range], the extension loop (the
    same probing as [find_resource.py]) and then [download_pixiv_gallery].

    ** Files of the development (in dependency order)

    - [Prelude] (this file): the effect model shared by every component.
      [PyM W A] is a state monad over a world [W] with Python exceptions
      ([exn], [outcome]).  It comes with [ret], [bind], [raise] and
      [try_except] (an [except] clause that catches the exceptions a
      predicate selects) and the notation [x <- c ;; k] in [py_scope].
      Python [while] loops are modelled by a body [L -> PyM W (step L R)]
      that either continues with a new loop state or breaks with a
      result.  The body is iterated by [iter_nat] (nat fuel, the reference
      definition) or by [iter_pos] (positive fuel, evaluated in a
      logarithmic number of nested calls; the second half of each level
      is built only when the first half continues).  [iter_pos_nat] proves that they
      are the same loop.  Generic lemmas give termination from a
      decreasing measure, independence from extra fuel, and loop
      invariants.
    - [PyStr]: the [str] builtins the program uses: [str(int)]
      (decimal formatting), the [in] test on strings, [str.replace],
      zero-padded two-digit fields, [int()] of a run of digits.
    - [PyFormat]: [str.format(time=value)] as CPython 3.11 runs it
      (the template's reader, the field lookup with its accessors, the
      conversions [!s] [!r] [!a], the format spec of a [str] and the
      recursion depth of nested fields), with the exception each error
      raises.  [template_ok] is the class of templates that format
      every value.
    - [Regex]: the subset of Python's [re] module the program uses:
      literals, character classes, concatenation, alternation, greedy
      repetition of one class and capturing groups.  A backtracking matcher
      in continuation-passing style gives Python's leftmost, first-match
      semantics of [re.match] and [re.search].  The inductive relation
      [matches] is the reference semantics of the patterns; the matcher
      is sound for it ([mtch_sound]).
    - [Http]: the world the program acts on.  It holds the remote server
      (a function from requests to responses), the trace of observable
      events (requests, sleeps, progress updates) and the file system
      (a [gmap] of files and a [gset] of directories).  It defines
      [requests.get], [raise_for_status], [os.makedirs], [os.path.join],
      a streamed binary write and [time.sleep].
    - [Threads]: Python threads as resumptions.  A thread is finished
      or offers one atomic step of the shared state; [tbind], [ttry] and
      [titer_pos] build threads like [bind], [try_except] and [iter_pos]
      build programs, and [run] executes a thread alone.  The logic
      [tpost] (every step along a preorder, a postcondition at the end)
      gives invariants of a pool of threads.
    - [Downloader]: [resource_downloader.py].
    - [PageProbe], [AdjacentSearch]: [find_adj.py].
    - [TimeWindow]: [find_resource.py] with the [datetime] parsing and
      formatting it calls.
    - [SearchWorker]: the logic of [main.py] ([extract_time_range],
      [start_search], [search_worker], [find_adjacent_artworks], and
      [int()] of the entry).
    - [Scripts]: the [if __name__ == '__main__'] blocks of [find_adj.py],
      [find_resource.py] and [resource_downloader.py], one Module each,
      with the constants written in them.
    - [Agreement]: the worker's inline scan against
      [check_pixiv_image_existence], which it re-implements.
    - [WorkerThread]: [search_worker] as a thread whose atomic steps are
      the statements that touch the window or the network, and
      [start_thread], the checks [start_search] runs on the Tk thread.
    - [Gui]: the program as a concurrent system.  [initial_app] is the
      state [__init__] builds, [user_event] the actions its widgets
      offer, [on_event] the wiring of [setup_gui] (an entry or a check
      button writes its variable, Return and the buttons run their
      method, "Start Resource Search" starts a worker thread).  A state
      [sys] is the window and its pool of worker threads; [sys_next]
      runs one action or one step of one thread; [main_sys] is the
      state of [main()] and [mainloop] runs a schedule.

    ** What the theorems show (claim ids in brackets)

    - Downloader: the whole of [download_pixiv_gallery] when the series
      ends at page [n]: pages [0 .. n-1] saved in order with a sleep after
      each, the reason of the stop, the exact files (a truncated body
      leaves its partial file) [C1].  The loop's request/sleep order on
      any server [C23].  A page URL parses back to its seed [C10].  When
      the series ends at page n on new paths, exactly n files are added
      (plus a partial one) [C11].  Only the page files are written [C21]
      and only [OSError] escapes [C22].  A URL without [_p] touches
      nothing [C28].  A server that always answers 200 keeps [while True]
      running on any fuel [C29].
    - Page probe: [get_artwork_page_content] sends one request and
      refines the spec's classification Present / Absent / Error [C5];
      a page is invalid exactly when its body contains the literal
      marker [<h1>Page not found</h1>] [C32].
    - Adjacent search: the nearest valid pages and the exact requests
      [C2]; an error page or a transport failure is raised, not skipped
      [C24]; both loops end within their fuel [C25]; [prev < center <
      next] on every server [C26]; the search returns whenever every
      page of its range loads [C8].
    - Time window: every time [strptime] accepts is a second of one day
      [C13]; the scan requests every second of the window once, in
      order, and returns the ordered subset that answered 200 [C4]; an
      end before the start scans nothing [C30].
    - Search worker: the exact run of [search_worker] (extension-major,
      second-minor probing, first hit, then the download) [C3]; its
      extension loop refines the spec's extension resolver [C6];
      [extract_time_range] on [i.pximg.net] URIs [C15]; the URLs the
      worker probes carry their time in the format [extract_time_range]
      reads back, zero padding included [C12]; the URL found is parsed
      by the downloader as page 0 of the target [C14]; the worker never
      raises and shows exactly one message box [C16]; the progress bar
      never passes 100% [C17]; the count of checks it computes bounds
      the requests of the search and is reached when nothing is found
      [C20]; [start_search] rejects incomplete input before any request
      [C27]; a window across midnight finds nothing [C31].
    - Main window, steps 1-2: [find_adjacent_artworks] sends the requests
      of the two loops and fills the two URL fields [C9].
    - Across components: for one extension the worker's scan sends the
      same request as [find_resource.py]'s at every second, its requests
      are a prefix of the tool's, and it returns the first second the
      tool reports [C7].
    - The window and its threads: in every state reachable by any
      schedule of user actions and worker steps, with any number of
      searches running at once, every progress value shown since the
      window opened is within its bar [C18].  A click on "Start Resource
      Search" with a complete form appends a worker to the pool and
      keeps every search already running, so two clicks run two
      searches whose requests interleave, although the spec asks for
      sequential network access [C19].

    ** Interfaces and proof structure

    The worker calls the downloader through the class
    [SearchWorker.GalleryDownloader]: its law says that a download sends
    no progress event and leaves the server alone.  The worker's theorems
    are proved for every instance, and [pixiv_downloader] shows that the
    model of [resource_downloader.py] is one.  The program logic [stable]
    of this file carries the structural proofs.  [stable R m] says that
    every run of [m] moves the state along the preorder [R].  Its rules
    for [bind], [try] and both loops are applied by the tactic
    [stable_step].  It has three instances:
    - [quiet_step]: the law of the downloader;
    - [keeps_dialogs] (with [one_dialog]): [C16], by [dialog_auto] and
      the hints [dialogs];
    - [emits]: [C17], by [emits_auto] and the hints [emits].
    [Threads] carries the same logic to threads ([tpost], [tstable],
    applied by [tstable_step]); the loop rule takes an invariant, which
    for the worker is the count of checks still to come.  The window's
    invariant [C18] lifts the per-handler and per-thread facts to every
    interleaving by rule induction on the pool step ([Gui.sys_run_ok]).
    Regular-expression matches are proved with the backward rules of
    [Regex] ([mtch_*_intro]) and analysed with its forward rules.

    ** Fuel

    The loops of [find_adj.py] have the explicit bounds [prev_id > 0] and
    [next_id < 999999999].  They run on positive fuel of exactly the
    number of iterations plus one, and [C25] shows that this fuel never
    runs out.  The second loops of [find_resource.py] and of
    [search_worker] run on fuel [end - start + 2]: one iteration per
    second and the final test; [TimeWindow.scan_loop] and
    [SearchWorker.ext_inner] show that it is enough, so the theorems
    about them hold with no fuel hypothesis.  The gallery loop [while
    True] is unbounded: its theorems assume a first page [n] that does not
    answer 200 and show that every fuel above [n] gives the same result,
    and [C29] shows that without such a page no fuel suffices.

    ** Not modelled

    What is left of the program cannot be modelled faithfully in this
    setting, for these reasons.  The layout of the Tk widgets (labels,
    grid, fonts; [setup_gui] apart from its bindings) has no behaviour.
    The method [log] and its calls write lines to the log text, each
    prefixed by [datetime.now()] and some with non-ASCII marks: the
    clock is not part of the world, strings are ASCII, and the spec puts
    logging out of its scope; [print] output likewise.  The granularity of
    the threads: a statement that touches the window or the network is
    one atomic step, and the call of [download_pixiv_gallery] inside the
    worker is one step, because the downloader is an abstract
    [GalleryDownloader] whose internal steps the model does not see.
    Tk's rule that widgets are touched only from the Tk thread is not
    modelled: a worker's progress updates and message boxes act on the
    window directly, as the code does.  Text decoding
    ([response.encoding], lines 33-34 of [find_adj.py]): a body is an
    ASCII [string] and [response.text] is that string; every codec
    [requests] can pick decodes ASCII to itself, so the fix-up to
    ['utf-8'] has no effect the model could show, and modelling it
    would need bytes and decoders throughout [Http].  Python strings are ASCII strings, so [\d] matches the
    ASCII digits only.  In a [str.format] field, an attribute ([{time.upper}]) is always an
    [AttributeError], while Python formats the attribute when [str] has
    it (a bound method, whose text holds a memory address).  Parent
    directories in [os.makedirs].  The contents
    of HTTP headers beyond passing them to the server function.  The
    [import] lines. *)

From stdpp Require Import base list relations.
From Stdlib Require Import ZArith.

(** ** Python exceptions and the effect monad *)

(** The exceptions the modelled code raises or catches.  [requests]
    raises subclasses of [RequestException]; [HTTPError] comes from
    [raise_for_status]. *)
Inductive req_error :=
  | ConnectionError
  | Timeout
  | ChunkedEncodingError.

Inductive exn :=
  | ValueError
  | KeyError
  | IndexError
  | TypeError
  | AttributeError
  | OSError
  | RequestException (e : req_error)
  | HTTPError (code : Z).

(** [except requests.exceptions.RequestException]: [HTTPError] is a
    subclass of [RequestException] in [requests]. *)
Definition is_request_exception (e : exn) : bool :=
  match e with
  | RequestException _ | HTTPError _ => true
  | _ => false
  end.

(** [except Exception] catches all of them. *)
Definition is_exception (_ : exn) : bool := true.

Inductive outcome (A : Type) :=
  | Ok (a : A)
  | Exc (e : exn).
Arguments Ok {A} a.
Arguments Exc {A} e.

(** A computation on a world [W]: side effects done before an exception
    are kept, as in Python. *)
Definition PyM (W A : Type) : Type := W -> outcome A * W.

Section Monad.
Context {W : Type}.

Definition ret {A} (a : A) : PyM W A := fun s => (Ok a, s).

Definition bind {A B} (m : PyM W A) (f : A -> PyM W B) : PyM W B :=
  fun s => match m s with
           | (Ok a, s') => f a s'
           | (Exc e, s') => (Exc e, s')
           end.

Definition raise {A} (e : exn) : PyM W A := fun s => (Exc e, s).

Definition get_st : PyM W W := fun s => (Ok s, s).
Definition put_st (s' : W) : PyM W unit := fun _ => (Ok tt, s').
Definition modify_st (f : W -> W) : PyM W unit := fun s => (Ok tt, f s).

(** [try: c except E: h]: the handler runs on the world reached when
    the exception was raised. *)
Definition try_except {A} (catches : exn -> bool) (c : PyM W A)
    (h : exn -> PyM W A) : PyM W A :=
  fun s => match c s with
           | (Exc e, s') => if catches e then h e s' else (Exc e, s')
           | r => r
           end.
End Monad.

Declare Scope py_scope.
Delimit Scope py_scope with py.
Notation "x <- c ;; k" := (bind c (fun x => k))
  (at level 100, c at next level, right associativity) : py_scope.
Notation "c ;; k" := (bind c (fun _ => k))
  (at level 100, right associativity) : py_scope.
Open Scope py_scope.

(** ** Python [while] loops *)

(** One iteration of a loop body either continues with the next loop
    state ([continue] or the end of the body) or leaves the loop
    ([break], or a failed guard) with a result. *)
Inductive step (L R : Type) :=
  | Continue (l : L)
  | Break (r : R).
Arguments Continue {L R} l.
Arguments Break {L R} r.

Section Loops.
Context {W L R : Type}.
Implicit Types (body f g : L -> PyM W (step L R)).

(** Run [f]; if it continues, run [g] from the new loop state. *)
Definition then_loop f g : L -> PyM W (step L R) :=
  fun l => bind (f l) (fun r => match r with
                                | Continue l' => g l'
                                | Break x => ret (Break x)
                                end).

(** The reference loop: at most [n] iterations of [body]. *)
Fixpoint iter_nat (n : nat) body : L -> PyM W (step L R) :=
  match n with
  | O => fun l => ret (Continue l)
  | S n' => then_loop body (iter_nat n' body)
  end.

(** The loop run by the model: [p] iterations, nested [log p] deep, so
    that fuels such as [10^9] cost nothing until they are used. *)
Fixpoint iter_pos (p : positive) body (l : L) : PyM W (step L R) :=
  match p with
  | xH => body l
  | xO p' => then_loop (iter_pos p' body) (iter_pos p' body) l
  | xI p' => then_loop body (then_loop (iter_pos p' body) (iter_pos p' body)) l
  end.
End Loops.

(** ** Automation *)

Create HintDb pyloop discriminated.
Create Rewrite HintDb pyrw.

(** Unfold one layer of the monad in the goal and in the hypotheses. *)
Ltac py_unfold :=
  unfold then_loop, bind, ret, raise, try_except, get_st, put_st, modify_st in *.

(** Close a decidable proposition about concrete data by evaluation. *)
Ltac py_decide := refine (bool_decide_unpack _ _); vm_compute; exact I.

(** ** Loop lemmas *)

Section LoopFacts.
Context {W L R : Type}.
Implicit Types (body f g h : L -> PyM W (step L R)).

Lemma then_loop_assoc f g h l s :
  then_loop (then_loop f g) h l s = then_loop f (then_loop g h) l s.
Proof.
  py_unfold. destruct (f l s) as [[[l'|x]|e] s']; reflexivity.
Qed.

Lemma then_loop_congr f f' g g' l s :
  (forall l s, f l s = f' l s) -> (forall l s, g l s = g' l s) ->
  then_loop f g l s = then_loop f' g' l s.
Proof.
  intros Hf Hg. py_unfold. rewrite Hf.
  destruct (f' l s) as [[[l'|x]|e] s']; auto.
Qed.

Lemma then_loop_continue_r f l s :
  then_loop f (fun l' => ret (Continue l')) l s = f l s.
Proof.
  py_unfold. destruct (f l s) as [[[l'|x]|e] s']; reflexivity.
Qed.

Lemma iter_nat_add body a b l s :
  iter_nat (a + b) body l s = then_loop (iter_nat a body) (iter_nat b body) l s.
Proof.
  revert l s. induction a as [|a IH]; intros l s; simpl.
  - reflexivity.
  - rewrite then_loop_assoc. apply then_loop_congr; [reflexivity|].
    intros. apply IH.
Qed.

(** The positive-fuel loop is the nat-fuel loop: [iter_pos] is only an
    evaluation strategy. *)
Theorem iter_pos_nat body p l s :
  iter_pos p body l s = iter_nat (Pos.to_nat p) body l s.
Proof.
  revert l s. induction p as [p IH|p IH|]; intros l s.
  - rewrite Pos2Nat.inj_xI. simpl. apply then_loop_congr; [reflexivity|].
    intros l' s'. rewrite Nat.add_0_r, iter_nat_add.
    apply then_loop_congr; intros; apply IH.
  - rewrite Pos2Nat.inj_xO. simpl. rewrite Nat.add_0_r, iter_nat_add.
    apply then_loop_congr; intros; apply IH.
  - simpl. symmetry. apply then_loop_continue_r.
Qed.

(** One iteration of the reference loop, unfolded. *)
Lemma iter_nat_S body n l s :
  iter_nat (S n) body l s =
    match body l s with
    | (Ok (Continue l'), s') => iter_nat n body l' s'
    | (Ok (Break x), s') => (Ok (Break x), s')
    | (Exc e, s') => (Exc e, s')
    end.
Proof. simpl. py_unfold. destruct (body l s) as [[[l'|x]|e] s']; reflexivity. Qed.

(** A loop that has stopped does not depend on more fuel. *)
Lemma iter_nat_fuel_mono body n m l s r s' :
  n <= m ->
  iter_nat n body l s = (r, s') ->
  (forall l', r <> Ok (Continue l')) ->
  iter_nat m body l s = (r, s').
Proof.
  revert m l s. induction n as [|n IH]; intros m l s Hle Hrun Hstop.
  - simpl in Hrun. injection Hrun as <- <-. exfalso. eapply Hstop; reflexivity.
  - destruct m as [|m]; [lia|]. rewrite iter_nat_S in Hrun |- *.
    destruct (body l s) as [[[l1|x]|e] s1]; auto.
    apply IH; auto; lia.
Qed.

(** Loop invariants: [I] holds of every loop state reached, and the
    outcome of the last iteration satisfies [Q]. *)
Lemma iter_nat_inv (I : L -> W -> Prop) (Q : outcome (step L R) -> W -> Prop) body :
  (forall l s, I l s ->
     match body l s with
     | (Ok (Continue l'), s') => I l' s'
     | (r, s') => Q r s'
     end) ->
  (forall l s, I l s -> Q (Ok (Continue l)) s) ->
  forall n l s, I l s -> Q (fst (iter_nat n body l s)) (snd (iter_nat n body l s)).
Proof.
  intros Hstep Hout n. induction n as [|n IH]; intros l s HI.
  - apply Hout, HI.
  - rewrite iter_nat_S. specialize (Hstep l s HI).
    destruct (body l s) as [[[l1|x]|e] s1]; simpl; auto.
Qed.

Section Measure.
(** A measure that every [continue] strictly decreases. *)
Variable measure : L -> nat.
Variable body : L -> PyM W (step L R).
Hypothesis body_decreases : forall l s l' s',
  body l s = (Ok (Continue l'), s') -> measure l' < measure l.

(** With more fuel than the measure, the loop never runs out. *)
Lemma iter_nat_terminates n l s :
  measure l < n -> forall l', fst (iter_nat n body l s) <> Ok (Continue l').
Proof.
  revert l s. induction n as [|n IH]; intros l s Hlt l'; [lia|].
  rewrite iter_nat_S. destruct (body l s) as [[[l1|x]|e] s1] eqn:E; simpl;
    try discriminate.
  apply IH. apply body_decreases in E. lia.
Qed.
End Measure.
End LoopFacts.

(** The fuel [Z.to_pos x] covers [x - 1] iterations and one more. *)
Lemma to_pos_fuel (x : Z) : (Z.to_nat (x - 1) < Pos.to_nat (Z.to_pos x))%nat.
Proof.
  destruct x as [|p|p]; simpl; lia.
Qed.

#[export] Hint Resolve iter_nat_terminates : pyloop.
#[export] Hint Rewrite @iter_pos_nat @iter_nat_S : pyrw.

(** ** Stable computations *)

(** A unary program logic: [stable R m] when every run of [m] moves the
    state along the preorder [R] ("the trace only grows", "the file
    system stays well-formed").  Its rules follow the structure of the
    code: [ret], [raise], [bind], [try] and both loops. *)
Section Stable.
Context {W : Type} (R : W -> W -> Prop) `{!PreOrder R}.

Definition stable {A} (m : PyM W A) : Prop := forall s, R s (snd (m s)).

Lemma stable_ret {A} (x : A) : stable (ret x).
Proof. intros s. simpl. reflexivity. Qed.

Lemma stable_raise {A} e : stable (A:=A) (raise e).
Proof. intros s. simpl. reflexivity. Qed.

Lemma stable_get : stable get_st.
Proof. intros s. simpl. reflexivity. Qed.

Lemma stable_bind {A B} (m : PyM W A) (f : A -> PyM W B) :
  stable m -> (forall x, stable (f x)) -> stable (bind m f).
Proof.
  intros Hm Hf s. specialize (Hm s). unfold bind.
  destruct (m s) as [[x|e] s']; simpl in *; [|done]. etrans; [exact Hm|apply Hf].
Qed.

Lemma stable_try {A} p (c : PyM W A) h :
  stable c -> (forall e, stable (h e)) -> stable (try_except p c h).
Proof.
  intros Hc Hh s. specialize (Hc s). unfold try_except.
  destruct (c s) as [[x|e] s']; simpl in *; [done|].
  case_match; [|done]. etrans; [exact Hc|apply Hh].
Qed.

Context {L Q : Type}.

Lemma stable_then_loop (f g : L -> PyM W (step L Q)) :
  (forall l, stable (f l)) -> (forall l, stable (g l)) -> forall l, stable (then_loop f g l).
Proof.
  intros Hf Hg l. apply stable_bind; [done|]. intros [l'|x]; [done|apply stable_ret].
Qed.

Lemma stable_iter_nat n (body : L -> PyM W (step L Q)) :
  (forall l, stable (body l)) -> forall l, stable (iter_nat n body l).
Proof.
  intros Hb. induction n as [|n IH]; intros l; [apply stable_ret|].
  by apply stable_then_loop.
Qed.

Lemma stable_iter_pos p (body : L -> PyM W (step L Q)) :
  (forall l, stable (body l)) -> forall l, stable (iter_pos p body l).
Proof.
  intros Hb. induction p as [p IH|p IH|]; intros l; simpl;
    repeat apply stable_then_loop; auto.
Qed.
End Stable.

(** Rule induction for runs: a step relation whose every step respects a
    preorder respects it along every run. *)
Lemma rtc_preorder {A} (step R : A -> A -> Prop) `{!PreOrder R} :
  (forall a a', step a a' -> R a a') -> forall a a', rtc step a a' -> R a a'.
Proof. intros Hs a a' Hr. induction Hr as [|a1 a2 a3 H12 _ IH]; [reflexivity|]. etrans; eauto. Qed.

(** One structural step of a [stable] proof. *)
Ltac stable_step :=
  match goal with
  | |- PreOrder _ => apply _
  | |- stable _ (bind _ _) => apply stable_bind
  | |- stable _ (try_except _ _ _) => apply stable_try
  | |- stable _ (ret _) => apply stable_ret
  | |- stable _ (raise _) => apply stable_raise
  | |- stable _ get_st => apply stable_get
  | |- stable _ (iter_pos _ _ _) => apply stable_iter_pos
  | |- stable _ (iter_nat _ _ _) => apply stable_iter_nat
  end.

(** ** Lists *)

Lemma forallb_rev {A} (p : A -> bool) (l : list A) : forallb p (rev l) = forallb p l.
Proof.
  induction l as [|x l IH]; [done|]. simpl. rewrite forallb_app, IH. simpl.
  by rewrite andb_true_r, andb_comm.
Qed.

Lemma find_fmap {A B} (p : B -> bool) (f : A -> B) (l : list A) :
  List.find p (f <$> l) = f <$> List.find (fun x => p (f x)) l.
Proof. induction l as [|x l IH]; [done|]. simpl. by destruct (p (f x)). Qed.

(** [List.find] is the head of the [filter]. *)
Lemma find_head_filter {A} (p : A -> bool) (l : list A) :
  List.find p l = head (filter (fun x => p x = true) l).
Proof.
  induction l as [|x l IH]; [done|]. simpl. rewrite filter_cons.
  destruct (p x) eqn:E; [done|]. rewrite decide_False by congruence. done.
Qed.

(** The fuel [x + 1] runs [x] iterations and the final test. *)
Lemma to_pos_fuel_succ (x : Z) : (Z.to_nat x < Pos.to_nat (Z.to_pos (x + 1)))%nat.
Proof. pose proof (to_pos_fuel (x + 1)) as H. by replace (x + 1 - 1)%Z with x in H by lia. Qed.

(** The elements of [l] up to the first that satisfies [p], included: what
    a loop that breaks at its first hit visits. *)
Fixpoint upto {A} (p : A -> bool) (l : list A) : list A :=
  match l with
  | [] => []
  | x :: r => x :: (if p x then [] else upto p r)
  end.

Lemma upto_prefix {A} (p : A -> bool) (l : list A) : upto p l `prefix_of` l.
Proof.
  induction l as [|x l IH]; simpl; [done|].
  destruct (p x); apply prefix_cons; [apply prefix_nil|done].
Qed.

Lemma upto_all {A} (p : A -> bool) (l : list A) : List.find p l = None -> upto p l = l.
Proof. induction l as [|x l IH]; simpl; [done|]. destruct (p x); [done|]. intros. by rewrite IH. Qed.

Lemma upto_fmap {A B} (p : B -> bool) (f : A -> B) (l : list A) :
  upto p (f <$> l) = f <$> upto (fun x => p (f x)) l.
Proof.
  induction l as [|x l IH]; [done|]. rewrite fmap_cons. cbn [upto]. rewrite fmap_cons.
  destruct (p (f x)); [done|]. by rewrite IH.
Qed.

Lemma prefix_of_fmap {A B} (f : A -> B) (l1 l2 : list A) :
  l1 `prefix_of` l2 -> f <$> l1 `prefix_of` f <$> l2.
Proof. intros [k ->]. rewrite fmap_app. apply prefix_app_r. done. Qed.

