(* ===== verification/Threads.v ===== *)
(** * Python threads as resumptions

    [threading.Thread(target=...).start()] runs its target beside the Tk
    main loop.  A thread is modelled as a resumption: either it has
    finished with an outcome ([Done]), or it can take one atomic step
    ([Yield eff k]) that changes the shared state [s] into [eff s] and
    continues as [k s].  A scheduler interleaves the steps of several
    threads and of the main loop.

    The combinators [atomic], [tbind], [ttry] and the loops [tthen_loop]
    and [titer_pos] mirror [Prelude]'s [PyM] ones.  [run] executes a
    thread alone, step after step.  The lemmas [run_*] show that a
    thread built from the combinators, run alone, is the sequential
    program it was built from.  [tpost R Q t] says that every step of
    [t] moves the state along [R] and that a normal end satisfies [Q];
    [tstable R] is the case without postcondition.  It is the [stable]
    logic of [Prelude] for threads, with a loop rule over an invariant,
    and it gives the invariants of a pool of threads. *)

From stdpp Require Import base list relations.
From Stdlib Require Import ZArith.
From S2P Require Import Prelude.

Inductive thread (W A : Type) :=
  | Done (o : outcome A)
  | Yield (eff : W -> W) (k : W -> thread W A).
Arguments Done {W A} o.
Arguments Yield {W A} eff k.

Section Threads.
Context {W : Type}.

(** A statement that no other thread can interrupt. *)
Definition atomic {A} (m : PyM W A) : thread W A :=
  Yield (fun s => snd (m s)) (fun s => Done (fst (m s))).

(** [var.get()] of a shared variable: one atomic read. *)
Definition tget {A} (f : W -> A) : thread W A := atomic (fun s => (Ok (f s), s)).

Definition tret {A} (a : A) : thread W A := Done (Ok a).

Fixpoint tbind {A B} (t : thread W A) (f : A -> thread W B) : thread W B :=
  match t with
  | Done (Ok a) => f a
  | Done (Exc e) => Done (Exc e)
  | Yield eff k => Yield eff (fun s => tbind (k s) f)
  end.

(** [try: t except E: h] around a thread. *)
Fixpoint ttry {A} (catches : exn -> bool) (t : thread W A) (h : exn -> thread W A) : thread W A :=
  match t with
  | Done (Exc e) => if catches e then h e else Done (Exc e)
  | Done (Ok a) => Done (Ok a)
  | Yield eff k => Yield eff (fun s => ttry catches (k s) h)
  end.

Section Loops.
Context {L R : Type}.
Implicit Types (body f g : L -> thread W (step L R)).

Definition tthen_loop f g (l : L) : thread W (step L R) :=
  tbind (f l) (fun r => match r with
                        | Continue l' => g l'
                        | Break x => tret (Break x)
                        end).

Fixpoint titer_pos (p : positive) body (l : L) : thread W (step L R) :=
  match p with
  | xH => body l
  | xO p' => tthen_loop (titer_pos p' body) (titer_pos p' body) l
  | xI p' => tthen_loop body (tthen_loop (titer_pos p' body) (titer_pos p' body)) l
  end.
End Loops.

(** The thread run alone. *)
Fixpoint run {A} (t : thread W A) : PyM W A :=
  match t with
  | Done o => fun s => (o, s)
  | Yield eff k => fun s => run (k s) (eff s)
  end.

End Threads.

Declare Scope thread_scope.
Delimit Scope thread_scope with thread.
Notation "x <- c ;; k" := (tbind c (fun x => k))
  (at level 100, c at next level, right associativity) : thread_scope.
Notation "c ;; k" := (tbind c (fun _ => k))
  (at level 100, right associativity) : thread_scope.

(** ** Run alone, a thread is its sequential program *)

Section RunFacts.
Context {W : Type}.

Lemma bind_congr {A B} (m m' : PyM W A) (f g : A -> PyM W B) s :
  (forall s, m s = m' s) -> (forall a s', f a s' = g a s') -> bind m f s = bind m' g s.
Proof. intros Hm Hfg. unfold bind. rewrite Hm. destruct (m' s) as [[a|e] s']; auto. Qed.

(** A statement that only computes or raises: the rest runs on the same
    state. *)
Lemma bind_pure_congr {A B} (m m' : PyM W A) (f g : A -> PyM W B) s :
  (forall s, snd (m' s) = s) -> (forall s, m s = m' s) -> (forall a, f a s = g a s) ->
  bind m f s = bind m' g s.
Proof.
  intros Hp Hm Hfg. unfold bind. rewrite Hm. specialize (Hp s).
  destruct (m' s) as [[a|e] s']; simpl in Hp; subst; auto.
Qed.

Lemma bind_get {B} (k : W -> PyM W B) s : bind get_st k s = k s s.
Proof. reflexivity. Qed.

Lemma try_congr {A} p (c c' : PyM W A) (h h' : exn -> PyM W A) s :
  (forall s, c s = c' s) -> (forall e s', h e s' = h' e s') ->
  try_except p c h s = try_except p c' h' s.
Proof. intros Hc Hh. unfold try_except. rewrite Hc. destruct (c' s) as [[a|e] s']; auto. by case_match. Qed.

Lemma iter_pos_congr {L R} p (f g : L -> PyM W (step L R)) l s :
  (forall l s, f l s = g l s) -> iter_pos p f l s = iter_pos p g l s.
Proof.
  intros Hfg. revert l s. induction p as [p IH|p IH|]; intros l s; simpl; [| |apply Hfg];
    repeat (apply then_loop_congr; intros); auto.
Qed.

Lemma run_atomic {A} (m : PyM W A) s : run (atomic m) s = m s.
Proof. simpl. by destruct (m s). Qed.

Lemma run_tget_bind {A B} (f : W -> A) (k : A -> thread W B) s :
  run (tbind (tget f) k) s = run (k (f s)) s.
Proof. reflexivity. Qed.

Lemma run_tret {A} (a : A) (s : W) : run (tret a) s = ret a s.
Proof. reflexivity. Qed.

Lemma run_tbind {A B} (t : thread W A) (f : A -> thread W B) s :
  run (tbind t f) s = bind (run t) (fun a => run (f a)) s.
Proof.
  revert s. induction t as [[a|e]|eff k IH]; intros s; simpl; [done|done|]. apply IH.
Qed.

Lemma run_ttry {A} p (t : thread W A) h s :
  run (ttry p t h) s = try_except p (run t) (fun e => run (h e)) s.
Proof.
  revert s. induction t as [[a|e]|eff k IH]; intros s; simpl; [done| |apply IH].
  unfold try_except. simpl. by case_match.
Qed.

Context {L R : Type}.

Lemma run_tthen_loop (f g : L -> thread W (step L R)) l s :
  run (tthen_loop f g l) s = then_loop (fun l => run (f l)) (fun l => run (g l)) l s.
Proof.
  unfold tthen_loop, then_loop. rewrite run_tbind. apply bind_congr; [done|]. by intros [l'|x] s'.
Qed.

Lemma run_titer_pos p (body : L -> thread W (step L R)) l s :
  run (titer_pos p body l) s = iter_pos p (fun l => run (body l)) l s.
Proof.
  revert l s. induction p as [p IH|p IH|]; intros l s; simpl; [| |done];
    rewrite run_tthen_loop; apply then_loop_congr; auto;
    intros; rewrite run_tthen_loop; apply then_loop_congr; auto.
Qed.
End RunFacts.

#[export] Hint Rewrite @run_atomic @run_tret @run_tbind @run_ttry @run_tthen_loop
  @run_titer_pos : pyrw.

(** ** Invariants of threads *)

(** Every step of the thread, from any state, moves along [R], and a
    normal end satisfies [Q] (an exception is allowed): a unary program
    logic for threads. *)
Inductive tpost {W A} (R : W -> W -> Prop) (Q : A -> Prop) : thread W A -> Prop :=
  | tpost_ok a : Q a -> tpost R Q (Done (Ok a))
  | tpost_exc e : tpost R Q (Done (Exc e))
  | tpost_yield eff k :
      (forall s, R s (eff s)) -> (forall s, tpost R Q (k s)) -> tpost R Q (Yield eff k).

Abbreviation tstable R := (tpost R (fun _ => True)).

(** What a loop iteration ends with: the invariant [I] of the next loop
    state, or [Q] of the result. *)
Definition step_post {L Q} (I : L -> Prop) (P : Q -> Prop) (r : step L Q) : Prop :=
  match r with Continue l => I l | Break x => P x end.

Section TPost.
Context {W : Type} (R : W -> W -> Prop) `{!PreOrder R}.

Lemma tpost_atomic {A} (Q : A -> Prop) (m : PyM W A) :
  (forall s, R s (snd (m s)) /\ forall a, fst (m s) = Ok a -> Q a) -> tpost R Q (atomic m).
Proof.
  intros Hm. constructor; [apply Hm|]. intros s. destruct (Hm s) as [_ HQ].
  destruct (fst (m s)) as [a|e]; constructor. by apply HQ.
Qed.

Lemma tstable_atomic {A} (m : PyM W A) : stable R m -> tstable R (atomic m).
Proof. intros Hm. apply tpost_atomic. done. Qed.

Lemma tstable_tget {A} (f : W -> A) : tstable R (tget f).
Proof. apply tstable_atomic. intros s. simpl. reflexivity. Qed.

Lemma tpost_tret {A} (Q : A -> Prop) a : Q a -> tpost R Q (tret a).
Proof. by constructor. Qed.

Lemma tpost_weaken {A} (Q Q' : A -> Prop) t :
  tpost R Q t -> (forall a, Q a -> Q' a) -> tpost R Q' t.
Proof. intros Ht HQ. induction Ht; constructor; auto. Qed.

Lemma tpost_tbind {A B} (Q : A -> Prop) (Q' : B -> Prop) (t : thread W A) (f : A -> thread W B) :
  tpost R Q t -> (forall a, Q a -> tpost R Q' (f a)) -> tpost R Q' (tbind t f).
Proof. intros Ht Hf. induction Ht; simpl; [auto|constructor|by constructor]. Qed.

Lemma tpost_ttry {A} (Q : A -> Prop) p (t : thread W A) h :
  tpost R Q t -> (forall e, tpost R Q (h e)) -> tpost R Q (ttry p t h).
Proof.
  intros Ht Hh. induction Ht; simpl; [by constructor| |by constructor].
  case_match; [done|constructor].
Qed.

Lemma tstable_tbind {A B} (t : thread W A) (f : A -> thread W B) :
  tstable R t -> (forall a, tstable R (f a)) -> tstable R (tbind t f).
Proof. intros Ht Hf. eapply tpost_tbind; [exact Ht|]. auto. Qed.

Context {L Q : Type} (I : L -> Prop) (P : Q -> Prop).
Implicit Types (body f g : L -> thread W (step L Q)).

Lemma tpost_tthen_loop f g :
  (forall l, I l -> tpost R (step_post I P) (f l)) ->
  (forall l, I l -> tpost R (step_post I P) (g l)) ->
  forall l, I l -> tpost R (step_post I P) (tthen_loop f g l).
Proof.
  intros Hf Hg l Hl. eapply tpost_tbind; [by apply Hf|]. intros [l'|x] Hr; [by apply Hg|by constructor].
Qed.

(** The loop rule: an invariant kept by every iteration. *)
Lemma tpost_titer_pos p body :
  (forall l, I l -> tpost R (step_post I P) (body l)) ->
  forall l, I l -> tpost R (step_post I P) (titer_pos p body l).
Proof.
  intros Hb. induction p as [p IH|p IH|]; intros l Hl; simpl;
    repeat apply tpost_tthen_loop; auto.
Qed.

End TPost.

Lemma tstable_titer_pos {W L Q} (R : W -> W -> Prop) `{!PreOrder R} p
    (body : L -> thread W (step L Q)) :
  (forall l, tstable R (body l)) -> forall l, tstable R (titer_pos p body l).
Proof.
  intros Hb l. eapply tpost_weaken; [|done].
  apply (tpost_titer_pos R (fun _ => True) (fun _ => True)); [|done].
  intros l' _. eapply tpost_weaken; [apply Hb|]. by intros [].
Qed.

(** One structural step of a [tstable] proof: the rules of [Threads] and,
    for an atomic statement, a goal [stable R m] of [Prelude]. *)
Ltac tstable_step :=
  match goal with
  | |- PreOrder _ => apply _
  | |- tstable _ (tbind _ _) => apply tstable_tbind
  | |- tstable _ (ttry _ _ _) => apply tpost_ttry
  | |- tstable _ (tret _) => by apply tpost_tret
  | |- tstable _ (Done (Exc _)) => apply tpost_exc
  | |- tstable _ (Done (Ok _)) => by apply tpost_ok
  | |- tstable _ (titer_pos _ _ _) => apply tstable_titer_pos
  | |- tstable _ (tget _) => apply tstable_tget
  | |- tstable _ (atomic _) => apply tstable_atomic
  end.

