(* ===== verification/PyStr.v ===== *)
(** * The [str] builtins the program calls

    Python strings are modelled as Rocq [string]s of ASCII characters;
    the functions below work on [list ascii] inside and are lifted to
    [string].  [py_str] is [str(int)] (an f-string field [{n}]),
    [py_contains] is the [in] operator on strings and [py_replace] is
    [str.replace] (all occurrences, left to right, without overlap). *)

From stdpp Require Import base list sets.
From Stdlib Require Import ZArith Ascii String DecimalString DecimalPos DecimalZ.
From S2P Require Import Prelude.

(** [length] is the length of a list in the whole development (the
    [String] library would otherwise shadow it). *)
Abbreviation length := Datatypes.length (only parsing).

(** ** Characters *)

(** [\d] on ASCII input, the class [0-9]. *)
Definition is_digit (c : ascii) : bool :=
  let n := nat_of_ascii c in (48 <=? n)%nat && (n <=? 57)%nat.

Definition newline : ascii := "010"%char.

(** ** [str(int)] *)

(** [f"{n}"] for a Python [int]: decimal digits without leading zeros,
    with a minus sign for negative numbers. *)
Definition py_str (z : Z) : string :=
  NilEmpty.string_of_int (Z.to_int z).

Definition all_digits (s : list ascii) : bool := forallb is_digit s.

(** [int()] of a run of ASCII digits. *)
Fixpoint digits_value_acc (acc : Z) (s : list ascii) : Z :=
  match s with
  | [] => acc
  | c :: s' => digits_value_acc (acc * 10 + (Z.of_nat (nat_of_ascii c) - 48))%Z s'
  end.

Definition digits_value (s : list ascii) : Z := digits_value_acc 0 s.

(** ** The [in] operator and [str.replace] *)

Fixpoint is_prefix (p s : list ascii) : bool :=
  match p, s with
  | [], _ => true
  | c :: p', d :: s' => Ascii.eqb c d && is_prefix p' s'
  | _ :: _, [] => false
  end.

(** [needle in hay]: some suffix of [hay] starts with [needle]. *)
Fixpoint contains_l (needle hay : list ascii) : bool :=
  is_prefix needle hay ||
  match hay with
  | [] => false
  | _ :: hay' => contains_l needle hay'
  end.

Definition py_contains (needle hay : string) : bool :=
  contains_l (list_ascii_of_string needle) (list_ascii_of_string hay).

(** [s.replace(old, new)] for a non-empty [old]: scan from the left, and
    after a replacement continue after the replaced occurrence.  The
    fuel is the length of the input, which every step decreases. *)
Fixpoint replace_l (fuel : nat) (old new s : list ascii) : list ascii :=
  match fuel with
  | O => s
  | S fuel' =>
      match s with
      | [] => []
      | c :: s' =>
          if is_prefix old s
          then new ++ replace_l fuel' old new (drop (List.length old) s)
          else c :: replace_l fuel' old new s'
      end
  end.

(** For an empty [old], Python inserts [new] before every character and
    at the end. *)
Fixpoint replace_empty (new s : list ascii) : list ascii :=
  match s with
  | [] => new
  | c :: s' => new ++ c :: replace_empty new s'
  end.

Definition py_replace (s old new : string) : string :=
  let s' := list_ascii_of_string s in
  let o := list_ascii_of_string old in
  let n := list_ascii_of_string new in
  string_of_list_ascii
    (match o with
     | [] => replace_empty n s'
     | _ => replace_l (List.length s') o n s'
     end).

(** ** Lemmas *)

Lemma list_ascii_of_string_app (s1 s2 : string) :
  list_ascii_of_string (s1 ++ s2)%string = list_ascii_of_string s1 ++ list_ascii_of_string s2.
Proof. induction s1; simpl; congruence. Qed.

Lemma string_of_list_ascii_app (l1 l2 : list ascii) :
  string_of_list_ascii (l1 ++ l2) = (string_of_list_ascii l1 ++ string_of_list_ascii l2)%string.
Proof. induction l1; simpl; congruence. Qed.

Lemma list_ascii_of_string_inj (s1 s2 : string) :
  list_ascii_of_string s1 = list_ascii_of_string s2 -> s1 = s2.
Proof.
  intros H. rewrite <- (string_of_list_ascii_of_string s1), H.
  apply string_of_list_ascii_of_string.
Qed.

(** Normalise the character lists of string appends: literals spelt
    out, appends associated to the right. *)
Ltac str_norm :=
  repeat (progress (rewrite ?list_ascii_of_string_app; simpl; rewrite <- ?app_assoc)).

(** Evaluate the code of a character literal, [Z.of_nat (nat_of_ascii "7")]
    to [55], which [simpl] leaves alone. *)
Ltac digit_value :=
  repeat match goal with
  | |- context [Z.of_nat (nat_of_ascii (Ascii ?a ?b ?c ?d ?e ?f ?g ?h))] =>
      let v := eval vm_compute in (Z.of_nat (nat_of_ascii (Ascii a b c d e f g h))) in
      change (Z.of_nat (nat_of_ascii (Ascii a b c d e f g h))) with v
  end.

Lemma is_prefix_app (p s : list ascii) : is_prefix p (p ++ s) = true.
Proof. induction p; simpl; [done|]. rewrite Ascii.eqb_refl. done. Qed.

(** A prefix test fails as soon as the first character differs. *)
Lemma is_prefix_head_neq (c d : ascii) (p s : list ascii) :
  c <> d -> is_prefix (c :: p) (d :: s) = false.
Proof. intros H. simpl. apply Ascii.eqb_neq in H. by rewrite H. Qed.

Lemma digits_uint (d : Decimal.uint) :
  all_digits (list_ascii_of_string (NilEmpty.string_of_uint d)) = true.
Proof. induction d; simpl; auto. Qed.

(** A non-negative [int] prints as a non-empty run of digits. *)
(** [str] is injective on [int]s: [int(str(n)) == n] in the library. *)
Lemma py_str_inj (a b : Z) : py_str a = py_str b -> a = b.
Proof.
  unfold py_str. intros H. apply (f_equal NilEmpty.int_of_string) in H.
  rewrite !NilEmpty.isi in H. injection H as H.
  by rewrite <- (DecimalZ.of_to a), <- (DecimalZ.of_to b), H.
Qed.

(** Two runs of digits followed by the same non-digit character and the
    same rest are the same run. *)
Lemma digits_app_cancel (a b r : list ascii) (c : ascii) :
  all_digits a = true -> all_digits b = true -> is_digit c = false ->
  a ++ c :: r = b ++ c :: r -> a = b.
Proof.
  unfold all_digits. revert b. induction a as [|x a IH]; intros [|y b]; simpl; try done.
  - intros _ [Hy _]%andb_prop Hc [= -> _]. congruence.
  - intros [Hx _]%andb_prop _ Hc [= <- _]. congruence.
  - intros [_ Ha]%andb_prop [_ Hb]%andb_prop Hc [= -> E]. f_equal. by apply IH.
Qed.

Lemma py_str_digits (z : Z) :
  (0 <= z)%Z ->
  all_digits (list_ascii_of_string (py_str z)) = true /\
  list_ascii_of_string (py_str z) <> [].
Proof.
  intros Hz. unfold py_str. destruct z as [|p|p]; [split; [done|discriminate]| |lia].
  simpl. split; [apply digits_uint|].
  pose proof (Unsigned.to_uint_nonnil p) as Hn.
  destruct (Pos.to_uint p); simpl; try discriminate. done.
Qed.

Lemma replace_l_no_match fuel (old new s : list ascii) (c : ascii) :
  head old = Some c -> c ∉ s -> List.length s <= fuel -> replace_l fuel old new s = s.
Proof.
  revert s. induction fuel as [|fuel IH]; intros s Hc Hs Hlen; [done|].
  destruct s as [|d s]; [done|]. cbn [replace_l].
  destruct old as [|c' old]; [discriminate|]. injection Hc as ->.
  rewrite is_prefix_head_neq by set_solver.
  f_equal. apply IH; [done|set_solver|simpl in Hlen; lia].
Qed.

Lemma replace_l_skip fuel (old new : list ascii) (c d : ascii) (s : list ascii) :
  head old = Some c -> c <> d ->
  replace_l (S fuel) old new (d :: s) = d :: replace_l fuel old new s.
Proof.
  intros Hc Hne. destruct old as [|c' old]; [discriminate|]. injection Hc as ->.
  cbn [replace_l]. by rewrite is_prefix_head_neq.
Qed.

(** [str.replace] on a string with one occurrence of [old], whose first
    character occurs nowhere else. *)
Lemma replace_l_once (old new a b : list ascii) (c : ascii) fuel :
  head old = Some c -> c ∉ a -> c ∉ b ->
  List.length (a ++ old ++ b) <= fuel ->
  replace_l fuel old new (a ++ old ++ b) = a ++ new ++ b.
Proof.
  revert fuel. induction a as [|d a IH]; intros fuel Hc Ha Hb Hlen.
  - destruct fuel as [|fuel]; [destruct old; simpl in *; [discriminate|lia]|].
    destruct old as [|c' o] eqn:Eo; [discriminate|].
    change (replace_l (S fuel) (c' :: o) new ([] ++ (c' :: o) ++ b)) with
      (if is_prefix (c' :: o) ((c' :: o) ++ b)
       then new ++ replace_l fuel (c' :: o) new (drop (List.length (c' :: o)) ((c' :: o) ++ b))
       else c' :: replace_l fuel (c' :: o) new (o ++ b)).
    rewrite is_prefix_app, drop_app_length, (replace_l_no_match _ _ _ _ c); auto.
    simpl in Hlen. rewrite length_app in Hlen. lia.
  - destruct fuel as [|fuel]; [simpl in Hlen; lia|].
    simpl app. rewrite (replace_l_skip _ _ _ c d) by set_solver.
    f_equal. apply IH; auto; [set_solver|simpl in Hlen; lia].
Qed.

Lemma py_replace_once (a old new b : string) (c : ascii) :
  head (list_ascii_of_string old) = Some c ->
  c ∉ list_ascii_of_string a -> c ∉ list_ascii_of_string b ->
  py_replace (a ++ old ++ b)%string old new = (a ++ new ++ b)%string.
Proof.
  intros Hc Ha Hb. unfold py_replace.
  destruct (list_ascii_of_string old) as [|c0 o] eqn:Eo; [discriminate|].
  rewrite !list_ascii_of_string_app, Eo.
  rewrite <- Eo, (replace_l_once _ _ _ _ c) by (rewrite ?Eo; auto).
  rewrite !string_of_list_ascii_app, !string_of_list_ascii_of_string. done.
Qed.

(** [str.replace] leaves a string without the first character of [old]
    unchanged. *)
Lemma py_replace_absent (s old new : string) (c : ascii) :
  head (list_ascii_of_string old) = Some c -> c ∉ list_ascii_of_string s ->
  py_replace s old new = s.
Proof.
  intros Hc Hs. unfold py_replace.
  destruct (list_ascii_of_string old) as [|c0 o] eqn:Eo; [discriminate|].
  rewrite <- Eo, (replace_l_no_match _ _ _ _ c) by (rewrite ?Eo; auto).
  apply string_of_list_ascii_of_string.
Qed.

Lemma contains_l_app (needle a b : list ascii) : contains_l needle (a ++ needle ++ b) = true.
Proof.
  induction a as [|c a IH]; simpl.
  - destruct needle as [|c n]; [by destruct b|].
    simpl. by rewrite Ascii.eqb_refl, is_prefix_app.
  - rewrite IH. apply orb_true_r.
Qed.

Lemma forallb_not_elem (p : ascii -> bool) (c : ascii) (l : list ascii) :
  p c = false -> forallb p l = true -> c ∉ l.
Proof.
  intros Hc Hl Hin. rewrite forallb_forall in Hl.
  apply list_elem_of_In, Hl in Hin. congruence.
Qed.

(** A run of digits satisfies every test that all digits pass. *)
Lemma all_digits_forallb (p : ascii -> bool) (l : list ascii) :
  (forall c, is_digit c = true -> p c = true) -> all_digits l = true -> forallb p l = true.
Proof.
  intros Hp. unfold all_digits. rewrite !forallb_forall. intros Hl c Hc. by apply Hp, Hl.
Qed.

Lemma all_digits_no (c : ascii) (l : list ascii) :
  is_digit c = false -> all_digits l = true -> c ∉ l.
Proof.
  intros Hc Hl Hin. unfold all_digits in Hl. rewrite forallb_forall in Hl.
  apply list_elem_of_In, Hl in Hin. congruence.
Qed.

Lemma is_prefix_spec (p s : list ascii) : is_prefix p s = true <-> exists t, s = p ++ t.
Proof.
  revert s. induction p as [|c p IH]; intros s; simpl.
  - split; [intros _; by exists s|done].
  - destruct s as [|d s].
    + split; [discriminate|]. intros [t Ht]. discriminate.
    + rewrite andb_true_iff, IH. destruct (Ascii.eqb_spec c d) as [->|Hne].
      * split; [intros [_ [t ->]]; by exists t|intros [t Ht]; injection Ht as ->; eauto].
      * split; [intros [[=] _]|intros [t Ht]; injection Ht as -> _; done].
Qed.

(** [needle in hay] holds exactly when [hay] has [needle] as an infix. *)
Lemma contains_l_spec (needle hay : list ascii) :
  contains_l needle hay = true <-> exists a b, hay = a ++ needle ++ b.
Proof.
  split.
  - induction hay as [|c hay IH]; simpl; rewrite orb_true_iff.
    + intros [H|H]; [|discriminate]. apply is_prefix_spec in H as [t Ht]. by exists [], t.
    + intros [H|H].
      * apply is_prefix_spec in H as [t Ht]. by exists [], t.
      * destruct (IH H) as (a & b & ->). by exists (c :: a), b.
  - intros (a & b & ->). apply contains_l_app.
Qed.
