(* ===== verification/PyFormat.v ===== *)
(** * [str.format] with one keyword argument

    [template.format(time=value)] for a [str] value, as CPython (3.11
    or later) runs it: [Objects/stringlib/unicode_format.h] reads the
    template and [Python/formatter_unicode.c] formats each field.

    - [fmt_step] is [MarkupIterator_next] and [parse_field] taken one
      character at a time: literal text, the escapes [{{] and [}}], and
      replacement fields [{name!conv:spec}], whose name may hold
      [[...]] and whose spec may hold nested fields.  [format_l] reads
      the whole template and renders each field as soon as it closes, so
      the first error in reading order is the one raised.
    - [get_field] is [get_field_object]: an empty or numeric first part
      of the name is a positional index, and [format] is called without
      positional arguments ([IndexError]); a name other than [time] is a
      [KeyError]; [accessors] applies the [[i]] and [.name] that follow.
    - [convert] is [do_conversion] ([!s], [!r], [!a]).
    - [str_spec] is [parse_internal_render_format_spec] with the
      defaults of [str] and the checks of [format_string_internal];
      [apply_str_format] cuts to the precision and pads to the width.
    - [format_d] is [build_string] with its recursion depth: a spec that
      holds a field is expanded one level down, and depth 0 raises.

    The exceptions are those of [Prelude]: [ValueError] for a malformed
    template or spec, [IndexError], [KeyError], [TypeError] ([[key]]
    with a key that is not a number) and [AttributeError].

    Not modelled: [.name] is always an [AttributeError]; when [name] is
    an attribute of [str] (a method, [__doc__]) Python formats that
    object instead, whose text holds a memory address.  A width too
    large for memory ([MemoryError]) is padded like any other. *)

From stdpp Require Import base list strings.
From Stdlib Require Import ZArith Ascii String.
From S2P Require Import Prelude PyStr.

Open Scope Z_scope.

(** [Py_ssize_t]'s largest value: [get_integer] raises above it. *)
Definition py_ssize_max : Z := 2 ^ 63 - 1.

Definition dquote : ascii := "034"%char.
Definition tab : ascii := "009"%char.
Definition cr : ascii := "013"%char.

(** Prepend written text to a result. *)
Definition oapp (out : list ascii) (o : outcome (list ascii)) : outcome (list ascii) :=
  match o with
  | Ok s => Ok (out ++ s)
  | Exc e => Exc e
  end.

Definition is_ok {A} (o : outcome A) : bool :=
  match o with
  | Ok _ => true
  | Exc _ => false
  end.

(** ** Reading the template *)

(** Where [MarkupIterator_next] and [parse_field] are in the template. *)
Inductive fmt_state :=
  | FmtText                                         (* literal text *)
  | FmtOpen                                         (* after a '{' of the text *)
  | FmtClose                                        (* after a '}' of the text *)
  | FmtName (name : list ascii)                     (* the field name so far *)
  | FmtIndex (name : list ascii)                    (* inside '[' ... ']' of the name *)
  | FmtConv (name : list ascii)                     (* after '!' *)
  | FmtConvEnd (name : list ascii) (conv : ascii)   (* after the conversion character *)
  | FmtSpec (name : list ascii) (conv : option ascii) (spec : list ascii) (nested : nat).
                                                    (* the spec, with [nested] braces open *)

(** What one character of the template does. *)
Inductive fmt_action :=
  | FmtOut (out : list ascii) (next : fmt_state)
  | FmtField (name : list ascii) (conv : option ascii) (spec : list ascii)
  | FmtFail (e : exn).

(** A character of a field name: the first loop of [parse_field]. *)
Definition name_char (name : list ascii) (c : ascii) : fmt_action :=
  if Ascii.eqb c "{" then FmtFail ValueError        (* unexpected '{' in field name *)
  else if Ascii.eqb c "[" then FmtOut [] (FmtIndex (name ++ [c]))
  else if Ascii.eqb c "}" then FmtField name None []
  else if Ascii.eqb c ":" then FmtOut [] (FmtSpec name None [] 0)
  else if Ascii.eqb c "!" then FmtOut [] (FmtConv name)
  else FmtOut [] (FmtName (name ++ [c])).

Definition fmt_step (st : fmt_state) (c : ascii) : fmt_action :=
  match st with
  | FmtText =>
      if Ascii.eqb c "{" then FmtOut [] FmtOpen
      else if Ascii.eqb c "}" then FmtOut [] FmtClose
      else FmtOut [c] FmtText
  | FmtOpen => if Ascii.eqb c "{" then FmtOut [c] FmtText else name_char [] c
  | FmtClose =>
      if Ascii.eqb c "}" then FmtOut [c] FmtText
      else FmtFail ValueError                       (* Single '}' encountered *)
  | FmtName name => name_char name c
  | FmtIndex name =>
      FmtOut [] (if Ascii.eqb c "]" then FmtName (name ++ [c]) else FmtIndex (name ++ [c]))
  | FmtConv name => FmtOut [] (FmtConvEnd name c)
  | FmtConvEnd name conv =>
      if Ascii.eqb c "}" then FmtField name (Some conv) []
      else if Ascii.eqb c ":" then FmtOut [] (FmtSpec name (Some conv) [] 0)
      else FmtFail ValueError                       (* expected ':' after conversion specifier *)
  | FmtSpec name conv spec n =>
      if Ascii.eqb c "{" then FmtOut [] (FmtSpec name conv (spec ++ [c]) (S n))
      else if Ascii.eqb c "}" then
        match n with
        | O => FmtField name conv spec
        | S n' => FmtOut [] (FmtSpec name conv (spec ++ [c]) n')
        end
      else FmtOut [] (FmtSpec name conv (spec ++ [c]) n)
  end.

(** The template from state [st]; a field is handed to [render] when it
    closes.  At the end, any state but the text is an error: a single
    '{', a single '}', an unclosed field, conversion or spec. *)
Fixpoint format_l (render : list ascii -> option ascii -> list ascii -> outcome (list ascii))
    (st : fmt_state) (t : list ascii) : outcome (list ascii) :=
  match t with
  | [] => match st with FmtText => Ok [] | _ => Exc ValueError end
  | c :: t' =>
      match fmt_step st c with
      | FmtOut out st' => oapp out (format_l render st' t')
      | FmtField name conv spec =>
          match render name conv spec with
          | Ok s => oapp s (format_l render FmtText t')
          | Exc e => Exc e
          end
      | FmtFail e => Exc e
      end
  end.

(** ** The field's value *)

(** [get_integer]: a non-empty run of decimal digits. *)
Definition get_integer (s : list ascii) : option Z :=
  match s with
  | [] => None
  | _ => if all_digits s then Some (digits_value s) else None
  end.

(** [field_name_split]: the name up to the first '.' or '['. *)
Fixpoint split_first (name : list ascii) : list ascii * list ascii :=
  match name with
  | [] => ([], [])
  | c :: name' =>
      if Ascii.eqb c "." || Ascii.eqb c "[" then ([], name)
      else let '(f, r) := split_first name' in (c :: f, r)
  end.

(** [getattr(obj, attr)] on a [str]. *)
Definition str_getattr (attr obj : list ascii) : outcome (list ascii) :=
  match attr with
  | [] => Exc ValueError                            (* Empty attribute in format string *)
  | _ => Exc AttributeError
  end.

(** [obj[key]] on a [str]: a number is an index, anything else a
    [TypeError]. *)
Definition str_getitem (key obj : list ascii) : outcome (list ascii) :=
  match key with
  | [] => Exc ValueError                            (* Empty attribute in format string *)
  | _ =>
      match get_integer key with
      | Some i =>
          if py_ssize_max <? i then Exc ValueError  (* Too many decimal digits *)
          else if i <? Z.of_nat (length obj) then
            match obj !! Z.to_nat i with Some c => Ok [c] | None => Exc IndexError end
          else Exc IndexError                       (* string index out of range *)
      | None => Exc TypeError                       (* string indices must be integers *)
      end
  end.

(** Where [FieldNameIterator_next] is in the rest of the name. *)
Inductive acc_state :=
  | AccNext                                         (* before '.', '[' or the end *)
  | AccAttr (attr : list ascii)                     (* after '.' *)
  | AccItem (key : list ascii).                     (* after '[' *)

Fixpoint accessors (st : acc_state) (rest obj : list ascii) : outcome (list ascii) :=
  match rest with
  | [] =>
      match st with
      | AccNext => Ok obj
      | AccAttr attr => str_getattr attr obj
      | AccItem _ => Exc ValueError                 (* Missing ']' in format string *)
      end
  | c :: rest' =>
      match st with
      | AccNext =>
          if Ascii.eqb c "." then accessors (AccAttr []) rest' obj
          else if Ascii.eqb c "[" then accessors (AccItem []) rest' obj
          else Exc ValueError                       (* Only '.' or '[' may follow ']' *)
      | AccAttr attr =>
          if Ascii.eqb c "." then
            match str_getattr attr obj with Ok o => accessors (AccAttr []) rest' o | Exc e => Exc e end
          else if Ascii.eqb c "[" then
            match str_getattr attr obj with Ok o => accessors (AccItem []) rest' o | Exc e => Exc e end
          else accessors (AccAttr (attr ++ [c])) rest' obj
      | AccItem key =>
          if Ascii.eqb c "]" then
            match str_getitem key obj with Ok o => accessors AccNext rest' o | Exc e => Exc e end
          else accessors (AccItem (key ++ [c])) rest' obj
      end
  end.

(** [get_field_object] with no positional argument and the one keyword
    argument [time]. *)
Definition get_field (value name : list ascii) : outcome (list ascii) :=
  let '(first, rest) := split_first name in
  match get_integer first with
  | Some i => if py_ssize_max <? i then Exc ValueError else Exc IndexError
  | None =>
      match first with
      | [] => Exc IndexError                        (* automatic numbering: index 0 *)
      | _ =>
          if bool_decide (first = list_ascii_of_string "time")
          then accessors AccNext rest value
          else Exc KeyError
      end
  end.

(** ** Conversions *)

Definition hex_digit (n : nat) : ascii :=
  nth n (list_ascii_of_string "0123456789abcdef") "0"%char.

(** [\xhh] *)
Definition hex_escape (c : ascii) : list ascii :=
  let n := nat_of_ascii c in ["\"%char; "x"%char; hex_digit (n / 16); hex_digit (n mod 16)].

(** [Py_UNICODE_ISPRINTABLE] on the code points [0 .. 255]: the control
    characters, the no-break space and the soft hyphen are not. *)
Definition repr_printable (c : ascii) : bool :=
  let n := nat_of_ascii c in
  ((32 <=? n) && (n <? 127) || (161 <=? n) && negb (n =? 173))%nat.

(** [unicode_repr] quotes with a single quote, unless the string holds
    a single quote and no double quote. *)
Definition repr_quote (s : list ascii) : ascii :=
  if existsb (Ascii.eqb "'") s && negb (existsb (Ascii.eqb dquote) s) then dquote else "'"%char.

Definition repr_char (q c : ascii) : list ascii :=
  if Ascii.eqb c q || Ascii.eqb c "\" then ["\"%char; c]
  else if Ascii.eqb c tab then ["\"%char; "t"%char]
  else if Ascii.eqb c newline then ["\"%char; "n"%char]
  else if Ascii.eqb c cr then ["\"%char; "r"%char]
  else if repr_printable c then [c]
  else hex_escape c.

(** [repr(s)] *)
Definition py_repr (s : list ascii) : list ascii :=
  let q := repr_quote s in q :: mjoin (repr_char q <$> s) ++ [q].

(** [ascii(s)]: [repr], with the characters above 127 escaped. *)
Definition py_ascii (s : list ascii) : list ascii :=
  mjoin ((fun c => if (128 <=? nat_of_ascii c)%nat then hex_escape c else [c]) <$> py_repr s).

(** [do_conversion] *)
Definition convert (conv : option ascii) (obj : list ascii) : outcome (list ascii) :=
  match conv with
  | None => Ok obj
  | Some c =>
      if Ascii.eqb c "s" then Ok obj
      else if Ascii.eqb c "r" then Ok (py_repr obj)
      else if Ascii.eqb c "a" then Ok (py_ascii obj)
      else Exc ValueError                           (* Unknown conversion specifier *)
  end.

(** ** The format spec of a [str] *)

Record str_format := StrFormat {
  sf_fill : ascii;
  sf_align : ascii;
  sf_width : option Z;
  sf_precision : option Z
}.

Definition is_align (c : ascii) : bool :=
  Ascii.eqb c "<" || Ascii.eqb c ">" || Ascii.eqb c "=" || Ascii.eqb c "^".

Definition is_sign (c : ascii) : bool :=
  Ascii.eqb c "+" || Ascii.eqb c "-" || Ascii.eqb c " ".

(** The character at the front of [l], when [p] holds of it. *)
Definition take_char (p : ascii -> bool) (l : list ascii) : bool * list ascii :=
  match l with
  | c :: l' => if p c then (true, l') else (false, l)
  | [] => (false, l)
  end.

(** The run of decimal digits at the front of [l]. *)
Fixpoint span_digits (l : list ascii) : list ascii * list ascii :=
  match l with
  | c :: l' => if is_digit c then let '(d, r) := span_digits l' in (c :: d, r) else ([], l)
  | [] => ([], [])
  end.

(** [get_integer] of [formatter_unicode.c]: no digits is [None]. *)
Definition spec_integer (d : list ascii) : outcome (option Z) :=
  match d with
  | [] => Ok None
  | _ => if py_ssize_max <? digits_value d then Exc ValueError else Ok (Some (digits_value d))
  end.

(** [[[fill]align][sign][z][#][0][width][,|_][.precision][type]] read by
    [parse_internal_render_format_spec] with the defaults of [str]
    (type ['s'], alignment ['<']), then the checks of [str.__format__]
    and [format_string_internal]: no thousands separator, a type ['s'],
    no sign, no ['z'], no ['#'] and no ['='] alignment.  Every error is a
    [ValueError]. *)
Definition str_spec (spec : list ascii) : outcome str_format :=
  let '(fill, align, fill_set, l) :=
    match spec with
    | f :: a :: l' =>
        if is_align a then (f, Some a, true, l')
        else if is_align f then (" "%char, Some f, false, a :: l')
        else (" "%char, None, false, spec)
    | [a] => if is_align a then (" "%char, Some a, false, []) else (" "%char, None, false, spec)
    | [] => (" "%char, None, false, [])
    end in
  let '(sign, l) := take_char is_sign l in
  let '(no_neg_0, l) := take_char (Ascii.eqb "z") l in
  let '(alternate, l) := take_char (Ascii.eqb "#") l in
  let '(zero, l) := if fill_set then (false, l) else take_char (Ascii.eqb "0") l in
  let fill := if zero then "0"%char else fill in
  let '(wd, l) := span_digits l in
  match spec_integer wd with
  | Exc e => Exc e
  | Ok width =>
      let '(comma, l) := take_char (Ascii.eqb ",") l in
      let '(under, l) := take_char (Ascii.eqb "_") l in
      if comma && under then Exc ValueError         (* Cannot specify both ',' and '_' *)
      else if under && bool_decide (head l = Some ","%char) then Exc ValueError
      else
        let '(dot, l) := take_char (Ascii.eqb ".") l in
        let '(pd, l) := span_digits l in
        match (if dot then match pd with [] => Exc ValueError | _ => spec_integer pd end
               else Ok None) with
        | Exc e => Exc e
        | Ok precision =>
            match l with
            | _ :: _ :: _ => Exc ValueError         (* Invalid format specifier *)
            | _ =>
                let type := match l with [t] => t | _ => "s"%char end in
                if comma || under then Exc ValueError
                else if negb (Ascii.eqb type "s") then Exc ValueError  (* Unknown format code *)
                else if sign || no_neg_0 || alternate then Exc ValueError
                else if bool_decide (align = Some "="%char) then Exc ValueError
                else Ok (StrFormat fill (default "<"%char align) width precision)
            end
        end
  end.

(** [format_string_internal] and [calc_padding]. *)
Definition apply_str_format (f : str_format) (s : list ascii) : list ascii :=
  let s := match sf_precision f with
           | Some p => if p <? Z.of_nat (length s) then take (Z.to_nat p) s else s
           | None => s
           end in
  let len := Z.of_nat (length s) in
  let total := match sf_width f with Some w => Z.max w len | None => len end in
  let lpad := if Ascii.eqb (sf_align f) ">" then total - len
              else if Ascii.eqb (sf_align f) "^" then (total - len) / 2 else 0 in
  replicate (Z.to_nat lpad) (sf_fill f) ++ s ++ replicate (Z.to_nat (total - len - lpad)) (sf_fill f).

(** [format(obj, spec)] for a [str]: an empty spec is [str(obj)]. *)
Definition format_str (obj spec : list ascii) : outcome (list ascii) :=
  match spec with
  | [] => Ok obj
  | _ => match str_spec spec with
         | Ok f => Ok (apply_str_format f obj)
         | Exc e => Exc e
         end
  end.

(** ** Rendering a field *)

(** [output_markup]: the value, its conversion, the spec expanded by
    [expand] when it holds a field, and the formatting. *)
Definition render_field (expand : list ascii -> outcome (list ascii)) (value : list ascii)
    (name : list ascii) (conv : option ascii) (spec : list ascii) : outcome (list ascii) :=
  match get_field value name with
  | Exc e => Exc e
  | Ok obj =>
      match convert conv obj with
      | Exc e => Exc e
      | Ok obj' =>
          match (if existsb (Ascii.eqb "{") spec then expand spec else Ok spec) with
          | Exc e => Exc e
          | Ok spec' => format_str obj' spec'
          end
      end
  end.

(** [build_string] at recursion depth [d]. *)
Fixpoint format_d (d : nat) (value template : list ascii) : outcome (list ascii) :=
  match d with
  | O => Exc ValueError                             (* Max string recursion exceeded *)
  | S d' => format_l (render_field (format_d d' value) value) FmtText template
  end.

(** [template.format(time=value)]: [do_string_format] starts at depth 2. *)
Definition py_format_time (template value : string) : outcome string :=
  match format_d 2 (list_ascii_of_string value) (list_ascii_of_string template) with
  | Ok s => Ok (string_of_list_ascii s)
  | Exc e => Exc e
  end.

(** A template whose fields are all [{time}], with a conversion and a
    spec that holds no field at most: at depth 1 it formats the empty
    value. *)
Definition template_ok (template : string) : bool :=
  is_ok (format_d 1 [] (list_ascii_of_string template)).

(** A character [format] copies: neither brace. *)
Definition plain (c : ascii) : bool := negb (Ascii.eqb c "{") && negb (Ascii.eqb c "}").

(** ** Lemmas *)

Lemma oapp_nil o : oapp [] o = o.
Proof. by destruct o. Qed.

Lemma oapp_app l1 l2 o : oapp l1 (oapp l2 o) = oapp (l1 ++ l2) o.
Proof. destruct o; simpl; by rewrite ?app_assoc. Qed.

Lemma is_ok_oapp out o : is_ok (oapp out o) = is_ok o.
Proof. by destruct o. Qed.

(** Reading the template does not depend on the fields' values: a
    renderer that succeeds where another does makes the whole template
    succeed where the other does. *)
Lemma format_l_ok_mono r1 r2 :
  (forall n c s, is_ok (r1 n c s) = true -> is_ok (r2 n c s) = true) ->
  forall st t, is_ok (format_l r1 st t) = true -> is_ok (format_l r2 st t) = true.
Proof.
  intros Hr st t. revert st. induction t as [|c t IH]; intros st; simpl; [done|].
  destruct (fmt_step st c) as [out st'|n cv s|e]; rewrite ?is_ok_oapp; [apply IH| |done].
  specialize (Hr n cv s). destruct (r1 n cv s); [|done].
  destruct (r2 n cv s); [|by specialize (Hr eq_refl)]. rewrite !is_ok_oapp. apply IH.
Qed.

Lemma str_getitem_nil key : is_ok (str_getitem key []) = false.
Proof. unfold str_getitem. repeat case_match; simplify_eq/=; done. Qed.

(** No accessor applies to the empty string. *)
Lemma accessors_nil st rest o : accessors st rest [] = Ok o -> st = AccNext /\ rest = [].
Proof.
  revert st. induction rest as [|c rest IH]; intros st; cbn [accessors].
  - destruct st as [|[]|]; by intros.
  - destruct st as [|attr|key].
    + destruct (Ascii.eqb c "."); [by intros [? _]%IH|].
      destruct (Ascii.eqb c "["); [by intros [? _]%IH|done].
    + destruct (Ascii.eqb c "."); [destruct attr; simpl; intros H; discriminate H|].
      destruct (Ascii.eqb c "["); [destruct attr; simpl; intros H; discriminate H|].
      by intros [? _]%IH.
    + destruct (Ascii.eqb c "]"); [|by intros [? _]%IH].
      pose proof (str_getitem_nil key). by destruct (str_getitem key []).
Qed.

Lemma get_field_nil name o v : get_field [] name = Ok o -> get_field v name = Ok v.
Proof.
  unfold get_field. destruct (split_first name) as [first rest].
  repeat case_match; try discriminate. by intros [_ ->]%accessors_nil.
Qed.

Lemma convert_ok conv o1 o2 : is_ok (convert conv o1) = is_ok (convert conv o2).
Proof. destruct conv; simpl; by repeat case_match. Qed.

Lemma format_str_ok o1 o2 spec : is_ok (format_str o1 spec) = is_ok (format_str o2 spec).
Proof. destruct spec; simpl; [done|]. by destruct (str_spec _). Qed.

(** A field that renders the empty value at depth 1 renders every value
    at depth 2. *)
Lemma render_ok_mono v n c s :
  is_ok (render_field (format_d 0 []) [] n c s) = true ->
  is_ok (render_field (format_d 1 v) v n c s) = true.
Proof.
  unfold render_field. destruct (get_field [] n) as [o|] eqn:Eg; [|done].
  rewrite (get_field_nil _ _ v Eg). pose proof (convert_ok c o v) as Hc.
  destruct (convert c o) as [o'|]; [|done]. destruct (convert c v) as [v'|]; [|done].
  destruct (existsb _ s); [done|]. by rewrite (format_str_ok v' o').
Qed.

(** A template of [template_ok] formats every value. *)
Lemma template_ok_format template v :
  template_ok template = true -> is_ok (py_format_time template v) = true.
Proof.
  unfold template_ok, py_format_time. cbn [format_d]. intros H.
  apply (format_l_ok_mono _ _ (render_ok_mono (list_ascii_of_string v))) in H.
  by destruct (format_l _ _ _).
Qed.

Lemma format_l_plain r l rest :
  forallb plain l = true -> format_l r FmtText (l ++ rest) = oapp l (format_l r FmtText rest).
Proof.
  induction l as [|c l IH]; simpl; [by rewrite oapp_nil|].
  intros [Hc Hl]%andb_prop. unfold plain in Hc. unfold fmt_step.
  destruct (Ascii.eqb c "{"), (Ascii.eqb c "}"); try discriminate.
  rewrite IH by done. by rewrite oapp_app.
Qed.

Lemma format_l_time r rest :
  format_l r FmtText (list_ascii_of_string "{time}" ++ rest) =
    match r (list_ascii_of_string "time") None [] with
    | Ok s => oapp s (format_l r FmtText rest)
    | Exc e => Exc e
    end.
Proof. simpl. destruct (r _ _ _); [|done]. by destruct (format_l r FmtText rest). Qed.

(** [{time}] is the value. *)
Lemma render_time e v : render_field e v (list_ascii_of_string "time") None [] = Ok v.
Proof. reflexivity. Qed.

(** ** Examples, as CPython 3.11 runs them *)

(** ['{time:>10}'.format(time='ab')], ['{time!r:*^8}'...],
    ['{time[1]}{{x}}'...] and ['{time:{time}}'.format(time='5')]. *)
Example format_examples :
  py_format_time "{time:>10}" "ab" = Ok "        ab"%string /\
  py_format_time "{time!r:*^8}" "ab" = Ok "**'ab'**"%string /\
  py_format_time "{time[1]}{{x}}" "ab" = Ok "b{x}"%string /\
  py_format_time "{time:{time}}" "5" = Ok "5    "%string.
Proof. vm_compute. repeat split. Qed.

(** The exception each malformed template raises. *)
Example format_errors :
  py_format_time "{foo}" "ab" = Exc KeyError /\
  py_format_time "{}" "ab" = Exc IndexError /\
  py_format_time "{time[9]}" "ab" = Exc IndexError /\
  py_format_time "{time[x]}" "ab" = Exc TypeError /\
  py_format_time "{time.x}" "ab" = Exc AttributeError /\
  py_format_time "{time:d}" "ab" = Exc ValueError /\
  py_format_time "x}" "ab" = Exc ValueError /\
  py_format_time "{time:{time:{time}}}" "ab" = Exc ValueError.
Proof. vm_compute. repeat split. Qed.
