(* ===== verification/Regex.v ===== *)
(** * The subset of Python's [re] module the program uses

    The three patterns of the program ([resource_downloader.py] line 17,
    [main.py] line 168, and the pattern [datetime.strptime] builds for
    ['%H:%M:%S']) use only literals, character classes, concatenation,
    alternation, greedy repetition of a single class ([*], [+], [?],
    [{n}]) and capturing groups.  [mtch] is a backtracking matcher in
    continuation-passing style.  It tries the alternatives and repetition
    counts in the order of Python's engine ([sre]): the left branch first,
    the longest repetition first.  The first success wins, so it returns
    the match and groups that [re.match] returns.  [re_search] tries the
    start positions from left to right, like [re.search].

    The inductive relation [matches] is the reference semantics: which
    prefixes a pattern matches and which groups it captures, in no order.
    [mtch_sound] shows that every match the matcher returns is one of
    them, so that facts about a match of a concrete pattern (the
    [strptime] fields of [TimeWindow]) can be proved by inversion of
    [matches].  The forward tactics [matches_inv] and [char_bounds] analyse a match
    of a concrete pattern. *)

From stdpp Require Import base list gmap.
From Stdlib Require Import Ascii String.
From S2P Require Import Prelude PyStr.

(** ** Syntax *)

Inductive regex :=
  | Eps                                        (* the empty pattern *)
  | Lit (c : ascii)                            (* a literal character *)
  | Cls (p : ascii -> bool)                    (* [0-9], \d, . *)
  | Cat (r1 r2 : regex)
  | Alt (r1 r2 : regex)                        (* r1|r2 *)
  | Rep (p : ascii -> bool) (lo : nat) (hi : option nat)
      (* greedy repetition of one class: * is 0 None, + is 1 None,
         ? is 0 (Some 1), {n} is n (Some n) *)
  | Grp (i : nat) (r : regex).                 (* capturing group number i *)

(** A literal word. *)
Fixpoint lits (w : list ascii) : regex :=
  match w with
  | [] => Eps
  | c :: w' => Cat (Lit c) (lits w')
  end.

(** [.] matches every character except a newline. *)
Definition dot (c : ascii) : bool := negb (Ascii.eqb c newline).

(** [[lo-hi]] *)
Definition in_range (lo hi : ascii) (c : ascii) : bool :=
  (nat_of_ascii lo <=? nat_of_ascii c)%nat && (nat_of_ascii c <=? nat_of_ascii hi)%nat.

Definition is_char (d : ascii) (c : ascii) : bool := Ascii.eqb d c.

(** ** Matcher *)

(** The captured text of each group that took part in the match. *)
Abbreviation groups := (gmap nat (list ascii)).

(** How many leading characters of [s] satisfy [p], at most [hi]. *)
Fixpoint run_len (p : ascii -> bool) (hi : option nat) (s : list ascii) : nat :=
  match hi with
  | Some O => O
  | _ =>
      match s with
      | [] => O
      | c :: s' => if p c then S (run_len p (pred <$> hi) s') else O
      end
  end.

Section Matcher.
Context {R : Type}.

(** Try [f n], [f (n-1)], ..., [f lo] and return the first success. *)
Fixpoint first_down (lo n : nat) (f : nat -> option R) : option R :=
  match f n with
  | Some r => Some r
  | None =>
      match n with
      | O => None
      | S n' => if (lo <=? n')%nat then first_down lo n' f else None
      end
  end.

(** [mtch r s g k]: match [r] at the front of [s] with the groups [g]
    captured so far, and pass the rest of the input and the groups to
    the continuation [k]; backtrack when [k] fails. *)
Fixpoint mtch (r : regex) (s : list ascii) (g : groups)
    (k : list ascii -> groups -> option R) : option R :=
  match r with
  | Eps => k s g
  | Lit c =>
      match s with
      | d :: s' => if Ascii.eqb c d then k s' g else None
      | [] => None
      end
  | Cls p =>
      match s with
      | d :: s' => if p d then k s' g else None
      | [] => None
      end
  | Cat r1 r2 => mtch r1 s g (fun s' g' => mtch r2 s' g' k)
  | Alt r1 r2 =>
      match mtch r1 s g k with
      | Some x => Some x
      | None => mtch r2 s g k
      end
  | Rep p lo hi =>
      let m := run_len p hi s in
      if (m <? lo)%nat then None
      else first_down lo m (fun n => k (drop n s) g)
  | Grp i r1 =>
      mtch r1 s g (fun s' g' =>
        k s' (<[i := take (length s - length s') s]> g'))
  end.
End Matcher.

(** A match object: the groups and the unmatched rest of the input
    ([m.end()] is the length of the input minus the length of the rest). *)
Record match_obj := MatchObj { m_groups : groups; m_rest : list ascii }.

Definition match_at (r : regex) (s : list ascii) : option match_obj :=
  mtch r s ∅ (fun s' g => Some (MatchObj g s')).

(** [re.match(pattern, s)] *)
Definition re_match (r : regex) (s : string) : option match_obj :=
  match_at r (list_ascii_of_string s).

(** [re.search(pattern, s)]: the leftmost start position that matches;
    the empty suffix is tried last. *)
Fixpoint search_l (r : regex) (s : list ascii) : option match_obj :=
  match match_at r s with
  | Some m => Some m
  | None =>
      match s with
      | [] => None
      | _ :: s' => search_l r s'
      end
  end.

Definition re_search (r : regex) (s : string) : option match_obj :=
  search_l r (list_ascii_of_string s).

(** [m.group(i)] as a string; [None] when the group did not take part. *)
Definition group (m : match_obj) (i : nat) : option string :=
  string_of_list_ascii <$> m_groups m !! i.

(** ** Lemmas *)

Section MatcherFacts.
Context {R : Type}.
Implicit Types (k : list ascii -> groups -> option R) (f : nat -> option R).

(** The matcher only looks at its continuation through its values. *)
Lemma mtch_ext r s g k1 k2 :
  (forall s' g', k1 s' g' = k2 s' g') -> mtch r s g k1 = mtch r s g k2.
Proof.
  revert s g k1 k2.
  induction r as [| c | p | r1 IH1 r2 IH2 | r1 IH1 r2 IH2 | p lo hi | i r IH];
    intros s g k1 k2 Hk; simpl.
  - apply Hk.
  - destruct s; [done|]. case_match; auto.
  - destruct s; [done|]. case_match; auto.
  - apply IH1. intros. apply IH2. exact Hk.
  - rewrite (IH1 _ _ k1 k2 Hk). case_match; auto.
  - case_match; [done|]. revert Hk. generalize (run_len p hi s). clear.
    intros n Hk. induction n as [|n IHn]; simpl; rewrite Hk; [done|].
    case_match; [done|]. case_match; auto.
  - apply IH. intros. apply Hk.
Qed.

Lemma mtch_lits w s g k : mtch (lits w) (w ++ s) g k = k s g.
Proof.
  revert s g k. induction w as [|c w IH]; intros s g k; simpl; [done|].
  rewrite Ascii.eqb_refl. apply IH.
Qed.

Lemma first_down_hit lo n f r : f n = Some r -> first_down lo n f = Some r.
Proof. intros H. destruct n; simpl; by rewrite H. Qed.

(** Counts above [i] that fail are skipped. *)
Lemma first_down_skip lo i n f :
  (lo <= i)%nat -> (i <= n)%nat ->
  (forall j, (i < j)%nat -> (j <= n)%nat -> f j = None) ->
  first_down lo n f = first_down lo i f.
Proof.
  intros Hlo Hin Hf. induction n as [|n IH].
  - by replace i with 0%nat by lia.
  - destruct (decide (i = S n)) as [->|Hne]; [done|].
    simpl. rewrite Hf by lia. rewrite (proj2 (Nat.leb_le lo n)) by lia.
    apply IH; [lia|]. intros j ? ?. apply Hf; lia.
Qed.

(** A repetition whose longest run lets the rest match. *)
Lemma mtch_rep_longest p lo hi s g k x :
  (lo <= run_len p hi s)%nat ->
  k (drop (run_len p hi s) s) g = Some x ->
  mtch (Rep p lo hi) s g k = Some x.
Proof.
  intros Hlo Hk. simpl. rewrite (proj2 (Nat.ltb_ge _ _)) by lia.
  by apply first_down_hit.
Qed.

(** A repetition that must give back characters down to [i]. *)
Lemma mtch_rep_back p lo hi s g k i :
  (lo <= i)%nat -> (i <= run_len p hi s)%nat ->
  (forall j, (i < j)%nat -> (j <= run_len p hi s)%nat -> k (drop j s) g = None) ->
  mtch (Rep p lo hi) s g k = first_down lo i (fun n => k (drop n s) g).
Proof.
  intros Hlo Hi Hf. simpl. rewrite (proj2 (Nat.ltb_ge _ _)) by lia.
  by apply first_down_skip.
Qed.

Lemma mtch_grp i r s g k :
  mtch (Grp i r) s g k =
    mtch r s g (fun s' g' => k s' (<[i := take (length s - length s') s]> g')).
Proof. reflexivity. Qed.
End MatcherFacts.

Lemma run_len_all p xs s :
  forallb p xs = true -> run_len p None (xs ++ s) = (length xs + run_len p None s)%nat.
Proof.
  induction xs as [|c xs IH]; simpl; [done|].
  intros [Hc Hxs]%andb_prop. rewrite Hc, IH; auto.
Qed.

Lemma run_len_all_nil p xs : forallb p xs = true -> run_len p None xs = length xs.
Proof.
  induction xs as [|c xs IH]; simpl; [done|].
  intros [Hc Hxs]%andb_prop. rewrite Hc, IH; auto.
Qed.

(** [{n}] on a run of at least [n] characters of the class. *)
Lemma run_len_bounded p xs s :
  forallb p xs = true -> run_len p (Some (length xs)) (xs ++ s) = length xs.
Proof.
  induction xs as [|c xs IH]; simpl; [by destruct s|].
  intros [Hc Hxs]%andb_prop. rewrite Hc. f_equal. by apply IH.
Qed.

Lemma run_len_stop p hi c s : p c = false -> run_len p hi (c :: s) = O.
Proof. intros H. destruct hi as [[|n]|]; simpl; rewrite ?H; done. Qed.

Lemma run_len_zero p s : run_len p (Some O) s = O.
Proof. by destruct s. Qed.

Lemma run_len_nil p hi : run_len p hi [] = O.
Proof. by destruct hi as [[|n]|]. Qed.

(** The captured text of a group that consumed the prefix [pre]. *)
Lemma take_consumed (pre rest : list ascii) :
  take (length (pre ++ rest) - length rest) (pre ++ rest) = pre.
Proof.
  rewrite length_app, Nat.add_sub, take_app_length. done.
Qed.

(** ** Backward rules: a match that succeeds through given parts *)

Lemma take_consumed_eq (s pre rest : list ascii) :
  s = pre ++ rest -> take (length s - length rest) s = pre.
Proof. intros ->. apply take_consumed. Qed.

Lemma drop_cons_elem {A} m (t : list A) d u : drop m t = d :: u -> d ∈ t.
Proof.
  revert t. induction m as [|m IH]; intros [|e t] H; simpl in H; try discriminate.
  - injection H as -> _. left.
  - right. eauto.
Qed.

Lemma forallb_dot (l : list ascii) : forallb dot l = true <-> newline ∉ l.
Proof.
  induction l as [|c l IH]; simpl; [set_solver|].
  rewrite andb_true_iff, IH, elem_of_cons. unfold dot.
  destruct (Ascii.eqb_spec c newline); simpl; intuition congruence.
Qed.

Lemma digits_dot (l : list ascii) : all_digits l = true -> forallb dot l = true.
Proof.
  unfold all_digits. induction l as [|c l IH]; simpl; [done|].
  intros [Hc Hl]%andb_prop. rewrite IH by done. unfold dot.
  destruct (Ascii.eqb_spec c newline) as [->|]; [discriminate|done].
Qed.

Lemma digit_neq (c d : ascii) : is_digit c = true -> is_digit d = false -> c <> d.
Proof. intros Hc Hd ->. congruence. Qed.

Section Backward.
Context {R : Type}.
Implicit Types (k : list ascii -> groups -> option R) (x : R).

Lemma mtch_cat_intro r1 r2 s g k x :
  mtch r1 s g (fun s' g' => mtch r2 s' g' k) = Some x -> mtch (Cat r1 r2) s g k = Some x.
Proof. done. Qed.

Lemma mtch_grp_intro i r s g k x :
  mtch r s g (fun s' g' => k s' (<[i := take (length s - length s') s]> g')) = Some x ->
  mtch (Grp i r) s g k = Some x.
Proof. done. Qed.

Lemma mtch_lit_intro c s g k x : k s g = Some x -> mtch (Lit c) (c :: s) g k = Some x.
Proof. intros H. simpl. by rewrite Ascii.eqb_refl. Qed.

(** A sequence that starts with a literal fails on another character. *)
Lemma mtch_cat_lit_fail c d r s g k :
  Ascii.eqb c d = false -> mtch (Cat (Lit c) r) (d :: s) g k = None.
Proof. intros H. cbn [mtch]. by rewrite H. Qed.

Lemma mtch_cls_intro p c s g k x :
  p c = true -> k s g = Some x -> mtch (Cls p) (c :: s) g k = Some x.
Proof. intros Hc H. simpl. by rewrite Hc. Qed.

Lemma mtch_alt_l_intro r1 r2 s g k x :
  mtch r1 s g k = Some x -> mtch (Alt r1 r2) s g k = Some x.
Proof. intros H. simpl. by rewrite H. Qed.

Lemma mtch_alt_r_intro r1 r2 s g k x :
  mtch r1 s g k = None -> mtch r2 s g k = Some x -> mtch (Alt r1 r2) s g k = Some x.
Proof. intros H1 H2. simpl. by rewrite H1. Qed.

Lemma mtch_lits_intro w s g k x : k s g = Some x -> mtch (lits w) (w ++ s) g k = Some x.
Proof. intros H. by rewrite mtch_lits. Qed.

(** An unbounded repetition that eats the whole run [xs] of its class. *)
Lemma mtch_rep_run_intro p lo xs t g k x :
  forallb p xs = true -> run_len p None t = O -> (lo <= length xs)%nat ->
  k t g = Some x -> mtch (Rep p lo None) (xs ++ t) g k = Some x.
Proof.
  intros Hxs Ht Hlo Hk. apply mtch_rep_longest; rewrite run_len_all, Ht by done.
  - lia.
  - by rewrite Nat.add_0_r, drop_app_length.
Qed.

Lemma mtch_rep_all_intro p lo xs g k x :
  forallb p xs = true -> (lo <= length xs)%nat ->
  k [] g = Some x -> mtch (Rep p lo None) xs g k = Some x.
Proof.
  intros Hxs Hlo Hk. rewrite <- (app_nil_r xs) at 1.
  by apply mtch_rep_run_intro.
Qed.

(** [p{n}] on exactly [n] characters of its class. *)
Lemma mtch_rep_exact_intro p n xs t g k x :
  forallb p xs = true -> length xs = n ->
  k t g = Some x -> mtch (Rep p n (Some n)) (xs ++ t) g k = Some x.
Proof.
  intros Hxs <- Hk. apply mtch_rep_longest; rewrite run_len_bounded by done; [lia|].
  by rewrite drop_app_length.
Qed.

(** [c?] when the next character is [c], and when it is not. *)
Lemma mtch_opt_present_intro p c s g k x :
  p c = true -> k s g = Some x -> mtch (Rep p 0 (Some 1%nat)) (c :: s) g k = Some x.
Proof.
  intros Hc Hk. apply mtch_rep_longest; simpl; rewrite Hc, ?run_len_zero; simpl; [lia|done].
Qed.

Lemma mtch_opt_absent_intro p c s g k x :
  p c = false -> k (c :: s) g = Some x -> mtch (Rep p 0 (Some 1%nat)) (c :: s) g k = Some x.
Proof.
  intros Hc Hk. apply mtch_rep_longest; simpl; rewrite Hc, ?run_len_zero; simpl; [lia|done].
Qed.

(** [.*c]: the greedy star gives back characters down to the last [c]. *)
Lemma mtch_dotstar_lit_intro c pre t g k x :
  newline ∉ pre -> newline ∉ t -> c <> newline -> c ∉ t ->
  k t g = Some x ->
  mtch (Rep dot 0 None) (pre ++ c :: t) g (fun s' g' => mtch (Lit c) s' g' k) = Some x.
Proof.
  intros Hpre Ht Hc Hct Hk.
  assert (Hrun : run_len dot None (pre ++ c :: t) = (length pre + S (length t))%nat).
  { rewrite run_len_all by (by apply forallb_dot).
    rewrite run_len_all_nil by (apply forallb_dot; set_solver). done. }
  rewrite (mtch_rep_back _ _ _ _ _ _ (length pre)); rewrite ?Hrun; [|lia|lia|].
  - apply first_down_hit. rewrite drop_app_length. by apply mtch_lit_intro.
  - intros j Hj _. rewrite drop_app_ge by lia.
    destruct (j - length pre)%nat as [|m] eqn:Ej; [lia|]. simpl.
    destruct (drop m t) as [|d u] eqn:Ed; [done|].
    apply drop_cons_elem in Ed. simpl.
    destruct (Ascii.eqb_spec c d) as [->|]; [done|done].
Qed.
End Backward.

(** [re.search] goes on past a start position where the pattern fails,
    and stops at one where it matches. *)
Lemma search_l_skip r c s : match_at r (c :: s) = None -> search_l r (c :: s) = search_l r s.
Proof. intros H. simpl. by rewrite H. Qed.

Lemma search_l_hit r s m : match_at r s = Some m -> search_l r s = Some m.
Proof. intros H. destruct s; simpl; by rewrite H. Qed.

(** ** Forward rules: what a successful match consumed *)

Section Forward.
Context {R : Type}.
Implicit Types (k : list ascii -> groups -> option R) (x : R).

Lemma first_down_some lo n (f : nat -> option R) x :
  first_down lo n f = Some x -> exists j, f j = Some x.
Proof.
  induction n as [|n IH]; simpl; (destruct (f _) eqn:E; [intros [= ->]; eauto|]).
  - done.
  - case_match; [apply IH|done].
Qed.

(** The continuation of a successful match runs on a suffix of the
    input. *)
Lemma mtch_suffix r s g k x :
  mtch r s g k = Some x -> exists pre s' g', s = pre ++ s' /\ k s' g' = Some x.
Proof.
  revert s g k.
  induction r as [| c | p | r1 IH1 r2 IH2 | r1 IH1 r2 IH2 | p lo hi | i r IH];
    intros s g k H; simpl in H.
  - by exists [], s, g.
  - destruct s as [|d s]; [done|]. case_match; [|done]. by exists [d], s, g.
  - destruct s as [|d s]; [done|]. case_match; [|done]. by exists [d], s, g.
  - apply IH1 in H as (pre1 & s1 & g1 & -> & H).
    apply IH2 in H as (pre2 & s2 & g2 & -> & H).
    exists (pre1 ++ pre2), s2, g2. by rewrite app_assoc.
  - destruct (mtch r1 s g k) eqn:E; [injection H as ->; eauto|eauto].
  - case_match; [done|]. apply first_down_some in H as [j H].
    exists (take j s), (drop j s), g. by rewrite take_drop.
  - apply IH in H as (pre & s' & g' & -> & H). eauto.
Qed.

Lemma mtch_cat_suffix r1 r2 s g k x :
  mtch (Cat r1 r2) s g k = Some x ->
  exists pre s' g', s = pre ++ s' /\ mtch r2 s' g' k = Some x.
Proof. apply (mtch_suffix r1 s g (fun s' g' => mtch r2 s' g' k)). Qed.

Lemma mtch_lits_inv w s g k x :
  mtch (lits w) s g k = Some x -> exists s', s = w ++ s' /\ k s' g = Some x.
Proof.
  revert s. induction w as [|c w IH]; intros s H; simpl in H; [by exists s|].
  destruct s as [|d s]; [done|]. destruct (Ascii.eqb_spec c d) as [->|]; [|done].
  apply IH in H as (s' & -> & H). by exists s'.
Qed.
End Forward.

#[export] Hint Rewrite @mtch_lits run_len_all run_len_nil take_consumed : pyrw.

(** ** The reference semantics *)

(** [matches r s g s' g']: [r] matches a prefix of [s], leaves the rest
    [s'], and turns the captured groups [g] into [g'].  The relation
    says which matches exist, in no order; the matcher picks the one
    Python's engine picks. *)
Inductive matches : regex -> list ascii -> groups -> list ascii -> groups -> Prop :=
  | MEps s g : matches Eps s g s g
  | MLit c s g : matches (Lit c) (c :: s) g s g
  | MCls p c s g : p c = true -> matches (Cls p) (c :: s) g s g
  | MCat r1 r2 s g s1 g1 s2 g2 :
      matches r1 s g s1 g1 -> matches r2 s1 g1 s2 g2 -> matches (Cat r1 r2) s g s2 g2
  | MAltL r1 r2 s g s' g' : matches r1 s g s' g' -> matches (Alt r1 r2) s g s' g'
  | MAltR r1 r2 s g s' g' : matches r2 s g s' g' -> matches (Alt r1 r2) s g s' g'
  | MRep p lo hi s g n :
      (lo <= n)%nat -> (n <= length s)%nat -> forallb p (take n s) = true ->
      match hi with Some h => (n <= h)%nat | None => True end ->
      matches (Rep p lo hi) s g (drop n s) g
  | MGrp i r s g s' g' :
      matches r s g s' g' ->
      matches (Grp i r) s g s' (<[i := take (length s - length s') s]> g').

(** A match consumes a prefix of the input. *)
Lemma matches_consumed r s g s' g' : matches r s g s' g' -> exists pre, s = pre ++ s'.
Proof.
  induction 1 as [s g|c s g|p c s g _|r1 r2 s g s1 g1 s2 g2 _ [p1 ->] _ [p2 ->]|
                  r1 r2 s g s' g' _ IH|r1 r2 s g s' g' _ IH|p lo hi s g n|i r s g s' g' _ IH].
  - by exists [].
  - by exists [c].
  - by exists [c].
  - exists (p1 ++ p2). by rewrite app_assoc.
  - exact IH.
  - exact IH.
  - exists (take n s). by rewrite take_drop.
  - exact IH.
Qed.

(** A group records the text its pattern consumed. *)
Lemma matches_grp_inv i r s g s' g' :
  matches (Grp i r) s g s' g' ->
  exists pre g0, s = pre ++ s' /\ matches r s g s' g0 /\ g' = <[i := pre]> g0.
Proof.
  intros H. inversion H as [| | | | | | |i' r' s0 g0 s1 g1 Hm]; subst.
  destruct (matches_consumed _ _ _ _ _ Hm) as [pre ->].
  exists pre, g1. split_and!; [done|done|]. by rewrite take_consumed.
Qed.

(** The counts a repetition may take: [run_len] is the largest. *)
Lemma run_len_spec p hi s n :
  (n <= run_len p hi s)%nat <->
  (n <= length s)%nat /\ forallb p (take n s) = true /\
  match hi with Some h => (n <= h)%nat | None => True end.
Proof.
  revert hi n. induction s as [|c s IH]; intros hi n.
  - rewrite run_len_nil. destruct n as [|n]; simpl.
    + split; [|lia]. intros _. split_and!; [lia|done|destruct hi; [lia|done]].
    + split; [lia|]. intros [? _]. lia.
  - destruct hi as [[|h]|]; simpl.
    + split; [|intros (_ & _ & ?); lia].
      intros Hn. assert (n = O) as -> by lia. simpl. split_and!; [lia|done|lia].
    + destruct n as [|n]; simpl; [split; [intros _; split_and!; [lia|done|lia]|lia]|].
      destruct (p c) eqn:Hc; simpl.
      * rewrite <- Nat.succ_le_mono, IH. simpl.
        split; intros (? & ? & ?); split_and!; done || lia.
      * split; [lia|]. intros (_ & ? & _). discriminate.
    + destruct n as [|n]; simpl; [split; [intros _; split_and!; [lia|done|done]|lia]|].
      destruct (p c) eqn:Hc; simpl.
      * rewrite <- Nat.succ_le_mono, IH. simpl.
        split; intros (? & ? & ?); split_and!; done || lia.
      * split; [lia|]. intros (_ & ? & _). discriminate.
Qed.

Section Reference.
Context {R : Type}.
Implicit Types (k : list ascii -> groups -> option R) (f : nat -> option R) (x : R).

(** The count [first_down] succeeds with is one it tried. *)
Lemma first_down_range lo n f x :
  (lo <= n)%nat -> first_down lo n f = Some x -> exists j, (lo <= j <= n)%nat /\ f j = Some x.
Proof.
  induction n as [|n IH]; intros Hlo; simpl;
    (destruct (f _) eqn:E; [intros [= <-]; eexists; split; [|exact E]; lia|]).
  - done.
  - destruct (lo <=? n)%nat eqn:El; [|done]. apply Nat.leb_le in El.
    intros H. destruct (IH El H) as (j & ? & ?). exists j. split; [lia|done].
Qed.

(** Soundness: a success of the matcher comes from a match of the
    reference semantics. *)
Lemma mtch_sound r s g k x :
  mtch r s g k = Some x -> exists s' g', matches r s g s' g' /\ k s' g' = Some x.
Proof.
  revert s g k.
  induction r as [| c | p | r1 IH1 r2 IH2 | r1 IH1 r2 IH2 | p lo hi | i r IH];
    intros s g k H; simpl in H.
  - eexists _, _. split; [constructor|done].
  - destruct s as [|d s]; [done|]. destruct (Ascii.eqb_spec c d) as [->|]; [|done].
    eexists _, _. split; [constructor|done].
  - destruct s as [|d s]; [done|]. destruct (p d) eqn:Hp; [|done].
    eexists _, _. split; [by constructor|done].
  - apply IH1 in H as (s1 & g1 & H1 & H). apply IH2 in H as (s2 & g2 & H2 & H).
    eexists _, _. split; [by econstructor|done].
  - destruct (mtch r1 s g k) eqn:E.
    + injection H as ->. apply IH1 in E as (s' & g' & ? & ?).
      eexists _, _. split; [by apply MAltL|done].
    + apply IH2 in H as (s' & g' & ? & ?). eexists _, _. split; [by apply MAltR|done].
  - destruct (run_len p hi s <? lo)%nat eqn:El; [done|]. apply Nat.ltb_ge in El.
    apply first_down_range in H as (j & Hj & H); [|done].
    destruct (proj1 (run_len_spec p hi s j) ltac:(lia)) as (? & ? & ?).
    exists (drop j s), g. split; [apply MRep; [lia|done..]|exact H].
  - apply IH in H as (s' & g' & ? & ?). eexists _, _. split; [by apply MGrp|done].
Qed.

End Reference.

Lemma match_at_sound r s m :
  match_at r s = Some m -> matches r s ∅ (m_rest m) (m_groups m).
Proof.
  unfold match_at. intros H. apply mtch_sound in H as (s' & g' & Hm & [= <-]). done.
Qed.

(** ** Forward reasoning on the reference semantics *)

Lemma is_digit_nat c : is_digit c = true -> (48 <= nat_of_ascii c <= 57)%nat.
Proof. unfold is_digit. intros [H1 H2]%andb_prop. apply Nat.leb_le in H1, H2. lia. Qed.

Lemma in_range_nat lo hi c :
  in_range lo hi c = true -> (nat_of_ascii lo <= nat_of_ascii c <= nat_of_ascii hi)%nat.
Proof. unfold in_range. intros [H1 H2]%andb_prop. apply Nat.leb_le in H1, H2. lia. Qed.

(** The text one or two characters consumed. *)
Lemma consumed_2 (a b : ascii) pre s : a :: b :: s = pre ++ s -> pre = [a; b].
Proof. intros H. symmetry. exact (app_inv_tail s [a; b] pre H). Qed.

Lemma consumed_1 (a : ascii) pre s : a :: s = pre ++ s -> pre = [a].
Proof. intros H. symmetry. exact (app_inv_tail s [a] pre H). Qed.

(** Turn class tests on characters into bounds on their codes, with the
    codes of literal characters evaluated. *)
Ltac char_bounds :=
  repeat match goal with
  | H : is_digit _ = true |- _ => apply is_digit_nat in H
  | H : in_range _ _ _ = true |- _ => apply in_range_nat in H
  end;
  repeat match goal with
  | H : context [nat_of_ascii (Ascii ?a ?b ?c ?d ?e ?f ?g ?h)] |- _ =>
      let v := eval vm_compute in (nat_of_ascii (Ascii a b c d e f g h)) in
      change (nat_of_ascii (Ascii a b c d e f g h)) with v in H
  end.

(** Invert the derivations of concatenations, alternatives, literals and
    classes. *)
Ltac matches_inv :=
  repeat match goal with
  | H : matches (Cat _ _) _ _ _ _ |- _ => inversion H; subst; clear H
  | H : matches (Alt _ _) _ _ _ _ |- _ => inversion H; subst; clear H
  | H : matches (Lit _) _ _ _ _ |- _ => inversion H; subst; clear H
  | H : matches (Cls _) _ _ _ _ |- _ => inversion H; subst; clear H
  end.

