(* ===== verification/Http.v ===== *)
(** * The world the program acts on: the network, the file system, time

    A [world] holds the remote server, the trace of observable events
    and the file system.  The server is a function from the full request
    (URL, headers, timeout, streaming flag) to a response, so a server
    that rejects requests without the browser headers is a server too.
    The operations are the library calls of the program:
    [requests.get], [Response.raise_for_status], [os.makedirs] with
    [exist_ok=True], [os.path.join], a streamed binary write
    ([open(path, 'wb')] and [f.write(chunk)] over
    [response.iter_content]), and [time.sleep]. *)

From stdpp Require Import base list gmap strings sets.
From Stdlib Require Import ZArith Ascii String.
From S2P Require Import Prelude PyStr.

Open Scope Z_scope.

Record request := Request {
  req_url : string;
  req_headers : list (string * string);
  req_timeout : Z;          (* seconds *)
  req_stream : bool
}.

(** What the server does with a request: an HTTP answer whose body may
    break off after [body] ([broken]), or a failure below HTTP. *)
Inductive response :=
  | Resp (status : Z) (body : string) (broken : bool)
  | NetFail (e : req_error).

(** The [Response] object the program reads. *)
Record resp := MkResp { status_code : Z; content : string; broken : bool }.

Inductive event :=
  | EvGet (r : request)
  | EvSleep (ms : Z)
  | EvProgress (current total : Z).

Record world := World {
  server : request -> response;
  trace : list event;                (* oldest first *)
  files : gmap string string;        (* path -> content *)
  dirs : gset string
}.

Definition emit (e : event) (w : world) : world :=
  World (server w) (trace w ++ [e]) (files w) (dirs w).

Definition set_files (fs : gmap string string) (w : world) : world :=
  World (server w) (trace w) fs (dirs w).

Definition set_dirs (ds : gset string) (w : world) : world :=
  World (server w) (trace w) (files w) ds.

(** ** [requests] *)

(** [requests.get(url, headers=..., timeout=..., stream=...)].  Without
    [stream=True] the body is read inside [get], so a broken body raises
    there; with [stream=True] it raises later, in [iter_content]. *)
Definition requests_get (r : request) : PyM world resp :=
  fun w =>
    let w' := emit (EvGet r) w in
    match server w r with
    | NetFail e => (Exc (RequestException e), w')
    | Resp code body br =>
        if br && negb (req_stream r)
        then (Exc (RequestException ChunkedEncodingError), w')
        else (Ok (MkResp code body br), w')
    end.

(** [response.raise_for_status()]: client and server errors. *)
Definition raise_for_status (r : resp) : PyM world unit :=
  if (400 <=? status_code r) && (status_code r <? 600)
  then raise (HTTPError (status_code r))
  else ret tt.

(** ** [os] *)

(** [os.makedirs(path, exist_ok=True)]: an empty path and a path that
    names a file raise; an existing directory is fine. *)
Definition os_makedirs (p : string) : PyM world unit :=
  fun w =>
    if decide (p = EmptyString) then (Exc OSError, w)
    else if decide (p ∈ dom (files w)) then (Exc OSError, w)
    else (Ok tt, set_dirs ({[p]} ∪ dirs w) w).

Definition starts_with_slash (l : list ascii) : bool :=
  match l with
  | c :: _ => Ascii.eqb c "/"%char
  | [] => false
  end.

(** [os.path.join(a, b)] on POSIX: an absolute [b] wins, and a [/] is
    inserted unless [a] is empty or already ends with one. *)
Definition os_path_join (a b : string) : string :=
  if starts_with_slash (list_ascii_of_string b) then b
  else if String.eqb a EmptyString || starts_with_slash (rev (list_ascii_of_string a))
  then (a ++ b)%string
  else (a ++ "/" ++ b)%string.

(** [with open(path, 'wb') as f: for chunk in r.iter_content(8192):
    f.write(chunk)]: opening a directory raises [IsADirectoryError]; the
    chunks received before a broken transfer stay in the file. *)
Definition write_stream (path : string) (r : resp) : PyM world unit :=
  fun w =>
    if decide (path ∈ dirs w) then (Exc OSError, w)
    else
      let w' := set_files (<[path := content r]> (files w)) w in
      if broken r then (Exc (RequestException ChunkedEncodingError), w')
      else (Ok tt, w').

(** ** [time] *)

Definition time_sleep (ms : Z) : PyM world unit :=
  fun w => (Ok tt, emit (EvSleep ms) w).

(** ** Lemmas *)

Lemma emit_server e w : server (emit e w) = server w.
Proof. reflexivity. Qed.

Lemma emit_files e w : files (emit e w) = files w.
Proof. reflexivity. Qed.

Lemma emit_dirs e w : dirs (emit e w) = dirs w.
Proof. reflexivity. Qed.

Lemma emit_trace e w : trace (emit e w) = trace w ++ [e].
Proof. reflexivity. Qed.

(** A [get] changes only the trace, by the one request it sends. *)
Lemma requests_get_effect r w :
  snd (requests_get r w) = emit (EvGet r) w.
Proof. unfold requests_get. destruct (server w r); [case_match|]; done. Qed.

Lemma requests_get_stream r w code body br :
  req_stream r = true -> server w r = Resp code body br ->
  requests_get r w = (Ok (MkResp code body br), emit (EvGet r) w).
Proof.
  intros Hs Hr. unfold requests_get. rewrite Hr, Hs, andb_false_r. done.
Qed.

Lemma os_path_join_rel (a b : string) :
  starts_with_slash (list_ascii_of_string b) = false ->
  String.eqb a EmptyString = false ->
  starts_with_slash (rev (list_ascii_of_string a)) = false ->
  os_path_join a b = (a ++ "/" ++ b)%string.
Proof. intros Hb Ha Ha'. unfold os_path_join. by rewrite Hb, Ha, Ha'. Qed.

#[export] Hint Rewrite emit_server emit_files emit_dirs emit_trace : pyrw.

(** The requests among a list of events, in order. *)
Definition gets (evs : list event) : list request :=
  omap (fun e => match e with EvGet r => Some r | _ => None end) evs.

Lemma gets_app evs1 evs2 : gets (evs1 ++ evs2) = gets evs1 ++ gets evs2.
Proof. apply omap_app. Qed.

