(* ===== verification/Downloader.v ===== *)
(** * [src/resource_downloader.py]: the gallery downloader

    [download_pixiv_gallery(start_url, download_dir)] parses the seed URL
    with [gallery_pattern] into a base URL, an artwork id and an
    extension ([parse_seed]).  It creates the download directory
    ([os_makedirs]) and runs [while True] over [page_num = 0, 1, ...]
    ([gallery_step] is one iteration).  Each iteration requests
    [{base}{id}_p{page}{ext}] with streaming.  A 200 is written to
    [{dir}/{filename}], then the page number grows and the loop sleeps
    0.5 s.  A 404 ends the series; another status or a
    [RequestException] also ends the loop.  The function returns [None] and
    reports through [print]; the model returns the report
    ([gallery_report]) that the prints show. *)

From stdpp Require Import base list gmap strings sets.
From Stdlib Require Import ZArith Ascii String.
From S2P Require Import Prelude PyStr Regex Http.

Open Scope Z_scope.

(** ** The seed URL *)

(** [re.compile(r'(https?://.*/)(\d+)_p\d+(\..+)')] *)
Definition gallery_pattern : regex :=
  Cat (Grp 1 (Cat (lits (list_ascii_of_string "http"))
             (Cat (Rep (is_char "s") 0 (Some 1%nat))
             (Cat (lits (list_ascii_of_string "://"))
                  (Cat (Rep dot 0 None) (Lit "/"))))))
  (Cat (Grp 2 (Rep is_digit 1 None))
  (Cat (lits (list_ascii_of_string "_p"))
  (Cat (Rep is_digit 1 None)
       (Grp 3 (Cat (Lit ".") (Rep dot 1 None)))))).

Record seed := Seed { base_url : string; illust_id : string; extension : string }.

(** [match = pattern.match(start_url)];
    [base_url, illust_id, extension = match.groups()] *)
Definition parse_seed (start_url : string) : option seed :=
  m ← re_match gallery_pattern start_url;
  b ← group m 1;
  i ← group m 2;
  e ← group m 3;
  Some (Seed b i e).

(** ** One page *)

Definition gallery_headers : list (string * string) :=
  [("Referer", "https://www.pixiv.net/");
   ("User-Agent", "Mozilla/5.0 (Windows NT 10.0; Win64; x64) AppleWebKit/537.36 (KHTML, like Gecko) Chrome/108.0.0.0 Safari/537.36")]%string.

(** [filename = f"{illust_id}_p{page_num}{extension}"] *)
Definition page_filename (sd : seed) (page_num : nat) : string :=
  (illust_id sd ++ "_p" ++ py_str (Z.of_nat page_num) ++ extension sd)%string.

(** [current_url = f"{base_url}{filename}"] and the request
    [requests.get(current_url, headers=headers, stream=True, timeout=20)]. *)
Definition page_request (sd : seed) (page_num : nat) : request :=
  Request (base_url sd ++ page_filename sd page_num) gallery_headers 20 true.

(** [local_filepath = os.path.join(download_dir, filename)] *)
Definition page_path (sd : seed) (dir : string) (page_num : nat) : string :=
  os_path_join dir (page_filename sd page_num).

(** Why the loop stopped. *)
Inductive gallery_end :=
  | EndNotFound                (* 404: the series is complete *)
  | EndStatus (code : Z)       (* another status *)
  | EndNetwork (e : exn).      (* a RequestException *)

(** One iteration of [while True].  The [try] block covers the request
    and the write; its [except RequestException] ends the loop, while an
    [OSError] of [open] escapes the function. *)
Definition gallery_step (sd : seed) (dir : string) (page_num : nat)
    : PyM world (step nat gallery_end) :=
  stop <- try_except is_request_exception
            (response <- requests_get (page_request sd page_num) ;;
             if status_code response =? 200 then
               write_stream (page_path sd dir page_num) response ;;
               ret None
             else if status_code response =? 404 then ret (Some EndNotFound)
             else ret (Some (EndStatus (status_code response))))
            (fun e => ret (Some (EndNetwork e))) ;;
  match stop with
  | Some reason => ret (Break reason)
  | None => time_sleep 500 ;; ret (Continue (S page_num))
  end.

(** What the prints of [download_pixiv_gallery] report.  [OutOfFuel] is
    not a behaviour of the program: the theorems show that enough fuel
    never yields it when the series ends. *)
Inductive gallery_report :=
  | ParseFailed
  | Finished (reason : gallery_end)
  | OutOfFuel (page_num : nat).

(** [download_pixiv_gallery(start_url, download_dir)], with [fuel]
    iterations of [while True]. *)
Definition download_pixiv_gallery (fuel : positive) (start_url download_dir : string)
    : PyM world gallery_report :=
  match parse_seed start_url with
  | None => ret ParseFailed
  | Some sd =>
      os_makedirs download_dir ;;
      r <- iter_pos fuel (gallery_step sd download_dir) 0%nat ;;
      match r with
      | Break reason => ret (Finished reason)
      | Continue page_num => ret (OutOfFuel page_num)
      end
  end.

(** ** What one page does *)

(** The exit a server answer causes, [None] when the loop goes on: only
    a complete 200 continues. *)
Definition page_outcome (r : response) : option gallery_end :=
  match r with
  | NetFail e => Some (EndNetwork (RequestException e))
  | Resp code _ br =>
      if code =? 200 then
        (if br then Some (EndNetwork (RequestException ChunkedEncodingError)) else None)
      else if code =? 404 then Some EndNotFound
      else Some (EndStatus code)
  end.

(** The file a page leaves behind: a 200 writes the body it received,
    also when the transfer broke off. *)
Definition page_write (r : response) (path : string) (fs : gmap string string)
    : gmap string string :=
  match r with
  | Resp code body _ => if code =? 200 then <[path := body]> fs else fs
  | NetFail _ => fs
  end.

(** The files and events of the pages [k], ..., [k+m-1] that continued. *)
Fixpoint pages_saved (srv : request -> response) (sd : seed) (dir : string)
    (k m : nat) (fs : gmap string string) : gmap string string :=
  match m with
  | O => fs
  | S m' => pages_saved srv sd dir (S k) m'
              (page_write (srv (page_request sd k)) (page_path sd dir k) fs)
  end.

Fixpoint pages_trace (sd : seed) (k m : nat) : list event :=
  match m with
  | O => []
  | S m' => EvGet (page_request sd k) :: EvSleep 500 :: pages_trace sd (S k) m'
  end.

Lemma pages_trace_snoc sd k j :
  pages_trace sd k j ++ [EvGet (page_request sd (k + j)); EvSleep 500] = pages_trace sd k (S j).
Proof.
  revert k. induction j as [|j IH]; intros k.
  - simpl. by rewrite Nat.add_0_r.
  - change (pages_trace sd k (S ?n)) with
      (EvGet (page_request sd k) :: EvSleep 500 :: pages_trace sd (S k) n).
    rewrite <- (IH (S k)), Nat.add_succ_r. reflexivity.
Qed.

(** The world after the request for page [k] and its write. *)
Definition after_page (sd : seed) (dir : string) (k : nat) (w : world) : world :=
  set_files (page_write (server w (page_request sd k)) (page_path sd dir k) (files w))
            (emit (EvGet (page_request sd k)) w).

(** One iteration, on every branch: the request is sent; a 200 is written;
    the loop continues after a sleep on a complete 200 and stops with
    [page_outcome] otherwise. *)
Lemma gallery_step_spec sd dir k w :
  page_path sd dir k ∉ dirs w ->
  gallery_step sd dir k w =
    match page_outcome (server w (page_request sd k)) with
    | None => (Ok (Continue (S k)), emit (EvSleep 500) (after_page sd dir k w))
    | Some e => (Ok (Break e), after_page sd dir k w)
    end.
Proof.
  intros Hdir. unfold gallery_step, after_page, requests_get, page_outcome, page_write.
  py_unfold. simpl req_stream.
  destruct (server w (page_request sd k)) as [code body br|e]; [|reflexivity].
  rewrite andb_false_r. unfold write_stream. simpl.
  destruct (code =? 200).
  - case_decide as Hd; [by destruct Hdir|]. destruct br; reflexivity.
  - destruct (code =? 404); reflexivity.
Qed.

Lemma after_page_server sd dir k w : server (after_page sd dir k w) = server w.
Proof. reflexivity. Qed.

Lemma after_page_dirs sd dir k w : dirs (after_page sd dir k w) = dirs w.
Proof. reflexivity. Qed.

#[export] Hint Rewrite after_page_server after_page_dirs : pyrw.

(** ** The loop *)

Section GalleryLoop.
Variables (sd : seed) (dir : string).

(** The world after pages [k .. k+m-1] continued. *)
Definition after_pages (k m : nat) (w : world) : world :=
  World (server w) (trace w ++ pages_trace sd k m)
        (pages_saved (server w) sd dir k m (files w)) (dirs w).

(** Pages [k .. k+m-1] answer a complete 200, page [k+m] does not, and
    no page path is a directory. *)
Definition series_ends (w : world) (k m : nat) (e : gallery_end) : Prop :=
  (forall j, (k <= j < k + m)%nat -> page_outcome (server w (page_request sd j)) = None) /\
  page_outcome (server w (page_request sd (k + m))) = Some e /\
  (forall j, (k <= j <= k + m)%nat -> page_path sd dir j ∉ dirs w).

Lemma after_pages_zero k w : after_pages k 0 w = w.
Proof. destruct w. unfold after_pages. simpl. by rewrite app_nil_r. Qed.

Lemma after_pages_succ k m w :
  after_pages (S k) m (emit (EvSleep 500) (after_page sd dir k w)) = after_pages k (S m) w.
Proof.
  unfold after_pages, after_page. simpl. f_equal. by rewrite <- !app_assoc.
Qed.

(** The loop from page [k] stops at the first page that does not answer
    a complete 200, as soon as the fuel exceeds the pages before it. *)
Lemma gallery_loop_ends m : forall k w e fuel,
  series_ends w k m e -> (m < fuel)%nat ->
  iter_nat fuel (gallery_step sd dir) k w =
    (Ok (Break e), after_page sd dir (k + m) (after_pages k m w)).
Proof.
  induction m as [|m IH]; intros k w e fuel (Hok & Hend & Hdir) Hfuel;
    (destruct fuel as [|fuel]; [lia|]); rewrite iter_nat_S, gallery_step_spec by (apply Hdir; lia).
  - rewrite Nat.add_0_r in Hend |- *. by rewrite Hend, after_pages_zero.
  - rewrite Hok by lia. rewrite (IH (S k) _ e fuel); [|split_and!|lia].
    + by rewrite after_pages_succ, Nat.add_succ_r.
    + intros j ?. apply Hok. lia.
    + by rewrite Nat.add_succ_r in Hend.
    + intros j ?. apply Hdir. lia.
Qed.
End GalleryLoop.

(** The world after [os.makedirs(download_dir, exist_ok=True)]. *)
Definition with_dir (dir : string) (w : world) : world := set_dirs ({[dir]} ∪ dirs w) w.

Lemma os_makedirs_new dir w :
  dir <> EmptyString -> dir ∉ dom (files w) -> os_makedirs dir w = (Ok tt, with_dir dir w).
Proof. intros H1 H2. unfold os_makedirs. by rewrite !decide_False. Qed.

(** One iteration on any answer and any file system: it sends exactly the
    request for its page, and sleeps only when it continues to the next
    page. *)
Lemma gallery_step_trace sd dir k w :
  match gallery_step sd dir k w with
  | (Ok (Continue l), w') =>
      l = S k /\ trace w' = trace w ++ [EvGet (page_request sd k); EvSleep 500]
  | (_, w') => trace w' = trace w ++ [EvGet (page_request sd k)]
  end.
Proof.
  unfold gallery_step, requests_get, write_stream. py_unfold.
  assert (Hs : req_stream (page_request sd k) = true) by reflexivity. rewrite Hs.
  destruct (server w (page_request sd k)) as [code body br|e]; simpl; [|done].
  rewrite andb_false_r. simpl.
  destruct (code =? 200); [|destruct (code =? 404); done].
  case_decide; [done|]. destruct br; simpl; [done|]. by rewrite <- app_assoc.
Qed.

(** One iteration does not change the server. *)
Lemma gallery_step_server sd dir k w : server (snd (gallery_step sd dir k w)) = server w.
Proof.
  unfold gallery_step, requests_get, write_stream, time_sleep. py_unfold.
  destruct (server w (page_request sd k)) as [code body br|e]; simpl; [|done].
  repeat (case_match; simplify_eq/=); done.
Qed.

Section GalleryTop.
Variables (sd : seed) (dir : string).

(** A series that never ends keeps the loop running on every fuel. *)
Lemma gallery_loop_endless m : forall k w,
  (forall j, (k <= j)%nat -> page_outcome (server w (page_request sd j)) = None) ->
  (forall j, (k <= j)%nat -> page_path sd dir j ∉ dirs w) ->
  iter_nat m (gallery_step sd dir) k w =
    (Ok (Continue (k + m)%nat), after_pages sd dir k m w).
Proof.
  induction m as [|m IH]; intros k w Hok Hdir.
  - by rewrite Nat.add_0_r, after_pages_zero.
  - rewrite iter_nat_S, gallery_step_spec by (apply Hdir; lia). rewrite Hok by lia.
    rewrite IH; [| intros j ?; apply Hok; lia | intros j ?; apply Hdir; lia].
    by rewrite after_pages_succ, Nat.add_succ_r.
Qed.

(** C23: Invariant of the loop: the requests sent so far are for the pages
    [k, k+1, ...] in order, each followed by the 0.5 s sleep except a
    last one after which the loop left. *)
Lemma gallery_loop_trace n k w :
  exists j tail,
    trace (snd (iter_nat n (gallery_step sd dir) k w)) = trace w ++ pages_trace sd k j ++ tail /\
    (tail = [] \/ tail = [EvGet (page_request sd (k + j))]).
Proof.
  set (I := fun (l : nat) (w' : world) => exists j,
              l = (k + j)%nat /\ trace w' = trace w ++ pages_trace sd k j).
  set (Q := fun (_ : outcome (step nat gallery_end)) (w' : world) => exists j tail,
              trace w' = trace w ++ pages_trace sd k j ++ tail /\
              (tail = [] \/ tail = [EvGet (page_request sd (k + j))])).
  refine (iter_nat_inv I Q (gallery_step sd dir) _ _ n k w _).
  - intros l w' (j & -> & Ht). pose proof (gallery_step_trace sd dir (k + j) w') as Hs.
    destruct (gallery_step sd dir (k + j) w') as [[[l'|x]|e] w''].
    + destruct Hs as [-> Hs]. exists (S j). split; [lia|].
      rewrite Hs, Ht, <- !app_assoc. f_equal. apply pages_trace_snoc.
    + exists j, [EvGet (page_request sd (k + j))]. rewrite Hs, Ht, app_assoc. auto.
    + exists j, [EvGet (page_request sd (k + j))]. rewrite Hs, Ht, app_assoc. auto.
  - intros l w' (j & _ & Ht). exists j, []. rewrite app_nil_r. auto.
  - exists 0%nat. rewrite Nat.add_0_r, app_nil_r. auto.
Qed.
End GalleryTop.

(** ** The seed URL *)

(** Every URL the pattern accepts contains [_p]. *)
Lemma parse_seed_has_p (url : string) (sd : seed) :
  parse_seed url = Some sd -> py_contains "_p" url = true.
Proof.
  unfold parse_seed, re_match, match_at.
  destruct (mtch gallery_pattern _ _ _) as [m|] eqn:E; [intros _|done].
  unfold gallery_pattern in E.
  apply mtch_cat_suffix in E as (pre1 & s1 & g1 & Hs & E).
  apply mtch_cat_suffix in E as (pre2 & s2 & g2 & -> & E).
  apply mtch_lits_inv in E as (s3 & -> & _).
  unfold py_contains. rewrite Hs, app_assoc. apply contains_l_app.
Qed.

(** The seed pattern reads back the parts of a URL of the form
    [http(s)://{path}/{digits}_p{digits}.{ext}]: the base is everything up
    to the last [/], as the greedy [.*/] of the pattern finds it. *)
Lemma parse_seed_fields (secure : bool) (host_path id page ext : list ascii) :
  newline ∉ host_path -> all_digits id = true -> id <> [] ->
  all_digits page = true -> page <> [] ->
  newline ∉ ext -> "/"%char ∉ ext -> ext <> [] ->
  parse_seed (string_of_list_ascii
    (list_ascii_of_string "http" ++ (if secure then ["s"%char] else []) ++
     list_ascii_of_string "://" ++ host_path ++ "/"%char ::
     id ++ list_ascii_of_string "_p" ++ page ++ "."%char :: ext)) =
  Some (Seed (string_of_list_ascii (list_ascii_of_string "http" ++
                (if secure then ["s"%char] else []) ++
                list_ascii_of_string "://" ++ host_path ++ ["/"%char]))
             (string_of_list_ascii id) (string_of_list_ascii ("."%char :: ext))).
Proof.
  intros Hhp Hid Hid0 Hpg Hpg0 Hext Hext' Hext0.
  set (sopt := if secure then ["s"%char] else []).
  set (rest := id ++ list_ascii_of_string "_p" ++ page ++ "."%char :: ext).
  set (pre := list_ascii_of_string "http" ++ sopt ++ list_ascii_of_string "://" ++ host_path ++ ["/"%char]).
  set (G := <[3%nat := "."%char :: ext]> (<[2%nat := id]> (<[1%nat := pre]> (∅ : groups)))).
  assert (Hm : mtch gallery_pattern (list_ascii_of_string "http" ++ sopt ++
     list_ascii_of_string "://" ++ host_path ++ "/"%char :: rest) ∅
     (fun s' g => Some (MatchObj g s')) = Some (MatchObj G [])).
  { unfold gallery_pattern.
    apply mtch_cat_intro, mtch_grp_intro, mtch_cat_intro, mtch_lits_intro. cbv beta.
    apply mtch_cat_intro.
    assert (Hopt : forall k, k (list_ascii_of_string "://" ++ host_path ++ "/"%char :: rest) (∅ : groups) = Some (MatchObj G []) ->
       mtch (Rep (is_char "s") 0 (Some 1%nat)) (sopt ++ list_ascii_of_string "://" ++ host_path ++ "/"%char :: rest) ∅ k = Some (MatchObj G [])).
    { intros k Hk. subst sopt. destruct secure.
      - by apply mtch_opt_present_intro.
      - by apply mtch_opt_absent_intro. }
    apply Hopt. clear Hopt. cbv beta.
    apply mtch_cat_intro, mtch_lits_intro. cbv beta.
    assert (Hnl : newline ∉ rest).
    { unfold rest. simpl list_ascii_of_string.
      pose proof (all_digits_no newline id eq_refl Hid).
      pose proof (all_digits_no newline page eq_refl Hpg). set_solver. }
    assert (Hsl : "/"%char ∉ rest).
    { unfold rest. simpl list_ascii_of_string.
      pose proof (all_digits_no "/" id eq_refl Hid).
      pose proof (all_digits_no "/" page eq_refl Hpg). set_solver. }
    apply mtch_cat_intro, mtch_dotstar_lit_intro; [done|done|done|done|]. cbv beta.
    rewrite (take_consumed_eq _ pre rest) by (unfold pre; rewrite <- !app_assoc; reflexivity).
    apply mtch_cat_intro, mtch_grp_intro.
    apply mtch_rep_run_intro; [done|reflexivity|destruct id; [done|simpl; lia]|]. cbv beta.
    rewrite (take_consumed_eq rest id) by reflexivity.
    apply mtch_cat_intro, mtch_lits_intro. cbv beta.
    apply mtch_cat_intro, mtch_rep_run_intro; [done|reflexivity|destruct page; [done|simpl; lia]|].
    cbv beta. apply mtch_grp_intro, mtch_cat_intro, mtch_lit_intro. cbv beta.
    apply mtch_rep_all_intro; [by apply forallb_dot|destruct ext; [done|simpl; lia]|].
    cbv beta. rewrite (take_consumed_eq _ ("."%char :: ext) []) by (by rewrite app_nil_r).
    reflexivity.
  }
  unfold parse_seed, re_match, match_at.
  rewrite list_ascii_of_string_of_list_ascii. fold sopt rest. rewrite Hm.
  assert (H1 : G !! 1%nat = Some pre) by (unfold G; by simplify_map_eq).
  assert (H2 : G !! 2%nat = Some id) by (unfold G; by simplify_map_eq).
  assert (H3 : G !! 3%nat = Some ("."%char :: ext)) by (unfold G; by simplify_map_eq).
  simpl. unfold group. cbn [m_groups]. rewrite H1, H2, H3. reflexivity.
Qed.


(** A seed of the shape that the pattern reads back. *)
Definition seed_wf (sd : seed) : Prop :=
  exists (secure : bool) (host_path e : list ascii),
    list_ascii_of_string (base_url sd) =
      list_ascii_of_string "http" ++ (if secure then ["s"%char] else []) ++
      list_ascii_of_string "://" ++ host_path ++ ["/"%char] /\
    (newline ∉ host_path) /\
    all_digits (list_ascii_of_string (illust_id sd)) = true /\
    list_ascii_of_string (illust_id sd) <> [] /\
    list_ascii_of_string (extension sd) = "."%char :: e /\
    (newline ∉ e) /\ ("/"%char ∉ e) /\ e <> [].

(** C10: Every page URL the downloader builds from a well-formed seed parses
    back to that seed: the file-name pattern and the parse agree. *)
Lemma parse_seed_page_url sd k :
  seed_wf sd -> parse_seed (base_url sd ++ page_filename sd k)%string = Some sd.
Proof.
  intros (secure & hp & e & Hb & Hhp & Hid & Hid0 & He & He1 & He2 & He3).
  destruct (py_str_digits (Z.of_nat k)) as [Hk Hk0]; [lia|].
  rewrite <- (string_of_list_ascii_of_string (base_url sd ++ page_filename sd k)).
  unfold page_filename. rewrite !list_ascii_of_string_app, Hb, He, <- !app_assoc.
  change (["/"%char] ++ ?X) with ("/"%char :: X).
  rewrite parse_seed_fields by done.
  destruct sd as [b i x]; cbn [base_url illust_id extension] in *.
  rewrite <- He, <- Hb.
  by rewrite !string_of_list_ascii_of_string.
Qed.

(** ** [download_pixiv_gallery] *)

(** C1: The whole function when the series ends: the seed parses, the
    directory is created, pages [0 .. n-1] are saved in order with a sleep
    after each, and page [n] (the first that is not a complete 200) stops
    the loop with its reason.  Enough fuel is [n+1] iterations. *)
Theorem download_pixiv_gallery_ends fuel url dir sd w n e :
  parse_seed url = Some sd ->
  dir <> EmptyString -> dir ∉ dom (files w) ->
  series_ends sd dir (with_dir dir w) 0 n e ->
  (n < Pos.to_nat fuel)%nat ->
  download_pixiv_gallery fuel url dir w =
    (Ok (Finished e), after_page sd dir n (after_pages sd dir 0 n (with_dir dir w))).
Proof.
  intros Hp Hd1 Hd2 Hs Hf. unfold download_pixiv_gallery. rewrite Hp. py_unfold.
  rewrite os_makedirs_new, iter_pos_nat, (gallery_loop_ends sd dir n 0 _ e) by done.
  reflexivity.
Qed.

(** C28: A seed URL without [_p] is rejected before any request, directory or
    file is touched. *)
Theorem download_malformed fuel url dir w :
  py_contains "_p" url = false ->
  download_pixiv_gallery fuel url dir w = (Ok ParseFailed, w).
Proof.
  intros H. unfold download_pixiv_gallery.
  destruct (parse_seed url) as [sd|] eqn:E; [|done].
  apply parse_seed_has_p in E. congruence.
Qed.

(** C29: A series whose every page answers a complete 200 never ends: on
    every fuel the function is still in the loop, having saved one page
    per iteration.  The loop has no upper bound of its own. *)
Theorem download_endless fuel url dir sd w :
  parse_seed url = Some sd ->
  dir <> EmptyString -> dir ∉ dom (files w) ->
  (forall j, page_outcome (server w (page_request sd j)) = None) ->
  (forall j, page_path sd dir j ∉ dirs (with_dir dir w)) ->
  download_pixiv_gallery fuel url dir w =
    (Ok (OutOfFuel (Pos.to_nat fuel)), after_pages sd dir 0 (Pos.to_nat fuel) (with_dir dir w)).
Proof.
  intros Hp Hd1 Hd2 Hok Hdir. unfold download_pixiv_gallery. rewrite Hp. py_unfold.
  rewrite os_makedirs_new, iter_pos_nat, gallery_loop_endless
    by (intros; first [apply Hok | apply Hdir | done]).
  reflexivity.
Qed.

(** One iteration raises only what [open] raises: the [except] clause
    catches every [RequestException], a broken transfer included. *)
Lemma gallery_step_raises sd dir k w e :
  fst (gallery_step sd dir k w) = Exc e -> e = OSError.
Proof.
  unfold gallery_step, requests_get, write_stream, time_sleep. py_unfold.
  destruct (server w (page_request sd k)) as [code body br|e']; simpl; [|done].
  repeat (case_match; simplify_eq/=); congruence.
Qed.

(** C22: [download_pixiv_gallery] lets no network error escape: the only
    exception it raises is the [OSError] of [os.makedirs] or [open]. *)
Theorem download_raises_only_oserror fuel url dir w e :
  fst (download_pixiv_gallery fuel url dir w) = Exc e -> e = OSError.
Proof.
  unfold download_pixiv_gallery. destruct (parse_seed url) as [sd|]; [|done].
  unfold os_makedirs. py_unfold. case_decide; [by intros [=]|].
  case_decide; [by intros [=]|]. rewrite iter_pos_nat.
  assert (Hr : forall e, fst (iter_nat (Pos.to_nat fuel) (gallery_step sd dir) 0%nat
                                (set_dirs ({[dir]} ∪ dirs w) w)) = Exc e -> e = OSError).
  { refine (iter_nat_inv (fun _ _ => True)
              (fun r _ => forall e, r = Exc e -> e = OSError) (gallery_step sd dir) _ _ _ _ _ I).
    - intros l s _. pose proof (gallery_step_raises sd dir l s) as Hs.
      destruct (gallery_step sd dir l s) as [[[l'|x]|e'] s']; [done|by intros ? [=]|].
      intros ? [= <-]. by apply Hs.
    - by intros ? ? _ ? [=]. }
  destruct (iter_nat _ _ _ _) as [r w'] eqn:E. simpl in *.
  destruct r as [[l|x]|e']; simpl; [by intros [=]|by intros [=]|]. intros [= <-]. by apply Hr.
Qed.

(** One iteration writes no file but the one of its page. *)
Lemma gallery_step_files sd dir k w p :
  p <> page_path sd dir k -> files (snd (gallery_step sd dir k w)) !! p = files w !! p.
Proof.
  intros Hp. unfold gallery_step, requests_get, write_stream, time_sleep. py_unfold.
  destruct (server w (page_request sd k)) as [code body br|e]; simpl; [|done].
  repeat (case_match; simplify_eq/=); by rewrite ?lookup_insert_ne.
Qed.

(** C21: the downloader writes only the files of the gallery's pages
    [{dir}/{id}_p{k}{ext}]: every other path of the file system keeps its
    content, whatever the server answers and however the loop ends. *)
Theorem download_writes_only_pages fuel url dir sd w p :
  parse_seed url = Some sd -> (forall k, p <> page_path sd dir k) ->
  files (snd (download_pixiv_gallery fuel url dir w)) !! p = files w !! p.
Proof.
  intros Hsd Hp. unfold download_pixiv_gallery. rewrite Hsd.
  unfold os_makedirs. py_unfold. case_decide; [done|]. case_decide; [done|].
  rewrite iter_pos_nat.
  assert (Hinv : files (snd (iter_nat (Pos.to_nat fuel) (gallery_step sd dir) 0%nat
                             (set_dirs ({[dir]} ∪ dirs w) w))) !! p = files w !! p).
  { refine (iter_nat_inv (fun _ w' => files w' !! p = files w !! p)
              (fun _ w' => files w' !! p = files w !! p) (gallery_step sd dir) _ _
              (Pos.to_nat fuel) 0%nat (set_dirs ({[dir]} ∪ dirs w) w) eq_refl).
    - intros l s Hs. pose proof (gallery_step_files sd dir l s p (Hp l)) as Hf.
      destruct (gallery_step sd dir l s) as [[[l'|x]|e] s']; simpl in Hf; congruence.
    - done. }
  destruct (iter_nat _ _ _ _) as [[[l|x]|e] w'] eqn:E; exact Hinv.
Qed.

(** ** How many files the downloader writes *)

(** A page writes one file when it answers 200, complete or not. *)
Definition writes_file (r : response) : nat :=
  match r with
  | Resp code _ _ => if code =? 200 then 1 else 0
  | NetFail _ => 0
  end.

Lemma page_outcome_none r : page_outcome r = None -> exists body, r = Resp 200 body false.
Proof.
  unfold page_outcome. destruct r as [code body [|]|e]; [| |done].
  - by destruct (code =? 200), (code =? 404).
  - destruct (code =? 200) eqn:E; [|by destruct (code =? 404)].
    apply Z.eqb_eq in E as ->. by exists body.
Qed.

Lemma page_filename_no_slash sd k :
  seed_wf sd -> starts_with_slash (list_ascii_of_string (page_filename sd k)) = false.
Proof.
  intros (secure & hp & e & _ & _ & Hid & Hid0 & _). unfold page_filename.
  rewrite list_ascii_of_string_app.
  destruct (list_ascii_of_string (illust_id sd)) as [|d l]; [done|]. simpl.
  unfold all_digits in Hid. simpl in Hid. apply andb_prop in Hid as [Hd _].
  destruct (Ascii.eqb_spec d "/") as [->|]; [discriminate|done].
Qed.

Lemma page_filename_inj sd k1 k2 :
  seed_wf sd -> page_filename sd k1 = page_filename sd k2 -> k1 = k2.
Proof.
  intros (secure & hp & e & _ & _ & _ & _ & He & _) H.
  apply (f_equal list_ascii_of_string) in H. unfold page_filename in H.
  rewrite !list_ascii_of_string_app, He in H.
  apply app_inv_head, app_inv_head, digits_app_cancel in H;
    [| apply py_str_digits; lia.. | reflexivity].
  apply list_ascii_of_string_inj, py_str_inj in H. lia.
Qed.

Lemma os_path_join_inj a b1 b2 :
  starts_with_slash (list_ascii_of_string b1) = false ->
  starts_with_slash (list_ascii_of_string b2) = false ->
  os_path_join a b1 = os_path_join a b2 -> b1 = b2.
Proof.
  intros H1 H2. unfold os_path_join. rewrite H1, H2. intros H.
  apply list_ascii_of_string_inj. apply (f_equal list_ascii_of_string) in H.
  case_match; rewrite !list_ascii_of_string_app in H; by repeat apply app_inv_head in H.
Qed.

(** Different pages have different local paths. *)
Lemma page_path_inj sd dir k1 k2 :
  seed_wf sd -> page_path sd dir k1 = page_path sd dir k2 -> k1 = k2.
Proof.
  intros Hwf H. apply os_path_join_inj in H; try by apply page_filename_no_slash.
  by apply (page_filename_inj sd).
Qed.

Lemma page_write_lookup r q p fs : p <> q -> page_write r q fs !! p = fs !! p.
Proof. intros Hne. destruct r as [code body br|e]; simpl; [case_match|]; by rewrite ?lookup_insert_ne. Qed.

Lemma page_write_size r p fs :
  fs !! p = None -> size (page_write r p fs) = (size fs + writes_file r)%nat.
Proof.
  intros Hp. destruct r as [code body br|e]; simpl; [|lia].
  case_match; [rewrite map_size_insert_None by done|]; lia.
Qed.

Section Counting.
Variables (srv : request -> response) (sd : seed) (dir : string).
Hypothesis seed_ok : seed_wf sd.

Lemma pages_saved_lookup k m fs p :
  (forall j, (k <= j < k + m)%nat -> p <> page_path sd dir j) ->
  pages_saved srv sd dir k m fs !! p = fs !! p.
Proof.
  revert k fs. induction m as [|m IH]; intros k fs Hp; [done|]. simpl.
  rewrite IH by (intros j ?; apply Hp; lia). apply page_write_lookup, Hp. lia.
Qed.

(** Pages that answer a complete 200 into fresh paths add one file each. *)
Lemma pages_saved_size k m fs :
  (forall j, (k <= j < k + m)%nat -> page_outcome (srv (page_request sd j)) = None) ->
  (forall j, (k <= j < k + m)%nat -> fs !! page_path sd dir j = None) ->
  size (pages_saved srv sd dir k m fs) = (size fs + m)%nat.
Proof.
  revert k fs. induction m as [|m IH]; intros k fs Hok Hfresh; simpl; [lia|].
  destruct (page_outcome_none (srv (page_request sd k))) as [body Eb]; [apply Hok; lia|].
  rewrite Eb. simpl. rewrite IH.
  - rewrite map_size_insert_None by (apply Hfresh; lia). lia.
  - intros j ?. apply Hok. lia.
  - intros j ?. rewrite lookup_insert_ne by (intros E; apply page_path_inj in E; [lia|done]).
    apply Hfresh. lia.
Qed.
End Counting.

(** C11: the count of files the spec asks [download_pixiv_gallery] to
    report: when the series ends at page [n] and the page paths are new,
    the function adds exactly [n] files, plus the partial file of page
    [n] when that page answered 200 and then broke off. *)
Theorem download_file_count fuel url dir sd w n e :
  parse_seed url = Some sd -> seed_wf sd ->
  dir <> EmptyString -> dir ∉ dom (files w) ->
  series_ends sd dir (with_dir dir w) 0 n e -> (n < Pos.to_nat fuel)%nat ->
  (forall k, page_path sd dir k ∉ dom (files w)) ->
  size (files (snd (download_pixiv_gallery fuel url dir w))) =
    (size (files w) + n + writes_file (server w (page_request sd n)))%nat.
Proof.
  intros Hp Hwf Hd1 Hd2 Hs Hf Hfresh.
  pose proof Hs as (Hok & _ & _).
  unfold download_pixiv_gallery. rewrite Hp. py_unfold.
  rewrite os_makedirs_new, iter_pos_nat, (gallery_loop_ends sd dir n 0 _ e) by done.
  cbn [snd files after_page after_pages set_files with_dir set_dirs emit server Nat.add].
  rewrite page_write_size, pages_saved_size; [lia|done|..].
  - intros j ?. apply Hok. lia.
  - intros j ?. by apply not_elem_of_dom.
  - rewrite pages_saved_lookup; [by apply not_elem_of_dom|].
    intros j ? E. apply page_path_inj in E; [lia|done].
Qed.

(** ** Witnesses *)

(** The scenario of the spec: pages 0 to 2 answer 200, page 3 answers
    404.  Exactly three files are written and the loop ends on the 404. *)
Definition three_pages_server (r : request) : response :=
  if String.eqb (req_url r) "https://h/x/42_p0.png" then Resp 200 "A" false
  else if String.eqb (req_url r) "https://h/x/42_p1.png" then Resp 200 "B" false
  else if String.eqb (req_url r) "https://h/x/42_p2.png" then Resp 200 "C" false
  else Resp 404 EmptyString false.

Definition three_pages_seed : seed := Seed "https://h/x/" "42" ".png".

Lemma download_pixiv_gallery_ends_witness :
  download_pixiv_gallery 10 "https://h/x/42_p0.png" "dl" (World three_pages_server [] ∅ ∅) =
    (Ok (Finished EndNotFound),
     after_page three_pages_seed "dl" 3
       (after_pages three_pages_seed "dl" 0 3 (with_dir "dl" (World three_pages_server [] ∅ ∅)))) /\
  files (after_page three_pages_seed "dl" 3
          (after_pages three_pages_seed "dl" 0 3 (with_dir "dl" (World three_pages_server [] ∅ ∅)))) =
    {[ "dl/42_p0.png" := "A"; "dl/42_p1.png" := "B"; "dl/42_p2.png" := "C" ]}.
Proof.
  split; [|vm_compute; reflexivity].
  apply (download_pixiv_gallery_ends 10 _ _ three_pages_seed _ 3 EndNotFound).
  - vm_compute. reflexivity.
  - discriminate.
  - simpl. rewrite dom_empty_L. apply not_elem_of_empty.
  - split_and!.
    + intros j Hj. destruct j as [|[|[|j]]]; [vm_compute; reflexivity..|lia].
    + vm_compute. reflexivity.
    + intros j Hj. destruct j as [|[|[|[|j]]]]; [py_decide..|lia].
  - vm_compute. lia.
Defined.

(** The spec's second scenario: page 0 answers 200 and page 1 times out:
    one file is written and the loop ends on the network error. *)
Example download_timeout_example :
  let srv := fun r : request =>
    if String.eqb (req_url r) "https://h/x/42_p0.png" then Resp 200 "A" false
    else NetFail Timeout in
  let res := download_pixiv_gallery 10 "https://h/x/42_p0.png" "dl" (World srv [] ∅ ∅) in
  fst res = Ok (Finished (EndNetwork (RequestException Timeout))) /\
  map_to_list (files (snd res)) = [("dl/42_p0.png", "A")]%string.
Proof. vm_compute. split; reflexivity. Qed.

Lemma parse_seed_page_url_witness :
  seed_wf three_pages_seed /\
  parse_seed (base_url three_pages_seed ++ page_filename three_pages_seed 7)%string =
    Some three_pages_seed.
Proof.
  assert (Hwf : seed_wf three_pages_seed).
  { exists true, (list_ascii_of_string "h/x"), (list_ascii_of_string "png").
    split_and!; solve [ vm_compute; reflexivity | discriminate
                      | py_decide ]. }
  split; [exact Hwf|]. apply parse_seed_page_url. exact Hwf.
Defined.

Lemma download_malformed_witness :
  py_contains "_p" "https://h/x/42.png" = false /\
  download_pixiv_gallery 10 "https://h/x/42.png" "dl" (World three_pages_server [] ∅ ∅) =
    (Ok ParseFailed, World three_pages_server [] ∅ ∅).
Proof.
  split; [vm_compute; reflexivity|]. apply download_malformed. vm_compute. reflexivity.
Defined.

Lemma download_endless_witness :
  download_pixiv_gallery 5 "https://h/x/42_p0.png" "dl"
      (World (fun _ => Resp 200 "A" false) [] ∅ ∅) =
    (Ok (OutOfFuel 5),
     after_pages three_pages_seed "dl" 0 5
       (with_dir "dl" (World (fun _ => Resp 200 "A" false) [] ∅ ∅))).
Proof.
  apply (download_endless 5 _ _ three_pages_seed).
  - vm_compute. reflexivity.
  - discriminate.
  - simpl. rewrite dom_empty_L. apply not_elem_of_empty.
  - intros j. reflexivity.
  - intros j. simpl. rewrite elem_of_union, elem_of_singleton.
    intros [H|H]; [|by apply not_elem_of_empty in H].
    unfold page_path, os_path_join, page_filename in H. simpl in H. discriminate.
Defined.

(** A directory in the way of page 1: [open] raises after page 0 was
    saved, and the error leaves the function. *)
Lemma download_raises_only_oserror_witness :
  let r := fst (download_pixiv_gallery 10 "https://h/x/42_p0.png" "dl"
                  (World three_pages_server [] ∅ {["dl/42_p1.png"%string]})) in
  r = Exc OSError /\ (forall e, r = Exc e -> e = OSError).
Proof.
  split; [vm_compute; reflexivity|]. intros e. apply download_raises_only_oserror.
Defined.

Lemma download_writes_only_pages_witness :
  (parse_seed "https://h/x/42_p0.png" = Some three_pages_seed /\
   forall k, "notes.txt"%string <> page_path three_pages_seed "dl" k) /\
  files (snd (download_pixiv_gallery 10 "https://h/x/42_p0.png" "dl"
                (World three_pages_server [] {["notes.txt" := "keep"]} ∅))) !! "notes.txt"%string =
    Some "keep"%string.
Proof.
  assert (Hp : forall k, "notes.txt"%string <> page_path three_pages_seed "dl" k).
  { intros k Heq. apply (f_equal (fun s => head (list_ascii_of_string s))) in Heq.
    vm_compute in Heq. discriminate. }
  split; [split; [vm_compute; reflexivity|exact Hp]|].
  rewrite (download_writes_only_pages _ _ _ three_pages_seed); [reflexivity|vm_compute; reflexivity|exact Hp].
Defined.

(** The scenario of the spec: pages 0-2 answer 200, page 3 answers 404;
    exactly three files are written. *)
Lemma download_file_count_witness :
  size (files (snd (download_pixiv_gallery 10 "https://h/x/42_p0.png" "dl"
                      (World three_pages_server [] ∅ ∅)))) = 3%nat.
Proof.
  rewrite (download_file_count 10 _ _ three_pages_seed _ 3 EndNotFound).
  - vm_compute. reflexivity.
  - vm_compute. reflexivity.
  - exists true, (list_ascii_of_string "h/x"), (list_ascii_of_string "png").
    split_and!; solve [ vm_compute; reflexivity | discriminate | py_decide ].
  - discriminate.
  - simpl. rewrite dom_empty_L. apply not_elem_of_empty.
  - split_and!.
    + intros j Hj. destruct j as [|[|[|j]]]; [vm_compute; reflexivity..|lia].
    + vm_compute. reflexivity.
    + intros j Hj. destruct j as [|[|[|[|j]]]]; [py_decide..|lia].
  - vm_compute. lia.
  - intros k. simpl. rewrite dom_empty_L. apply not_elem_of_empty.
Defined.
