(* ===== verification/PageProbe.v ===== *)
(** * [src/find_adj.py], lines 6-36: fetching and classifying one artwork page

    [build_pixiv_artwork_url] builds the page URL, [is_valid_artwork_page]
    looks for the soft-404 heading, and [get_artwork_page_content] sends
    one GET with the browser headers and a 10 s timeout.  It returns
    [None] on a 404, raises on 4xx/5xx through [raise_for_status], and
    otherwise returns the page text.

    The spec describes the probe as a classification
    [Present / Absent / Error] ([probe_result], [classify]).  The theorem
    [page_probe_refines] shows that the function, followed by the validity
    test its caller applies, implements that classification. *)

From stdpp Require Import base list gmap strings sets.
From Stdlib Require Import ZArith Ascii String.
From S2P Require Import Prelude PyStr Http.

Open Scope Z_scope.

(** [f"https://www.pixiv.net/en/artworks/{artwork_id}"] *)
Definition build_pixiv_artwork_url (artwork_id : Z) : string :=
  ("https://www.pixiv.net/en/artworks/" ++ py_str artwork_id)%string.

Definition not_found_marker : string := "<h1>Page not found</h1>".

(** ['<h1>Page not found</h1>' not in html_content] *)
Definition is_valid_artwork_page (html_content : string) : bool :=
  negb (py_contains not_found_marker html_content).

Definition page_headers : list (string * string) :=
  [("User-Agent", "Mozilla/5.0 (Windows NT 10.0; Win64; x64) AppleWebKit/537.36 (KHTML, like Gecko) Chrome/108.0.0.0 Safari/537.36");
   ("Accept", "text/html,application/xhtml+xml,application/xml;q=0.9,image/webp,*/*;q=0.8");
   ("Accept-Language", "en-US,en;q=0.5");
   ("Connection", "keep-alive");
   ("Upgrade-Insecure-Requests", "1")]%string.

(** [requests.get(url, headers=headers, timeout=10)] *)
Definition artwork_request (artwork_id : Z) : request :=
  Request (build_pixiv_artwork_url artwork_id) page_headers 10 false.

(** [get_artwork_page_content(artwork_id)] *)
Definition get_artwork_page_content (artwork_id : Z) : PyM world (option string) :=
  response <- requests_get (artwork_request artwork_id) ;;
  if status_code response =? 404 then ret None
  else
    raise_for_status response ;;
    ret (Some (content response)).

(** ** The classification of the spec *)

Inductive probe_result :=
  | Present (html : string)
  | Absent
  | ProbeError (e : exn).

(** What an answer of the server means for the artwork: a failed
    transfer or a 4xx/5xx other than 404 is an error, a 404 or a page
    with the soft-404 heading is absent, any other answer is present. *)
Definition classify (r : response) : probe_result :=
  match r with
  | NetFail e => ProbeError (RequestException e)
  | Resp code body br =>
      if br then ProbeError (RequestException ChunkedEncodingError)
      else if code =? 404 then Absent
      else if (400 <=? code) && (code <? 600) then ProbeError (HTTPError code)
      else if is_valid_artwork_page body then Present body
      else Absent
  end.

(** The class of artwork [id] on the server of [w]. *)
Definition page_class (w : world) (id : Z) : probe_result :=
  classify (server w (artwork_request id)).

(** ** Lemmas *)

(** C32: The soft-404 test: a page is invalid exactly when the heading
    [<h1>Page not found</h1>] occurs in it. *)
Lemma is_valid_artwork_page_spec (html : string) :
  is_valid_artwork_page html = false <->
  exists a b, list_ascii_of_string html = a ++ list_ascii_of_string "<h1>Page not found</h1>" ++ b.
Proof.
  unfold is_valid_artwork_page, py_contains. rewrite negb_false_iff.
  apply contains_l_spec.
Qed.

(** C5: Refinement: one call of [get_artwork_page_content], read the way its
    caller reads it, gives the class of the page.  It sends exactly one
    request: the artwork page with the browser headers.  A present page
    is returned with its text.  An absent page is a [None] (404) or a text
    with the soft-404 heading.  An error is raised. *)
Theorem page_probe_refines (id : Z) (w : world) :
  snd (get_artwork_page_content id w) = emit (EvGet (artwork_request id)) w /\
  match page_class w id with
  | Present h => fst (get_artwork_page_content id w) = Ok (Some h) /\
                 is_valid_artwork_page h = true
  | Absent => fst (get_artwork_page_content id w) = Ok None \/
              exists h, fst (get_artwork_page_content id w) = Ok (Some h) /\
                        is_valid_artwork_page h = false
  | ProbeError e => fst (get_artwork_page_content id w) = Exc e
  end.
Proof.
  unfold page_class, get_artwork_page_content, requests_get, classify, raise_for_status.
  py_unfold.
  destruct (server w (artwork_request id)) as [code body br|e]; simpl; [|done].
  destruct br; simpl; [done|].
  destruct (code =? 404); simpl; [auto|].
  destruct ((400 <=? code) && (code <? 600)); simpl; [done|].
  destruct (is_valid_artwork_page body) eqn:E; eauto.
Qed.
