(* ===== verification/AdjacentSearch.v ===== *)
(** * [src/find_adj.py], lines 39-71: the search for the adjacent artworks

    [find_adjacent_valid_artworks(center_id)] runs two loops.  The first
    walks down from [center_id - 1] while [prev_id > 0].  The second walks
    up from [center_id + 1] while [next_id < 999999999].  Both probe each
    id with [get_artwork_page_content].  A [None] (404) or a page with the
    soft-404 heading moves on to the next id; a valid page breaks.  An
    exception of the probe is not caught and leaves the function.

    Both loops are instances of [walk_step guard dir]: a guard on the id
    and a direction [-1] or [+1].  The [Walk] section proves the walk once
    ([walk_spec]): started at [start], it probes [start], [start+dir], ...
    up to the first id that fails the guard or is not absent.  The
    theorems on [find_adjacent_valid_artworks] follow from it. *)

From stdpp Require Import base list gmap strings sets.
From Stdlib Require Import ZArith Ascii String.
From S2P Require Import Prelude PyStr Http PageProbe.

Open Scope Z_scope.

(** ** The loops *)

(** The body shared by both loops (lines 47-55 and 61-69): probe [id];
    a valid page breaks with [id], anything else continues at [next]. *)
Definition probe_body (id next : Z) : PyM world (step Z Z) :=
  content <- get_artwork_page_content id ;;
  match content with
  | None => ret (Continue next)
  | Some c => if is_valid_artwork_page c then ret (Break id) else ret (Continue next)
  end.

(** One iteration of [while guard(id): ...; id += dir]. *)
Definition walk_step (guard : Z -> bool) (dir : Z) (id : Z) : PyM world (step Z Z) :=
  if guard id then probe_body id (id + dir) else ret (Break id).

(** [while prev_id > 0:] ... [prev_id -= 1] *)
Definition prev_step : Z -> PyM world (step Z Z) := walk_step (fun prev_id => 0 <? prev_id) (-1).

(** [while next_id < 999999999:] ... [next_id += 1] *)
Definition next_limit : Z := 999999999.
Definition next_step : Z -> PyM world (step Z Z) := walk_step (fun next_id => next_id <? next_limit) 1.

(** The loop variable after the loop. *)
Definition loop_value (r : step Z Z) : Z :=
  match r with Continue x => x | Break x => x end.

(** [find_adjacent_valid_artworks(center_id)].  The fuel of each loop is
    its number of iterations plus one, which [find_adjacent_terminates]
    shows to be enough. *)
Definition find_adjacent_valid_artworks (center_id : Z) : PyM world (Z * Z) :=
  p <- iter_pos (Z.to_pos center_id) prev_step (center_id - 1) ;;
  n <- iter_pos (Z.to_pos (next_limit - center_id)) next_step (center_id + 1) ;;
  ret (loop_value p, loop_value n).

(** ** One probe *)

(** What one probe does, by the class of the page. *)
Definition probe_outcome (w : world) (id next : Z) : outcome (step Z Z) :=
  match page_class w id with
  | Present _ => Ok (Break id)
  | Absent => Ok (Continue next)
  | ProbeError e => Exc e
  end.

Lemma probe_body_spec id next w :
  probe_body id next w = (probe_outcome w id next, emit (EvGet (artwork_request id)) w).
Proof.
  unfold probe_body, probe_outcome, page_class, classify, get_artwork_page_content,
    requests_get, raise_for_status.
  py_unfold. destruct (server w (artwork_request id)) as [code body [|]|e]; simpl; [done| |done].
  destruct (code =? 404); simpl; [done|].
  destruct ((400 <=? code) && (code <? 600)); simpl; [done|].
  by destruct (is_valid_artwork_page body).
Qed.

(** ** The walk, once for both directions *)

Section Walk.
Variables (guard : Z -> bool) (dir : Z).

(** The id of the [i]-th iteration. *)
Definition walk_id (start : Z) (i : nat) : Z := start + Z.of_nat i * dir.

(** The requests of [n] iterations from [start]. *)
Fixpoint walk_requests (start : Z) (n : nat) : list event :=
  match n with
  | O => []
  | S n' => EvGet (artwork_request start) :: walk_requests (start + dir) n'
  end.

(** The walk from [start] stops at its [k]-th id: the ids before pass
    the guard and are absent; the [k]-th fails the guard or is not
    absent. *)
Definition walk_stops (w : world) (start : Z) (k : nat) : Prop :=
  (forall i, (i < k)%nat ->
     guard (walk_id start i) = true /\ page_class w (walk_id start i) = Absent) /\
  (guard (walk_id start k) = true -> page_class w (walk_id start k) <> Absent).

(** The last iteration, at id [q]. *)
Definition walk_result (w : world) (q : Z) : outcome (step Z Z) :=
  if guard q then probe_outcome w q (q + dir) else Ok (Break q).

(** The world after [n] requests. *)
Definition after_walk (start : Z) (n : nat) (w : world) : world :=
  World (server w) (trace w ++ walk_requests start n) (files w) (dirs w).

Lemma walk_id_S start i : walk_id (start + dir) i = walk_id start (S i).
Proof. unfold walk_id. rewrite Nat2Z.inj_succ. ring. Qed.

Lemma walk_id_0 start : walk_id start 0 = start.
Proof. unfold walk_id. simpl. ring. Qed.

Lemma after_walk_step start n w :
  after_walk (start + dir) n (emit (EvGet (artwork_request start)) w) =
  after_walk start (S n) w.
Proof. unfold after_walk. simpl. by rewrite <- app_assoc. Qed.

(** An iteration that continues passed the guard and moved by [dir]. *)
Lemma walk_step_continue l s l' s' :
  walk_step guard dir l s = (Ok (Continue l'), s') -> guard l = true /\ l' = l + dir.
Proof.
  unfold walk_step. destruct (guard l); [|by intros [=]].
  rewrite probe_body_spec. unfold probe_outcome.
  destruct (page_class s l); by intros [= ->].
Qed.

(** The walk, on every outcome: it sends the requests for the ids it
    probes, in order, and ends with the last iteration's result. *)
Lemma walk_spec k : forall start w fuel,
  walk_stops w start k -> (k < fuel)%nat ->
  iter_nat fuel (walk_step guard dir) start w =
    (walk_result w (walk_id start k),
     after_walk start (k + (if guard (walk_id start k) then 1 else 0)) w).
Proof.
  induction k as [|k IH]; intros start w fuel [Habs Hstop] Hfuel;
    (destruct fuel as [|fuel]; [lia|]); rewrite iter_nat_S.
  - rewrite walk_id_0 in *. unfold walk_step, walk_result.
    destruct (guard start) eqn:Eg.
    + rewrite probe_body_spec. unfold probe_outcome in *.
      destruct (page_class w start) eqn:Ec; [done| |done].
      by destruct Hstop.
    + destruct w. unfold after_walk. simpl. by rewrite app_nil_r.
  - destruct (Habs 0%nat) as [Hg Ha]; [lia|]. rewrite walk_id_0 in Hg, Ha.
    unfold walk_step at 1. rewrite Hg, probe_body_spec. unfold probe_outcome at 1.
    rewrite Ha, IH; [|split|lia].
    + by rewrite walk_id_S, after_walk_step.
    + intros i Hi. rewrite walk_id_S. apply Habs. lia.
    + rewrite walk_id_S. apply Hstop.
Qed.

(** The loop variable moves only in the direction [dir]. *)
Lemma walk_moves n start w :
  match fst (iter_nat n (walk_step guard dir) start w) with
  | Ok r => exists i : nat, loop_value r = walk_id start i
  | Exc _ => True
  end.
Proof.
  set (I := fun (l : Z) (_ : world) => exists i : nat, l = walk_id start i).
  set (Q := fun (r : outcome (step Z Z)) (_ : world) =>
              match r with Ok r' => exists i : nat, loop_value r' = walk_id start i | Exc _ => True end).
  refine (iter_nat_inv I Q _ _ _ n start w _).
  - intros l s [i ->]. destruct (walk_step guard dir (walk_id start i) s) as [[[l'|x]|e] s'] eqn:E.
    + apply walk_step_continue in E as [_ ->]. exists (S i).
      unfold walk_id. rewrite Nat2Z.inj_succ. ring.
    + unfold walk_step, ret in E. destruct (guard _); [rewrite probe_body_spec in E|];
        unfold probe_outcome in E; [destruct (page_class _ _)|]; simplify_eq;
        unfold Q; exists i; simpl; congruence.
    + done.
  - intros l s [i ->]. by exists i.
  - exists 0%nat. by rewrite walk_id_0.
Qed.
End Walk.

(** ** The two loops of [find_adjacent_valid_artworks] *)

(** The answer of the downward loop: the nearest valid page below
    [center], or [min (center - 1) 0] when there is none, and only
    absent pages between. *)
Definition prev_answer (w : world) (center p : Z) : Prop :=
  p < center /\
  (forall j, p < j < center -> page_class w j = Absent) /\
  (0 < p -> exists h, page_class w p = Present h) /\
  (p <= 0 -> p = Z.min (center - 1) 0).

(** The answer of the upward loop: the nearest valid page above
    [center] below [999999999], or [max (center + 1) 999999999]. *)
Definition next_answer (w : world) (center n : Z) : Prop :=
  center < n /\
  (forall j, center < j < n -> page_class w j = Absent) /\
  (n < next_limit -> exists h, page_class w n = Present h) /\
  (next_limit <= n -> n = Z.max (center + 1) next_limit).

(** The requests of each loop. *)
Definition prev_requests (center p : Z) : list event :=
  walk_requests (-1) (center - 1) (Z.to_nat (center - 1 - p) + (if 0 <? p then 1 else 0)).

Definition next_requests (center n : Z) : list event :=
  walk_requests 1 (center + 1) (Z.to_nat (n - center - 1) + (if n <? next_limit then 1 else 0)).

Lemma prev_loop_spec center p w :
  prev_answer w center p ->
  iter_pos (Z.to_pos center) prev_step (center - 1) w =
    (Ok (Break p), World (server w) (trace w ++ prev_requests center p) (files w) (dirs w)).
Proof.
  intros (Hlt & Habs & Hpres & Hlow).
  assert (Hk : walk_id (-1) (center - 1) (Z.to_nat (center - 1 - p)) = p)
    by (unfold walk_id; rewrite Z2Nat.id by lia; ring).
  rewrite iter_pos_nat. unfold prev_step.
  rewrite (walk_spec _ _ (Z.to_nat (center - 1 - p))); [| |].
  - rewrite Hk. unfold walk_result, probe_outcome, prev_requests.
    destruct (0 <? p) eqn:Ep; [|done].
    apply Z.ltb_lt in Ep. destruct (Hpres Ep) as [h ->]. done.
  - split.
    + intros i Hi. unfold walk_id. split; [apply Z.ltb_lt|apply Habs]; lia.
    + rewrite Hk. intros Hg%Z.ltb_lt. destruct (Hpres Hg) as [h ->]. done.
  - pose proof (to_pos_fuel center). lia.
Qed.

Lemma next_loop_spec center n w :
  next_answer w center n ->
  iter_pos (Z.to_pos (next_limit - center)) next_step (center + 1) w =
    (Ok (Break n), World (server w) (trace w ++ next_requests center n) (files w) (dirs w)).
Proof.
  intros (Hlt & Habs & Hpres & Hhigh).
  assert (Hk : walk_id 1 (center + 1) (Z.to_nat (n - center - 1)) = n)
    by (unfold walk_id; rewrite Z2Nat.id by lia; ring).
  rewrite iter_pos_nat. unfold next_step.
  rewrite (walk_spec _ _ (Z.to_nat (n - center - 1))); [| |].
  - rewrite Hk. unfold walk_result, probe_outcome, next_requests.
    destruct (n <? next_limit) eqn:En; [|done].
    apply Z.ltb_lt in En. destruct (Hpres En) as [h ->]. done.
  - split.
    + intros i Hi. unfold walk_id, next_limit in *. split; [apply Z.ltb_lt|apply Habs]; lia.
    + rewrite Hk. intros Hg%Z.ltb_lt. destruct (Hpres Hg) as [h ->]. done.
  - pose proof (to_pos_fuel (next_limit - center)). unfold next_limit in *. lia.
Qed.

(** ** [find_adjacent_valid_artworks] *)

(** The two loops one after the other, for the callers of the function. *)
Lemma find_adjacent_run center w p n :
  prev_answer w center p -> next_answer w center n ->
  find_adjacent_valid_artworks center w =
    (Ok (p, n), World (server w) (trace w ++ prev_requests center p ++ next_requests center n)
                      (files w) (dirs w)).
Proof.
  intros Hp Hn. unfold find_adjacent_valid_artworks. py_unfold.
  rewrite (prev_loop_spec center p w Hp).
  rewrite (next_loop_spec center n (World (server w) (trace w ++ prev_requests center p)
                                          (files w) (dirs w)) Hn).
  simpl. by rewrite app_assoc.
Qed.

(** C2: Functional behaviour: when no probe fails, the function returns the
    nearest valid page below and above [center_id].  It sends the
    requests [center-1, center-2, ...] down to the answer, then
    [center+1, center+2, ...] up to the answer, and changes nothing else. *)
Theorem find_adjacent_spec center w p n :
  prev_answer w center p -> next_answer w center n ->
  find_adjacent_valid_artworks center w =
    (Ok (p, n), World (server w) (trace w ++ prev_requests center p ++ next_requests center n)
                      (files w) (dirs w)).
Proof. apply find_adjacent_run. Qed.

(** C24: Errors are not skipped: when the first page below [center_id] that is
    not absent fails to load, the whole search raises that error after
    the requests down to it, and the upward loop never runs. *)
Theorem find_adjacent_prev_error center w q e :
  0 < q < center ->
  (forall j, q < j < center -> page_class w j = Absent) ->
  page_class w q = ProbeError e ->
  find_adjacent_valid_artworks center w =
    (Exc e, World (server w) (trace w ++ walk_requests (-1) (center - 1) (S (Z.to_nat (center - 1 - q))))
                  (files w) (dirs w)).
Proof.
  intros Hq Habs Hc.
  assert (Hk : walk_id (-1) (center - 1) (Z.to_nat (center - 1 - q)) = q)
    by (unfold walk_id; rewrite Z2Nat.id by lia; ring).
  unfold find_adjacent_valid_artworks. py_unfold. rewrite iter_pos_nat. unfold prev_step.
  rewrite (walk_spec _ _ (Z.to_nat (center - 1 - q))).
  - rewrite Hk. unfold walk_result, probe_outcome. rewrite (proj2 (Z.ltb_lt 0 q)), Hc by lia.
    by rewrite Nat.add_1_r.
  - split.
    + intros i Hi. unfold walk_id. split; [apply Z.ltb_lt|apply Habs]; lia.
    + by rewrite Hk, Hc.
  - pose proof (to_pos_fuel center). lia.
Qed.

(** C25: Termination: both loops end within the fuel the model gives them, for
    every center and every server. *)
Theorem find_adjacent_terminates center :
  (forall w l, fst (iter_pos (Z.to_pos center) prev_step (center - 1) w) <> Ok (Continue l)) /\
  (forall w l, fst (iter_pos (Z.to_pos (next_limit - center)) next_step (center + 1) w)
               <> Ok (Continue l)).
Proof.
  split; intros w l; rewrite iter_pos_nat.
  - apply (iter_nat_terminates Z.to_nat).
    + intros l0 s l' s' [Hg ->]%walk_step_continue. apply Z.ltb_lt in Hg. lia.
    + apply to_pos_fuel.
  - apply (iter_nat_terminates (fun l => Z.to_nat (next_limit - l))).
    + intros l0 s l' s' [Hg ->]%walk_step_continue. apply Z.ltb_lt in Hg. lia.
    + pose proof (to_pos_fuel (next_limit - center)). lia.
Qed.

(** C26: Whatever the server answers, a result [(prev, next)] brackets the
    center: [prev < center_id < next]. *)
Theorem find_adjacent_bounds center w p n :
  fst (find_adjacent_valid_artworks center w) = Ok (p, n) -> p < center < n.
Proof.
  unfold find_adjacent_valid_artworks. py_unfold. rewrite iter_pos_nat.
  pose proof (walk_moves (fun prev_id => 0 <? prev_id) (-1) (Pos.to_nat (Z.to_pos center))
                (center - 1) w) as Hp.
  destruct (iter_nat _ _ (center - 1) w) as [[rp|e] w1]; simpl in *; [|intros [=]].
  rewrite iter_pos_nat.
  pose proof (walk_moves (fun next_id => next_id <? next_limit) 1
                (Pos.to_nat (Z.to_pos (next_limit - center))) (center + 1) w1) as Hn.
  destruct (iter_nat _ _ (center + 1) w1) as [[rn|e] w2]; simpl in *; [|intros [=]].
  intros H. inversion H; subst. destruct Hp as [i Hi], Hn as [j Hj].
  rewrite Hi, Hj. unfold walk_id. lia.
Qed.

(** ** The answers exist *)

(** The page of [id] loads: the probe does not raise. *)
Definition page_loads (w : world) (id : Z) : bool :=
  match page_class w id with ProbeError _ => false | _ => true end.

(** The downward loop has an answer when every page below the center
    loads: the nearest valid page, or [0] when all are absent. *)
Lemma prev_answer_exists w m : forall center,
  Z.to_nat (center - 1) = m -> (forall j, 0 < j < center -> page_loads w j = true) ->
  exists p, prev_answer w center p.
Proof.
  induction m as [|m IH]; intros center Hm Hl.
  - exists (center - 1). split_and!; intros; lia.
  - destruct (page_class w (center - 1)) as [h| |e] eqn:Ec.
    + exists (center - 1). split_and!; [lia|intros; lia|by exists h|lia].
    + destruct (IH (center - 1)) as [p (Hlt & Habs & Hpres & Hlow)]; [lia|intros; apply Hl; lia|].
      exists p. split_and!; [lia| |done|intros; rewrite Hlow; lia].
      intros j Hj. destruct (decide (j = center - 1)) as [->|]; [done|]. apply Habs. lia.
    + specialize (Hl (center - 1)). unfold page_loads in Hl. rewrite Ec in Hl.
      discriminate Hl. lia.
Qed.

(** The upward loop has an answer when every page above the center and
    below [999999999] loads. *)
Lemma next_answer_exists w m : forall center,
  Z.to_nat (next_limit - 1 - center) = m ->
  (forall j, center < j < next_limit -> page_loads w j = true) ->
  exists n, next_answer w center n.
Proof.
  unfold next_answer. induction m as [|m IH]; intros center Hm Hl.
  - exists (center + 1). split_and!; intros; lia.
  - destruct (page_class w (center + 1)) as [h| |e] eqn:Ec.
    + exists (center + 1). split_and!; [lia|intros; lia|by exists h|lia].
    + destruct (IH (center + 1)) as [n (Hlt & Habs & Hpres & Hhigh)]; [lia|intros; apply Hl; lia|].
      exists n. split_and!; [lia| |done|intros; rewrite Hhigh; lia].
      intros j Hj. destruct (decide (j = center + 1)) as [->|]; [done|]. apply Habs. lia.
    + specialize (Hl (center + 1)). unfold page_loads in Hl. rewrite Ec in Hl.
      discriminate Hl. lia.
Qed.

(** Both answers, when every page of the range loads. *)
Lemma answers_exist w center :
  (forall j, 0 < j < center -> page_loads w j = true) ->
  (forall j, center < j < next_limit -> page_loads w j = true) ->
  exists p n, prev_answer w center p /\ next_answer w center n.
Proof.
  intros Hp Hn.
  destruct (prev_answer_exists w _ center eq_refl Hp) as [p ?].
  destruct (next_answer_exists w _ center eq_refl Hn) as [n ?]. by exists p, n.
Qed.

(** C8: Total correctness: when every page between [0] and [999999999]
    other than the center loads, [find_adjacent_valid_artworks] returns:
    it gives the nearest valid pages below and above the center, after
    the requests of the two walks. *)
Theorem find_adjacent_total center w :
  (forall j, 0 < j < center -> page_loads w j = true) ->
  (forall j, center < j < next_limit -> page_loads w j = true) ->
  exists p n, prev_answer w center p /\ next_answer w center n /\
    find_adjacent_valid_artworks center w =
      (Ok (p, n), World (server w) (trace w ++ prev_requests center p ++ next_requests center n)
                        (files w) (dirs w)).
Proof.
  intros Hp Hn. destruct (answers_exist w center Hp Hn) as (p & n & Hpa & Hna).
  exists p, n. split_and!; [done|done|by apply find_adjacent_run].
Qed.

(** ** Witnesses *)

(** Around artwork 5: artwork 4 is a soft 404, 3 is valid, 6 is a 404,
    and 7 is valid. *)
Definition neighbours_server (r : request) : response :=
  if String.eqb (req_url r) "https://www.pixiv.net/en/artworks/3" then Resp 200 "<html>3</html>" false
  else if String.eqb (req_url r) "https://www.pixiv.net/en/artworks/4" then
    Resp 200 "<body><h1>Page not found</h1></body>" false
  else if String.eqb (req_url r) "https://www.pixiv.net/en/artworks/7" then Resp 200 "<html>7</html>" false
  else Resp 404 EmptyString false.

Definition neighbours_world : world := World neighbours_server [] ∅ ∅.

(** The answers of [neighbours_world] around artwork 5. *)
Lemma neighbours_answers : prev_answer neighbours_world 5 3 /\ next_answer neighbours_world 5 7.
Proof.
  split; split_and!; try lia; try (intros _; eexists; reflexivity); try (unfold next_limit; lia).
  - intros j Hj. assert (j = 4) as -> by lia. reflexivity.
  - intros j Hj. assert (j = 6) as -> by lia. reflexivity.
Qed.

Lemma find_adjacent_spec_witness :
  prev_answer neighbours_world 5 3 /\ next_answer neighbours_world 5 7 /\
  find_adjacent_valid_artworks 5 neighbours_world =
    (Ok (3, 7), World neighbours_server (prev_requests 5 3 ++ next_requests 5 7) ∅ ∅).
Proof.
  destruct neighbours_answers as [Hp Hn].
  split_and!; [exact Hp|exact Hn|]. apply (find_adjacent_spec 5 neighbours_world 3 7 Hp Hn).
Defined.

(** A server error on artwork 4 stops the search at once. *)
Definition failing_server (r : request) : response :=
  if String.eqb (req_url r) "https://www.pixiv.net/en/artworks/4" then Resp 500 EmptyString false
  else Resp 404 EmptyString false.

Lemma find_adjacent_prev_error_witness :
  find_adjacent_valid_artworks 5 (World failing_server [] ∅ ∅) =
    (Exc (HTTPError 500),
     World failing_server (walk_requests (-1) 4 (S (Z.to_nat (5 - 1 - 4)))) ∅ ∅).
Proof.
  apply (find_adjacent_prev_error 5 (World failing_server [] ∅ ∅) 4 (HTTPError 500)).
  - lia.
  - intros j Hj. lia.
  - reflexivity.
Defined.

Lemma find_adjacent_bounds_witness :
  fst (find_adjacent_valid_artworks 5 neighbours_world) = Ok (3, 7) /\ 3 < 5 < 7.
Proof.
  assert (H : fst (find_adjacent_valid_artworks 5 neighbours_world) = Ok (3, 7))
    by (vm_compute; reflexivity).
  split; [exact H|]. exact (find_adjacent_bounds 5 neighbours_world 3 7 H).
Defined.

Lemma find_adjacent_total_witness :
  ((forall j, 0 < j < 5 -> page_loads neighbours_world j = true) /\
   (forall j, 5 < j < next_limit -> page_loads neighbours_world j = true)) /\
  exists p n, prev_answer neighbours_world 5 p /\ next_answer neighbours_world 5 n /\
    find_adjacent_valid_artworks 5 neighbours_world =
      (Ok (p, n), World neighbours_server (prev_requests 5 p ++ next_requests 5 n) ∅ ∅).
Proof.
  assert (Hl : forall j, page_loads neighbours_world j = true).
  { intros j. unfold page_loads, page_class, neighbours_world, neighbours_server. simpl.
    repeat case_match; done. }
  split; [split; intros; apply Hl|].
  apply (find_adjacent_total 5 neighbours_world); intros; apply Hl.
Defined.
