(* ===== verification/TimeWindow.v ===== *)
(** * [src/find_resource.py]: the time-window probe

    [check_pixiv_image_existence(base_url_template, start_time_str,
    end_time_str, image_id)] normalises both times with
    [str.replace('/', ':')] and parses them with
    [datetime.strptime(s, '%H:%M:%S')].  On a [ValueError] it prints and
    returns.  Otherwise it requests one URL per second from start to end
    inclusive.  The URL is [base_url_template.format(time=HH/MM/SS) +
    image_id].  It collects the times answering 200 as [HH:MM:SS]; other
    statuses and [RequestException]s are skipped.

    [strptime_hms] follows CPython's [_strptime].  The format becomes the
    regular expression [strptime_pattern]; [re.match] must consume the
    whole string; the fields go through [int()], and [datetime] rejects a
    second of 60 or 61.  A [datetime] of 1900-01-01 is the number of
    seconds since its midnight.  [timedelta(seconds=1)] adds one.
    [strftime_hms] is [strftime] with two-digit fields.

    The URL is formatted by [PyFormat.py_format_time]; its exception
    leaves the function. *)

From stdpp Require Import base list gmap strings sets.
From Stdlib Require Import ZArith Ascii String.
From S2P Require Import Prelude PyStr PyFormat Regex Http.

Open Scope Z_scope.

(** ** [datetime] *)

(** The pattern [_strptime] builds for ['%H:%M:%S']:
    [(?P<H>2[0-3]|[0-1]\d|\d):(?P<M>[0-5]\d|\d):(?P<S>6[0-1]|[0-5]\d|\d)]. *)
Definition hour_re : regex :=
  Grp 1 (Alt (Cat (Lit "2") (Cls (in_range "0" "3")))
        (Alt (Cat (Cls (in_range "0" "1")) (Cls is_digit)) (Cls is_digit))).

Definition minute_re : regex :=
  Grp 2 (Alt (Cat (Cls (in_range "0" "5")) (Cls is_digit)) (Cls is_digit)).

Definition second_re : regex :=
  Grp 3 (Alt (Cat (Lit "6") (Cls (in_range "0" "1")))
        (Alt (Cat (Cls (in_range "0" "5")) (Cls is_digit)) (Cls is_digit))).

Definition strptime_pattern : regex :=
  Cat hour_re (Cat (Lit ":") (Cat minute_re (Cat (Lit ":") second_re))).

(** [datetime.datetime.strptime(s, '%H:%M:%S')] as seconds after
    1900-01-01 00:00:00; [None] is the [ValueError]. *)
Definition strptime_hms (s : string) : option Z :=
  m ← re_match strptime_pattern s;
  if bool_decide (m_rest m = []) then
    h ← m_groups m !! 1%nat;
    mi ← m_groups m !! 2%nat;
    se ← m_groups m !! 3%nat;
    let sec := digits_value se in
    if sec <=? 59 then
      Some (digits_value h * 3600 + digits_value mi * 60 + sec)
    else None
  else None.

(** A two-digit field of [strftime]. *)
Definition pad2 (n : Z) : string :=
  if n <? 10 then ("0" ++ py_str n)%string else py_str n.

(** [t.strftime('%H<sep>%M<sep>%S')] *)
Definition strftime_hms (sep : string) (t : Z) : string :=
  (pad2 ((t / 3600) mod 24) ++ sep ++ pad2 ((t / 60) mod 60) ++ sep ++ pad2 (t mod 60))%string.

(** ** [check_pixiv_image_existence] *)

Definition resource_headers : list (string * string) :=
  [("Referer", "https://www.pixiv.net/");
   ("User-Agent", "Mozilla/5.0 (Windows NT 10.0; Win64; x64) AppleWebKit/537.36 (KHTML, like Gecko) Chrome/91.0.4472.124 Safari/537.36")]%string.

(** [full_url = base_url_template.format(time=time_for_url) + image_id];
    the format is outside the [try], so its exception leaves the
    function. *)
Definition scan_url (template image_id : string) (t : Z) : PyM world string :=
  match py_format_time template (strftime_hms "/" t) with
  | Ok u => ret (u ++ image_id)%string
  | Exc e => raise e
  end.

(** One iteration of [while current_time <= end_time]; the loop state is
    [current_time] and [found_timestamps]. *)
Definition scan_step (template image_id : string) (end_time : Z) (st : Z * list string)
    : PyM world (step (Z * list string) (list string)) :=
  let '(current_time, found) := st in
  if current_time <=? end_time then
    full_url <- scan_url template image_id current_time ;;
    hit <- try_except is_request_exception
             (response <- requests_get (Request full_url resource_headers 10 false) ;;
              ret (status_code response =? 200))
             (fun _ => ret false) ;;
    let found' := if hit then found ++ [strftime_hms ":" current_time] else found in
    ret (Continue (current_time + 1, found'))
  else ret (Break found).

(** [check_pixiv_image_existence(...)]: [None] when a time does not
    parse, otherwise the timestamps it prints as found.  The loop runs on
    fuel [end - start + 2]: one iteration per second and the final test. *)
Definition check_pixiv_image_existence (base_url_template start_time_str end_time_str image_id : string)
    : PyM world (option (list string)) :=
  let start_s := py_replace start_time_str "/" ":" in
  let end_s := py_replace end_time_str "/" ":" in
  match strptime_hms start_s, strptime_hms end_s with
  | Some start_time, Some end_time =>
      r <- iter_pos (Z.to_pos (end_time - start_time + 2))
             (scan_step base_url_template image_id end_time) (start_time, []) ;;
      match r with
      | Break found => ret (Some found)
      | Continue (_, found) => ret (Some found)
      end
  | _, _ => ret None
  end.

(** ** [strptime] reads back what [strftime] writes *)

(** The two-digit fields of [strftime] and the classes of the pattern. *)
Definition two_digits (ok : ascii -> ascii -> bool) (l : list ascii) : bool :=
  match l with [d1; d2] => ok d1 d2 | _ => false end.

Definition hour_digits (d1 d2 : ascii) : bool :=
  (in_range "0" "1" d1 && is_digit d2) || (Ascii.eqb d1 "2" && in_range "0" "3" d2).

Definition sixty_digits (d1 d2 : ascii) : bool :=
  in_range "0" "5" d1 && is_digit d2.

(** Checked on every value: [pad2] of an hour, and of a minute or second,
    has the digits the pattern expects, and [int()] reads its value back. *)
Lemma pad2_hour_check :
  forallb (fun n => two_digits hour_digits (list_ascii_of_string (pad2 (Z.of_nat n))) &&
                    (digits_value (list_ascii_of_string (pad2 (Z.of_nat n))) =? Z.of_nat n))
          (seq 0 24) = true.
Proof. vm_compute. reflexivity. Qed.

Lemma pad2_sixty_check :
  forallb (fun n => two_digits sixty_digits (list_ascii_of_string (pad2 (Z.of_nat n))) &&
                    (digits_value (list_ascii_of_string (pad2 (Z.of_nat n))) =? Z.of_nat n))
          (seq 0 60) = true.
Proof. vm_compute. reflexivity. Qed.

Lemma pad2_fields (bound : nat) (ok : ascii -> ascii -> bool) (n : Z) :
  forallb (fun n => two_digits ok (list_ascii_of_string (pad2 (Z.of_nat n))) &&
                    (digits_value (list_ascii_of_string (pad2 (Z.of_nat n))) =? Z.of_nat n))
          (seq 0 bound) = true ->
  0 <= n < Z.of_nat bound ->
  exists d1 d2, list_ascii_of_string (pad2 n) = [d1; d2] /\ ok d1 d2 = true /\
                digits_value [d1; d2] = n.
Proof.
  intros Hall Hn. rewrite forallb_forall in Hall.
  assert (Hin : In (Z.to_nat n) (seq 0 bound)) by (apply in_seq; lia).
  apply Hall, andb_prop in Hin as [H1 H2]. rewrite Z2Nat.id in H1, H2 by lia.
  destruct (list_ascii_of_string (pad2 n)) as [|d1 [|d2 [|d3 l]]]; try done.
  exists d1, d2. split_and!; [done|done|]. by apply Z.eqb_eq in H2.
Qed.

Section Fields.
Context {R : Type}.
Implicit Types (k : list ascii -> groups -> option R) (x : R).

(** The group of a two-digit field captures the two digits. *)
Ltac close_field d1 d2 rest Hk :=
  cbv beta; rewrite (take_consumed_eq (d1 :: d2 :: rest) [d1; d2] rest) by done; exact Hk.

Lemma hour_re_intro d1 d2 rest g k x :
  hour_digits d1 d2 = true -> k rest (<[1%nat := [d1; d2]]> g) = Some x ->
  mtch hour_re (d1 :: d2 :: rest) g k = Some x.
Proof.
  intros Hd Hk. apply mtch_grp_intro.
  unfold hour_digits in Hd. apply orb_true_iff in Hd as [[H1 H2]%andb_prop|[H1 H2]%andb_prop].
  - apply mtch_alt_r_intro.
    + apply mtch_cat_lit_fail. destruct (Ascii.eqb_spec "2" d1) as [<-|]; done.
    + apply mtch_alt_l_intro, mtch_cat_intro, mtch_cls_intro; [done|].
      apply mtch_cls_intro; [done|]. close_field d1 d2 rest Hk.
  - apply Ascii.eqb_eq in H1 as ->.
    apply mtch_alt_l_intro, mtch_cat_intro, mtch_lit_intro, mtch_cls_intro; [done|].
    close_field "2"%char d2 rest Hk.
Qed.

Lemma minute_re_intro d1 d2 rest g k x :
  sixty_digits d1 d2 = true -> k rest (<[2%nat := [d1; d2]]> g) = Some x ->
  mtch minute_re (d1 :: d2 :: rest) g k = Some x.
Proof.
  intros [H1 H2]%andb_prop Hk. apply mtch_grp_intro.
  apply mtch_alt_l_intro, mtch_cat_intro, mtch_cls_intro; [done|].
  apply mtch_cls_intro; [done|]. close_field d1 d2 rest Hk.
Qed.

Lemma second_re_intro d1 d2 rest g k x :
  sixty_digits d1 d2 = true -> k rest (<[3%nat := [d1; d2]]> g) = Some x ->
  mtch second_re (d1 :: d2 :: rest) g k = Some x.
Proof.
  intros [H1 H2]%andb_prop Hk. apply mtch_grp_intro. apply mtch_alt_r_intro.
  - apply mtch_cat_lit_fail. destruct (Ascii.eqb_spec "6" d1) as [<-|]; done.
  - apply mtch_alt_l_intro, mtch_cat_intro, mtch_cls_intro; [done|].
    apply mtch_cls_intro; [done|]. close_field d1 d2 rest Hk.
Qed.
End Fields.

(** [re.match] of the [strptime] pattern on [HH:MM:SS] with digits of the
    right classes: the three groups are the three fields, nothing is left. *)
Lemma strptime_pattern_match h1 h2 m1 m2 s1 s2 :
  hour_digits h1 h2 = true -> sixty_digits m1 m2 = true -> sixty_digits s1 s2 = true ->
  match_at strptime_pattern [h1; h2; ":"; m1; m2; ":"; s1; s2]%char =
    Some (MatchObj (<[3%nat := [s1; s2]]> (<[2%nat := [m1; m2]]> (<[1%nat := [h1; h2]]> ∅))) []).
Proof.
  intros Hh Hm Hs. unfold match_at, strptime_pattern.
  apply mtch_cat_intro, hour_re_intro; [done|]. cbv beta.
  apply mtch_cat_intro, mtch_lit_intro, mtch_cat_intro, minute_re_intro; [done|]. cbv beta.
  apply mtch_cat_intro, mtch_lit_intro, second_re_intro; done.
Qed.

(** ** The fields [strptime] accepts *)

Lemma digits_value_2 c1 c2 :
  digits_value [c1; c2] = (Z.of_nat (nat_of_ascii c1) - 48) * 10 + (Z.of_nat (nat_of_ascii c2) - 48).
Proof. reflexivity. Qed.

Lemma digits_value_1 c : digits_value [c] = Z.of_nat (nat_of_ascii c) - 48.
Proof. reflexivity. Qed.

(** A field of one or two characters of the classes of its pattern, with
    its value between [0] and [hi]. *)
Ltac field_value :=
  matches_inv; char_bounds;
    match goal with
    | H : _ :: _ :: _ = _ ++ _ |- _ => apply consumed_2 in H
    | H : _ :: _ = _ ++ _ |- _ => apply consumed_1 in H
    end; subst;
    rewrite ?digits_value_2, ?digits_value_1; digit_value; (split; [done|lia]).

Lemma hour_re_inv s g s' g' :
  matches hour_re s g s' g' ->
  exists pre, s = pre ++ s' /\ g' = <[1%nat := pre]> g /\ 0 <= digits_value pre <= 23.
Proof.
  intros (pre & g0 & -> & Hm & ->)%matches_grp_inv.
  cut (g0 = g /\ 0 <= digits_value pre <= 23); [intros [-> ?]; by exists pre|].
  field_value.
Qed.

Lemma minute_re_inv s g s' g' :
  matches minute_re s g s' g' ->
  exists pre, s = pre ++ s' /\ g' = <[2%nat := pre]> g /\ 0 <= digits_value pre <= 59.
Proof.
  intros (pre & g0 & -> & Hm & ->)%matches_grp_inv.
  cut (g0 = g /\ 0 <= digits_value pre <= 59); [intros [-> ?]; by exists pre|].
  field_value.
Qed.

Lemma second_re_inv s g s' g' :
  matches second_re s g s' g' ->
  exists pre, s = pre ++ s' /\ g' = <[3%nat := pre]> g /\ 0 <= digits_value pre <= 61.
Proof.
  intros (pre & g0 & -> & Hm & ->)%matches_grp_inv.
  cut (g0 = g /\ 0 <= digits_value pre <= 61); [intros [-> ?]; by exists pre|].
  field_value.
Qed.

(** The value [strptime] returns is made of an hour of [0 .. 23], a
    minute of [0 .. 59] and a second of [0 .. 59]. *)
Lemma strptime_hms_fields s t :
  strptime_hms s = Some t ->
  exists h mi se, t = h * 3600 + mi * 60 + se /\
    0 <= h <= 23 /\ 0 <= mi <= 59 /\ 0 <= se <= 59.
Proof.
  unfold strptime_hms, re_match. destruct (match_at _ _) as [m|] eqn:Em; [|done]. simpl.
  apply match_at_sound in Em. unfold strptime_pattern in Em. matches_inv.
  match goal with H : matches hour_re _ _ _ _ |- _ => apply hour_re_inv in H as (h & _ & -> & Hh) end.
  matches_inv.
  match goal with H : matches minute_re _ _ _ _ |- _ => apply minute_re_inv in H as (mi & _ & -> & Hm) end.
  matches_inv.
  match goal with H : matches second_re _ _ _ _ |- _ => apply second_re_inv in H as (se & _ & -> & Hs) end.
  case_bool_decide; [|done]. simplify_map_eq. simpl.
  destruct (digits_value se <=? 59) eqn:E; [|done]. apply Z.leb_le in E.
  intros [= <-]. eexists _, _, _. split; [reflexivity|lia].
Qed.

(** C13: every time [strptime('%H:%M:%S')] accepts is a second of one day:
    the pattern admits hours up to 23 and minutes up to 59 (one or two
    digits), and a second of 60 or 61 is refused.  So a window of the
    tool or of the worker has at most 86400 seconds. *)
Theorem strptime_in_day s t : strptime_hms s = Some t -> 0 <= t < 86400.
Proof. intros (h & mi & se & -> & ? & ? & ?)%strptime_hms_fields. lia. Qed.

(** [strptime('%H:%M:%S')] reads back what [strftime('%H:%M:%S')]
    writes: every time of day [t] (seconds since midnight) survives the
    round trip through its [HH:MM:SS] text. *)
Theorem strptime_strftime (t : Z) :
  0 <= t < 86400 -> strptime_hms (strftime_hms ":" t) = Some t.
Proof.
  intros Ht.
  destruct (pad2_fields 24 hour_digits ((t / 3600) mod 24) pad2_hour_check)
    as (h1 & h2 & Eh & Hh & Vh); [cbn; Z.div_mod_to_equations; lia|].
  destruct (pad2_fields 60 sixty_digits ((t / 60) mod 60) pad2_sixty_check)
    as (m1 & m2 & Em & Hm & Vm); [cbn; Z.div_mod_to_equations; lia|].
  destruct (pad2_fields 60 sixty_digits (t mod 60) pad2_sixty_check)
    as (s1 & s2 & Es & Hs & Vs); [cbn; Z.div_mod_to_equations; lia|].
  unfold strptime_hms, strftime_hms, re_match.
  rewrite !list_ascii_of_string_app, Eh, Em, Es.
  cbn [list_ascii_of_string app]. rewrite strptime_pattern_match by done.
  cbn [mbind option_bind m_groups m_rest].
  rewrite bool_decide_true by done. simplify_map_eq.
  rewrite Vh, Vm, Vs.
  assert (Hsec : t mod 60 <= 59) by (Z.div_mod_to_equations; lia). apply Z.leb_le in Hsec. rewrite Hsec.
  f_equal. Z.div_mod_to_equations. lia.
Qed.

(** ** The scan of [check_pixiv_image_existence] *)

(** The URL probed for the time [t]. *)
Definition probe_url (template image_id : string) (t : Z) : string :=
  (match py_format_time template (strftime_hms "/" t) with
   | Ok u => u
   | Exc _ => EmptyString
   end ++ image_id)%string.

Definition probe_request (template image_id : string) (t : Z) : request :=
  Request (probe_url template image_id t) resource_headers 10 false.

(** The server answers [200] with a whole body. *)
Definition answers_200 (srv : request -> response) (r : request) : bool :=
  match srv r with
  | Resp code _ br => negb br && (code =? 200)
  | NetFail _ => false
  end.

(** What the scan of [start .. end] prints as found, and the world after it. *)
Definition scan_found (w : world) (template image_id : string) (start end_ : Z) : list string :=
  strftime_hms ":" <$>
    filter (fun t => answers_200 (server w) (probe_request template image_id t) = true)
           (seqZ start (end_ - start + 1)).

Definition after_scan (w : world) (template image_id : string) (start end_ : Z) : world :=
  World (server w)
        (trace w ++ ((fun t => EvGet (probe_request template image_id t)) <$> seqZ start (end_ - start + 1)))
        (files w) (dirs w).

(** One iteration inside the window: one request, and the time is kept
    when the answer is a [200]. *)
Lemma scan_step_in template image_id end_time cur found w :
  template_ok template = true -> cur <= end_time ->
  scan_step template image_id end_time (cur, found) w =
    (Ok (Continue (cur + 1,
       found ++ (if answers_200 (server w) (probe_request template image_id cur)
                 then [strftime_hms ":" cur] else []))),
     emit (EvGet (probe_request template image_id cur)) w).
Proof.
  intros Hok Hle. unfold scan_step, scan_url.
  rewrite (proj2 (Z.leb_le _ _) Hle).
  pose proof (template_ok_format template (strftime_hms "/" cur) Hok) as Hf.
  unfold requests_get, answers_200, probe_request, probe_url.
  destruct (py_format_time _ _); [|done]. py_unfold. simpl.
  destruct (server w _) as [code body []|e]; simpl; [| case_match |]; by rewrite ?app_nil_r.
Qed.

Section Scan.
Variables (template image_id : string) (end_time : Z).
Hypothesis template_fields : template_ok template = true.

Lemma seqZ_window cur :
  cur <= end_time ->
  seqZ cur (end_time - cur + 1) = cur :: seqZ (cur + 1) (end_time - (cur + 1) + 1).
Proof. intros. rewrite seqZ_cons by lia. f_equal; f_equal; lia. Qed.

Lemma seqZ_window_empty cur : end_time < cur -> seqZ cur (end_time - cur + 1) = [].
Proof. intros. apply seqZ_nil. lia. Qed.

(** The loop from [cur] with [found] so far, given enough fuel: it
    probes every second up to [end_time] and appends the hits. *)
Lemma scan_loop n : forall cur found w fuel,
  Z.to_nat (end_time - cur + 1) = n -> (n < fuel)%nat ->
  iter_nat fuel (scan_step template image_id end_time) (cur, found) w =
    (Ok (Break (found ++ scan_found w template image_id cur end_time)),
     after_scan w template image_id cur end_time).
Proof.
  unfold scan_found, after_scan.
  induction n as [|n IH]; intros cur found w fuel Hn Hfuel;
    (destruct fuel as [|fuel]; [lia|]); rewrite iter_nat_S.
  - unfold scan_step. rewrite (proj2 (Z.leb_gt cur end_time)) by lia.
    rewrite seqZ_window_empty by lia. destruct w. simpl. by rewrite !app_nil_r.
  - rewrite scan_step_in, IH by (done || lia).
    rewrite (seqZ_window cur) by lia. simpl. rewrite filter_cons.
    unfold answers_200. simpl. rewrite <- !app_assoc.
    by case_match.
Qed.
End Scan.

(** C4: [check_pixiv_image_existence] on a template of [template_ok]
    (its fields are [{time}], with at most a conversion and a format spec
    that holds no field): when both times parse, it requests the URL of every second
    from start to end inclusive, in order, one request each, and returns
    the seconds that answered [200] as [HH:MM:SS]; the files are not
    touched.  When a time does not parse it returns without a request. *)
Theorem check_pixiv_image_existence_spec template start_s end_s image_id w :
  template_ok template = true ->
  check_pixiv_image_existence template start_s end_s image_id w =
    match strptime_hms (py_replace start_s "/" ":"), strptime_hms (py_replace end_s "/" ":") with
    | Some st, Some et =>
        (Ok (Some (scan_found w template image_id st et)), after_scan w template image_id st et)
    | _, _ => (Ok None, w)
    end.
Proof.
  intros Hok. unfold check_pixiv_image_existence.
  destruct (strptime_hms (py_replace start_s _ _)) as [st|]; [|done].
  destruct (strptime_hms (py_replace end_s _ _)) as [et|]; [|done].
  py_unfold. rewrite iter_pos_nat, (scan_loop _ _ _ Hok (Z.to_nat (et - st + 1))); [done|done|].
  replace (et - st + 2) with (et - st + 1 + 1) by lia. apply to_pos_fuel_succ.
Qed.

(** C30: an end time before the start time is not an error: the scan
    runs no iteration, sends no request and reports no timestamp. *)
Theorem check_empty_window template start_s end_s image_id w st et :
  strptime_hms (py_replace start_s "/" ":") = Some st ->
  strptime_hms (py_replace end_s "/" ":") = Some et ->
  et < st ->
  check_pixiv_image_existence template start_s end_s image_id w = (Ok (Some []), w).
Proof.
  intros Hs He Hlt. unfold check_pixiv_image_existence. rewrite Hs, He.
  replace (Z.to_pos (et - st + 2)) with 1%positive by (destruct (et - st + 2) eqn:E; lia).
  simpl. unfold scan_step. rewrite (proj2 (Z.leb_gt st et)) by lia. done.
Qed.

(** ** Witnesses *)

Definition window_template : string :=
  "https://i.pximg.net/img-original/img/2023/01/01/{time}/".

(** A server with one image, at 12:00:01. *)
Definition window_server (r : request) : response :=
  if String.eqb (req_url r) "https://i.pximg.net/img-original/img/2023/01/01/12/00/01/104000000_p0.png"
  then Resp 200 "png" false
  else Resp 404 EmptyString false.

Definition window_world : world := World window_server [] ∅ ∅.

Lemma check_pixiv_image_existence_spec_witness :
  template_ok window_template = true /\
  check_pixiv_image_existence window_template "12/00/00" "12/00/03" "104000000_p0.png" window_world =
    (Ok (Some (scan_found window_world window_template "104000000_p0.png" 43200 43203)),
     after_scan window_world window_template "104000000_p0.png" 43200 43203).
Proof.
  split; [reflexivity|].
  apply (check_pixiv_image_existence_spec window_template "12/00/00" "12/00/03"). reflexivity.
Defined.

(** The scan of 12:00:00 to 12:00:03 finds the one image and sends four
    requests. *)
Example check_window_example :
  let r := check_pixiv_image_existence window_template "12/00/00" "12/00/03" "104000000_p0.png" window_world in
  fst r = Ok (Some ["12:00:01"%string]) /\ length (trace (snd r)) = 4%nat.
Proof. vm_compute. split; reflexivity. Qed.

Lemma check_empty_window_witness :
  (strptime_hms (py_replace "12/00/03" "/" ":") = Some 43203 /\
   strptime_hms (py_replace "12/00/00" "/" ":") = Some 43200 /\ 43200 < 43203) /\
  check_pixiv_image_existence window_template "12/00/03" "12/00/00" "104000000_p0.png" window_world =
    (Ok (Some []), window_world).
Proof.
  split; [split_and!; [vm_compute; reflexivity|vm_compute; reflexivity|lia]|].
  apply (check_empty_window _ _ _ _ _ 43203 43200); [vm_compute; reflexivity|vm_compute; reflexivity|lia].
Defined.

(** ** What [strftime] writes *)

Lemma pad2_all_digits n : 0 <= n -> all_digits (list_ascii_of_string (pad2 n)) = true.
Proof.
  intros Hn. destruct (py_str_digits n Hn) as [Hd _]. unfold pad2.
  destruct (n <? 10); [|done]. rewrite list_ascii_of_string_app. unfold all_digits in *. simpl. by rewrite Hd.
Qed.

Lemma pad2_mod_dot n d : 0 < d -> forallb dot (list_ascii_of_string (pad2 (n mod d))) = true.
Proof. intros Hd. apply digits_dot, pad2_all_digits, (Z.mod_pos_bound n d Hd). Qed.

(** The fields of [strftime('%H/%M/%S')] are digits: no newline. *)
Lemma strftime_dot t : forallb dot (list_ascii_of_string (strftime_hms "/" t)) = true.
Proof.
  unfold strftime_hms. rewrite !list_ascii_of_string_app, !forallb_app.
  rewrite !pad2_mod_dot by lia. done.
Qed.

(** The last second of the day, written with one-digit fields. *)
Lemma strptime_in_day_witness :
  strptime_hms "23:59:59" = Some 86399 /\ strptime_hms "1:2:3" = Some 3723 /\ 0 <= 86399 < 86400.
Proof.
  split; [vm_compute; reflexivity|split; [vm_compute; reflexivity|]].
  apply (strptime_in_day "23:59:59"). vm_compute. reflexivity.
Defined.

