(* ===== verification/SearchWorker.v ===== *)
(** * [src/main.py]: the application that ties the three tools together

    [PixivResourceFinder] keeps its inputs and outputs in Tk variables.
    The model keeps them in the record [app], beside the [world] the tools
    act on.  The methods with behaviour are modelled:
    [find_adjacent_artworks] (step 1-2 of the GUI), [extract_time_range],
    [start_search] and [search_worker] (steps 3-5).  [update_progress] and
    [reset_progress] are [EvProgress] events of the world's trace, so that
    their order with the requests is kept; a bar set to [0] is
    [EvProgress 0 0].  A [messagebox] is a [dialog] appended to [dialogs].
    The log text is not modelled.

    The worker calls [download_pixiv_gallery] through the class
    [GalleryDownloader]: the theorems about the worker hold for every
    downloader that sends no progress event and leaves the server alone,
    and [pixiv_downloader] shows that the model of
    [resource_downloader.py] is one.  [start_search] runs the worker in a
    daemon thread; the model runs it to completion at once, which is what
    the GUI sees when nothing else is clicked meanwhile. *)

From stdpp Require Import base list gmap strings sets.
From Stdlib Require Import ZArith Ascii String DecimalString DecimalPos.
From S2P Require Import Prelude PyStr Regex Http Downloader PageProbe AdjacentSearch TimeWindow.

Open Scope Z_scope.

(** ** [int(s)] on a string *)

(** The ASCII characters [int()] strips: [Py_ISSPACE] and the
    separators [\x1c]-[\x1f], which count as Unicode whitespace. *)
Definition py_isspace (c : ascii) : bool :=
  let n := nat_of_ascii c in
  ((9 <=? n)%nat && (n <=? 13)%nat) || ((28 <=? n)%nat && (n <=? 32)%nat).

Fixpoint lstrip (l : list ascii) : list ascii :=
  match l with
  | c :: l' => if py_isspace c then lstrip l' else l
  | [] => []
  end.

Definition strip (l : list ascii) : list ascii := rev (lstrip (rev (lstrip l))).

(** After a digit: more digits, each after at most one underscore. *)
Fixpoint us_digits_tail (l : list ascii) : bool :=
  match l with
  | [] => true
  | c :: r =>
      if Ascii.eqb c "_" then
        match r with
        | d :: r' => is_digit d && us_digits_tail r'
        | [] => false
        end
      else is_digit c && us_digits_tail r
  end.

(** A base-10 literal of [int()]: a digit, then digits with single
    underscores between them. *)
Definition us_digits (l : list ascii) : bool :=
  match l with
  | d :: r => is_digit d && us_digits_tail r
  | [] => false
  end.

Definition us_value (l : list ascii) : Z :=
  digits_value (filter (fun c => is_digit c = true) l).

(** [int(s)]; [None] is the [ValueError]. *)
Definition py_int (s : string) : option Z :=
  match strip (list_ascii_of_string s) with
  | [] => None
  | (c :: r) as l =>
      if Ascii.eqb c "-" then (if us_digits r then Some (- us_value r) else None)
      else if Ascii.eqb c "+" then (if us_digits r then Some (us_value r) else None)
      else if us_digits l then Some (us_value l) else None
  end.

(** ** The application state *)

Inductive dialog :=
  | DlgError (message : string)      (* messagebox.showerror("Error", message) *)
  | DlgSearchError (e : exn)         (* showerror of the worker's exception *)
  | DlgFound (ext : string)          (* showinfo("Success", ...) *)
  | DlgNotFound.                     (* showwarning("Not Found", ...) *)

Record app := App {
  net : world;
  artwork_id : string;               (* self.artwork_id *)
  prev_uri : string;                 (* self.prev_uri *)
  next_uri : string;                 (* self.next_uri *)
  file_jpg : bool;
  file_png : bool;
  file_gif : bool;
  prev_artwork_url : string;         (* self.prev_artwork_url *)
  next_artwork_url : string;         (* self.next_artwork_url *)
  dialogs : list dialog              (* oldest first *)
}.

Definition set_net (w : world) (a : app) : app :=
  App w (artwork_id a) (prev_uri a) (next_uri a) (file_jpg a) (file_png a) (file_gif a)
      (prev_artwork_url a) (next_artwork_url a) (dialogs a).

Definition set_urls (p n : string) (a : app) : app :=
  App (net a) (artwork_id a) (prev_uri a) (next_uri a) (file_jpg a) (file_png a) (file_gif a)
      p n (dialogs a).

Definition add_dialog (d : dialog) (a : app) : app :=
  App (net a) (artwork_id a) (prev_uri a) (next_uri a) (file_jpg a) (file_png a) (file_gif a)
      (prev_artwork_url a) (next_artwork_url a) (dialogs a ++ [d]).

(** A call of a tool: it acts on the world part of the state. *)
Definition lift {A} (m : PyM world A) : PyM app A :=
  fun a => let '(r, w') := m (net a) in (r, set_net w' a).

Definition show (d : dialog) : PyM app unit := modify_st (add_dialog d).

(** [update_progress(current, total, message)] *)
Definition update_progress (current total : Z) : PyM app unit :=
  lift (fun w => (Ok tt, emit (if 0 <? total then EvProgress current total else EvProgress 0 0) w)).

(** [reset_progress(message)] *)
Definition reset_progress : PyM app unit :=
  lift (fun w => (Ok tt, emit (EvProgress 0 0) w)).

(** ** Steps 1-2: [find_adjacent_artworks] *)

Definition find_adjacent_artworks : PyM app unit :=
  a <- get_st ;;
  match py_int (artwork_id a) with
  | None => show (DlgError "Please enter a valid artwork ID")
  | Some center_id =>
      r <- lift (find_adjacent_valid_artworks center_id) ;;
      modify_st (set_urls (build_pixiv_artwork_url (fst r)) (build_pixiv_artwork_url (snd r)))
  end.

(** ** Step 3: [extract_time_range] *)

Definition two_digit_grp (i : nat) : regex := Grp i (Rep is_digit 2 (Some 2%nat)).

(** [img/(\d{4})/(\d{2})/(\d{2})/(\d{2})/(\d{2})/(\d{2})/] *)
Definition time_uri_pattern : regex :=
  Cat (lits (list_ascii_of_string "img/"))
  (Cat (Grp 1 (Rep is_digit 4 (Some 4%nat))) (Cat (Lit "/")
  (Cat (two_digit_grp 2) (Cat (Lit "/")
  (Cat (two_digit_grp 3) (Cat (Lit "/")
  (Cat (two_digit_grp 4) (Cat (Lit "/")
  (Cat (two_digit_grp 5) (Cat (Lit "/")
  (Cat (two_digit_grp 6) (Lit "/")))))))))))).

(** [m.group(i)] of a group that always takes part in the match. *)
Definition grp (m : match_obj) (i : nat) : string := default EmptyString (group m i).

(** [f"{m.group(4)}:{m.group(5)}:{m.group(6)}"] *)
Definition match_time (m : match_obj) : string :=
  (grp m 4 ++ ":" ++ grp m 5 ++ ":" ++ grp m 6)%string.

(** [f"https://i.pximg.net/img-original/img/{Y}/{M}/{D}/{{time}}/{target_id}_p0"] *)
Definition base_template (year month day : string) (target_id : Z) : string :=
  ("https://i.pximg.net/img-original/img/" ++ year ++ "/" ++ month ++ "/" ++ day ++
   "/{time}/" ++ py_str target_id ++ "_p0")%string.

(** The three strings [extract_time_range] returns; [None] is its
    [ValueError]. *)
Definition time_range (prev_uri next_uri : string) (target_id : Z) : option (string * string * string) :=
  match re_search time_uri_pattern prev_uri, re_search time_uri_pattern next_uri with
  | Some prev_match, Some next_match =>
      Some (match_time prev_match, match_time next_match,
            base_template (grp prev_match 1) (grp prev_match 2) (grp prev_match 3) target_id)
  | _, _ => None
  end.

Definition extract_time_range {W} (prev_uri next_uri : string) (target_id : Z)
    : PyM W (string * string * string) :=
  match time_range prev_uri next_uri target_id with
  | Some r => ret r
  | None => raise ValueError
  end.

(** ** Steps 4-5: [search_worker] *)

Definition worker_headers : list (string * string) :=
  [("Referer", "https://www.pixiv.net/");
   ("User-Agent", "Mozilla/5.0 (Windows NT 10.0; Win64; x64) AppleWebKit/537.36 (KHTML, like Gecko) Chrome/91.0.4472.124 Safari/537.36")]%string.

(** The extensions in the order of the check boxes. *)
Definition ext_list (jpg png gif : bool) : list string :=
  (if jpg then ["jpg"%string] else []) ++
  (if png then ["png"%string] else []) ++
  (if gif then ["gif"%string] else []).

Definition selected_extensions (a : app) : list string :=
  ext_list (file_jpg a) (file_png a) (file_gif a).

(** [datetime.datetime.strptime(s, '%H:%M:%S')] *)
Definition strptime_or_raise {W} (s : string) : PyM W Z :=
  match strptime_hms s with
  | Some t => ret t
  | None => raise ValueError
  end.

(** [f"{base_url.replace('{time}', time_for_url)}.{ext}"] *)
Definition test_url (base_url ext : string) (t : Z) : string :=
  (py_replace base_url "{time}" (strftime_hms "/" t) ++ "." ++ ext)%string.

Definition test_request (base_url ext : string) (t : Z) : request :=
  Request (test_url base_url ext t) worker_headers 10 false.

(** One iteration of [while current_time <= end_time]; the loop state is
    [current_time] and [current_check]; the loop leaves with the count and
    the URL found, if any. *)
Definition ext_step (base_url ext : string) (end_time total : Z) (st : Z * Z)
    : PyM app (step (Z * Z) (Z * option string)) :=
  let '(current_time, current_check) := st in
  if current_time <=? end_time then
    let current_check := current_check + 1 in
    update_progress current_check total ;;
    hit <- try_except is_exception
             (response <- lift (requests_get (test_request base_url ext current_time)) ;;
              if status_code response =? 200 then
                update_progress current_check total ;; ret true
              else ret false)
             (fun _ => ret false) ;;
    if hit then ret (Break (current_check, Some (test_url base_url ext current_time)))
    else ret (Continue (current_time + 1, current_check))
  else ret (Break (current_check, None)).

(** [for ext in extensions: ...]: the extension and URL found first. *)
Fixpoint ext_loop (base_url prev_time next_time : string) (total : Z)
    (extensions : list string) (current_check : Z) : PyM app (option (string * string)) :=
  match extensions with
  | [] => ret None
  | ext :: rest =>
      current_time <- strptime_or_raise prev_time ;;
      end_time <- strptime_or_raise next_time ;;
      r <- iter_pos (Z.to_pos (end_time - current_time + 2))
             (ext_step base_url ext end_time total) (current_time, current_check) ;;
      match r with
      | Break (_, Some url) => ret (Some (ext, url))
      | Break (c, None) | Continue (_, c) =>
          ext_loop base_url prev_time next_time total rest c
      end
  end.

(** What the worker needs of the gallery downloader: it sends no
    progress event and does not change the server. *)
Definition quiet_step (w w' : world) : Prop :=
  server w' = server w /\
  exists evs, trace w' = trace w ++ evs /\
              Forall (fun e => match e with EvProgress _ _ => False | _ => True end) evs.

Class GalleryDownloader := {
  gallery_download : string -> string -> PyM world unit;
  gallery_download_quiet url dir w : quiet_step w (snd (gallery_download url dir w))
}.

Section Worker.
Context `{GalleryDownloader}.

(** [search_worker(target_id)] *)
Definition search_worker (target_id : Z) : PyM app unit :=
  try_except is_exception
    (reset_progress ;;
     a <- get_st ;;
     r <- extract_time_range (prev_uri a) (next_uri a) target_id ;;
     let '(prev_time, next_time, base_url) := r in
     let extensions := selected_extensions a in
     start_time <- strptime_or_raise prev_time ;;
     end_time <- strptime_or_raise next_time ;;
     let time_range_seconds := end_time - start_time + 1 in
     let total_checks := Z.of_nat (length extensions) * time_range_seconds in
     update_progress 0 total_checks ;;
     found <- ext_loop base_url prev_time next_time total_checks extensions 0 ;;
     match found with
     | Some (ext, url) =>
         update_progress total_checks total_checks ;;
         lift (os_makedirs "download") ;;
         lift (gallery_download url "download") ;;
         reset_progress ;;
         show (DlgFound ext)
     | None => reset_progress ;; show DlgNotFound
     end)
    (fun e => reset_progress ;; show (DlgSearchError e)).

(** [start_search()]: the checks of the inputs, then the worker. *)
Definition start_search : PyM app unit :=
  a <- get_st ;;
  if String.eqb (prev_uri a) EmptyString || String.eqb (next_uri a) EmptyString then
    show (DlgError "Please enter both previous and next artwork URIs")
  else if negb (file_jpg a || file_png a || file_gif a) then
    show (DlgError "Please select at least one file type")
  else
    match py_int (artwork_id a) with
    | None => show (DlgError "Invalid artwork ID")
    | Some target_id => search_worker target_id
    end.
End Worker.

(** ** The downloader of [resource_downloader.py] is a [GalleryDownloader] *)

Definition not_progress (e : event) : Prop :=
  match e with EvProgress _ _ => False | _ => True end.

Lemma quiet_refl w : quiet_step w w.
Proof. split; [done|]. exists []. by rewrite app_nil_r. Qed.

Lemma quiet_trans w1 w2 w3 : quiet_step w1 w2 -> quiet_step w2 w3 -> quiet_step w1 w3.
Proof.
  intros [Hs1 (e1 & Ht1 & He1)] [Hs2 (e2 & Ht2 & He2)]. split; [congruence|].
  exists (e1 ++ e2). rewrite Ht2, Ht1, app_assoc. split; [done|]. by apply Forall_app.
Qed.

Lemma quiet_extend w w' evs :
  server w' = server w -> trace w' = trace w ++ evs -> Forall not_progress evs -> quiet_step w w'.
Proof. intros Hs Ht He. split; [done|]. by exists evs. Qed.

#[export] Instance quiet_preorder : PreOrder quiet_step.
Proof. split; [exact quiet_refl|exact quiet_trans]. Qed.

(** One page: a request, maybe a sleep, and no progress event. *)
Lemma gallery_step_quiet sd dir l : stable quiet_step (gallery_step sd dir l).
Proof.
  intros w. pose proof (gallery_step_server sd dir l w) as Hs.
  pose proof (gallery_step_trace sd dir l w) as Ht.
  destruct (gallery_step sd dir l w) as [[[l'|x]|e] w'']; [destruct Ht as [_ Ht]|..];
    (eapply quiet_extend; [exact Hs|exact Ht|]); repeat constructor.
Qed.

Lemma os_makedirs_quiet p : stable quiet_step (os_makedirs p).
Proof.
  intros w. unfold os_makedirs. repeat case_decide; [reflexivity..|].
  apply (quiet_extend _ _ []); [done|by rewrite app_nil_r|constructor].
Qed.

Lemma download_pixiv_gallery_quiet fuel url dir :
  stable quiet_step (download_pixiv_gallery fuel url dir).
Proof.
  unfold download_pixiv_gallery.
  repeat first [ apply os_makedirs_quiet | apply gallery_step_quiet | case_match | stable_step
               | match goal with |- forall _, _ => intros ? end ].
Qed.

Lemma download_unit_quiet fuel url dir w :
  quiet_step w (snd ((_ <- download_pixiv_gallery fuel url dir ;; ret tt) w)).
Proof.
  revert w. apply stable_bind; [apply _|apply download_pixiv_gallery_quiet|].
  intros _. apply stable_ret, _.
Qed.

(** The worker's downloader: [download_pixiv_gallery] with [fuel]
    iterations, its report dropped as the worker drops its [None]. *)
#[export] Instance pixiv_downloader (fuel : positive) : GalleryDownloader := {|
  gallery_download url dir := _ <- download_pixiv_gallery fuel url dir ;; ret tt;
  gallery_download_quiet := download_unit_quiet fuel
|}.

(** ** What the extension search does *)

(** The state after the tools appended [evs] to the trace. *)
Definition app_after (a : app) (evs : list event) : app :=
  set_net (World (server (net a)) (trace (net a) ++ evs) (files (net a)) (dirs (net a))) a.

Section SearchSpec.
Variables (srv : request -> response) (base_url : string) (total : Z).

Definition progress_event (c : Z) : event :=
  if 0 <? total then EvProgress c total else EvProgress 0 0.

(** The probe of [ext] at [t] finds the resource. *)
Definition cand_hit (x : string * Z) : bool := answers_200 srv (test_request base_url x.1 x.2).

(** The events of the probes of [cands], the counter at [c] before. *)
Fixpoint search_trace (c : Z) (cands : list (string * Z)) : list event :=
  match cands with
  | [] => []
  | x :: rest =>
      progress_event (c + 1) :: EvGet (test_request base_url x.1 x.2) ::
      (if cand_hit x then [progress_event (c + 1)] else search_trace (c + 1) rest)
  end.

(** The counter and the URL the [while] loop leaves with. *)
Fixpoint search_outcome (c : Z) (cands : list (string * Z)) : Z * option string :=
  match cands with
  | [] => (c, None)
  | x :: rest =>
      if cand_hit x then (c + 1, Some (test_url base_url x.1 x.2))
      else search_outcome (c + 1) rest
  end.

(** The extension and URL found first. *)
Definition search_found (cands : list (string * Z)) : option (string * string) :=
  (fun x => (x.1, test_url base_url x.1 x.2)) <$> List.find cand_hit cands.
End SearchSpec.

(** The probes of the search, extension by extension, second by second. *)
Definition candidates (extensions : list string) (start_time end_time : Z) : list (string * Z) :=
  extensions ≫= (fun ext => pair ext <$> seqZ start_time (end_time - start_time + 1)).

Lemma app_after_nil a : app_after a [] = a.
Proof. destruct a as [[]]. unfold app_after, set_net. simpl. by rewrite app_nil_r. Qed.

Lemma app_after_app a evs1 evs2 : app_after (app_after a evs1) evs2 = app_after a (evs1 ++ evs2).
Proof. unfold app_after, set_net. simpl. by rewrite app_assoc. Qed.

#[export] Hint Rewrite app_after_nil app_after_app : pyrw.

(** One iteration inside the window: the progress event, the request,
    and a second progress event when the resource is there. *)
Lemma ext_step_in base_url ext end_time total cur c a :
  cur <= end_time ->
  ext_step base_url ext end_time total (cur, c) a =
    (Ok (if cand_hit (server (net a)) base_url (ext, cur)
         then Break (c + 1, Some (test_url base_url ext cur))
         else Continue (cur + 1, c + 1)),
     app_after a ([progress_event total (c + 1); EvGet (test_request base_url ext cur)] ++
                  if cand_hit (server (net a)) base_url (ext, cur)
                  then [progress_event total (c + 1)] else [])).
Proof.
  intros Hle. unfold ext_step. rewrite (proj2 (Z.leb_le _ _) Hle).
  unfold update_progress, lift, requests_get, cand_hit, answers_200, progress_event, app_after,
    emit, set_net.
  py_unfold. simpl.
  destruct (server (net a) (test_request base_url ext cur)) as [code body [|]|e]; simpl;
    [| destruct (code =? 200) |]; simpl; by rewrite <- ?app_assoc.
Qed.

(** The [while] loop of one extension, with enough fuel: it probes the
    seconds from [cur] to [end_time] in order and stops at the first hit. *)
Lemma ext_inner base_url ext end_time total n : forall cur c a fuel,
  Z.to_nat (end_time - cur + 1) = n -> (n < fuel)%nat ->
  iter_nat fuel (ext_step base_url ext end_time total) (cur, c) a =
    (Ok (Break (search_outcome (server (net a)) base_url c
                  (pair ext <$> seqZ cur (end_time - cur + 1)))),
     app_after a (search_trace (server (net a)) base_url total c
                  (pair ext <$> seqZ cur (end_time - cur + 1)))).
Proof.
  induction n as [|n IH]; intros cur c a fuel Hn Hfuel;
    (destruct fuel as [|fuel]; [lia|]); rewrite iter_nat_S.
  - unfold ext_step. rewrite (proj2 (Z.leb_gt cur end_time)) by lia.
    rewrite seqZ_window_empty by lia. simpl. by rewrite app_after_nil.
  - rewrite ext_step_in by lia. rewrite (seqZ_window end_time cur) by lia.
    cbn [fmap list_fmap search_outcome search_trace fst snd].
    destruct (cand_hit _ _ _) eqn:Ehit; [done|].
    rewrite IH by lia. by rewrite app_after_app.
Qed.

(** The requests of the probes: the candidates up to the first hit. *)
Lemma gets_search_trace srv base_url total c cands :
  gets (search_trace srv base_url total c cands) =
    (fun x => test_request base_url x.1 x.2) <$> upto (cand_hit srv base_url) cands.
Proof.
  revert c. induction cands as [|x l IH]; intros c; simpl; [done|].
  unfold progress_event. destruct (0 <? total); simpl;
    (destruct (cand_hit srv base_url x); simpl; [|rewrite IH]);
    unfold progress_event; by try destruct (0 <? total).
Qed.

Section SearchFacts.
Variables (srv : request -> response) (base_url : string) (total : Z).

Lemma search_trace_app c l1 l2 :
  search_trace srv base_url total c (l1 ++ l2) =
    search_trace srv base_url total c l1 ++
    (if existsb (cand_hit srv base_url) l1 then []
     else search_trace srv base_url total (c + Z.of_nat (length l1)) l2).
Proof.
  revert c. induction l1 as [|x l1 IH]; intros c; simpl.
  - by rewrite Z.add_0_r.
  - destruct (cand_hit srv base_url x); [done|].
    rewrite IH. simpl.
    by replace (c + Z.of_nat (S (length l1))) with (c + 1 + Z.of_nat (length l1)) by lia.
Qed.

Lemma search_outcome_app c l1 l2 :
  search_outcome srv base_url c (l1 ++ l2) =
    if existsb (cand_hit srv base_url) l1 then search_outcome srv base_url c l1
    else search_outcome srv base_url (c + Z.of_nat (length l1)) l2.
Proof.
  revert c. induction l1 as [|x l1 IH]; intros c; simpl.
  - by rewrite Z.add_0_r.
  - destruct (cand_hit srv base_url x); [done|].
    rewrite IH. simpl.
    by replace (c + Z.of_nat (S (length l1))) with (c + 1 + Z.of_nat (length l1)) by lia.
Qed.

Lemma search_outcome_none c l :
  existsb (cand_hit srv base_url) l = false ->
  search_outcome srv base_url c l = (c + Z.of_nat (length l), None).
Proof.
  revert c. induction l as [|x l IH]; intros c; simpl; [by rewrite Z.add_0_r|].
  intros [Hx Hl]%orb_false_elim. rewrite Hx, IH by done. f_equal. lia.
Qed.

(** Within one extension, the URL the loop leaves with is the first hit. *)
Lemma search_outcome_found ext c ts :
  existsb (cand_hit srv base_url) (pair ext <$> ts) = true ->
  exists c', search_outcome srv base_url c (pair ext <$> ts) =
    (c', snd <$> search_found srv base_url (pair ext <$> ts)).
Proof.
  revert c. induction ts as [|t ts IH]; intros c; simpl; [done|].
  unfold search_found. simpl.
  destruct (cand_hit srv base_url (ext, t)); simpl; [by eexists|]. apply IH.
Qed.

Lemma search_found_app l1 l2 :
  search_found srv base_url (l1 ++ l2) =
    if existsb (cand_hit srv base_url) l1 then search_found srv base_url l1
    else search_found srv base_url l2.
Proof.
  unfold search_found. induction l1 as [|x l1 IH]; simpl; [done|].
  by destruct (cand_hit srv base_url x).
Qed.

Lemma search_found_ext ext ts :
  existsb (cand_hit srv base_url) (pair ext <$> ts) = true ->
  exists url, search_found srv base_url (pair ext <$> ts) = Some (ext, url).
Proof.
  unfold search_found. induction ts as [|t ts IH]; simpl; [done|].
  destruct (cand_hit srv base_url (ext, t)); simpl; [by eexists|]. apply IH.
Qed.
End SearchFacts.

(** The extension loop: the probes of [candidates] in order, up to the
    first hit, whose extension and URL it returns. *)
Lemma ext_loop_spec base_url prev_time next_time total st et :
  strptime_hms prev_time = Some st -> strptime_hms next_time = Some et ->
  forall extensions c a,
  ext_loop base_url prev_time next_time total extensions c a =
    (Ok (search_found (server (net a)) base_url (candidates extensions st et)),
     app_after a (search_trace (server (net a)) base_url total c (candidates extensions st et))).
Proof.
  intros Hs He extensions. unfold candidates.
  induction extensions as [|ext rest IH]; intros c a; simpl.
  { by rewrite app_after_nil. }
  unfold strptime_or_raise. rewrite Hs, He. py_unfold. rewrite iter_pos_nat.
  rewrite (ext_inner _ _ _ _ (Z.to_nat (et - st + 1))); [|done|].
  2:{ replace (et - st + 2) with (et - st + 1 + 1) by lia. apply to_pos_fuel_succ. }
  rewrite search_found_app, search_trace_app.
  destruct (existsb _ (pair ext <$> _)) eqn:Ehit.
  - destruct (search_outcome_found (server (net a)) base_url ext c
                (seqZ st (et - st + 1)) Ehit) as [c' ->].
    destruct (search_found_ext (server (net a)) base_url ext _ Ehit) as [url Eu].
    rewrite Eu. simpl. by rewrite app_nil_r.
  - rewrite search_outcome_none by done. rewrite IH. simpl. by rewrite app_after_app.
Qed.

(** ** The worker *)

Section WorkerFacts.
Context `{GalleryDownloader}.

(** C3: [search_worker] when both URIs carry a time that parses: it
    resets the bar, sets it to [0/total], then probes extension by
    extension (in the order jpg, png, gif) and second by second, one
    progress event and one request per probe, and stops at the first
    [200].  With a hit it fills the bar, creates [download], calls the
    downloader on the URL found and reports success unless one of them
    raised; without a hit it reports that nothing was found.  The bar is
    reset last in every case, and the worker never raises. *)
Theorem search_worker_spec target_id a prev_time next_time base_url st et :
  time_range (prev_uri a) (next_uri a) target_id = Some (prev_time, next_time, base_url) ->
  strptime_hms prev_time = Some st -> strptime_hms next_time = Some et ->
  let total := Z.of_nat (length (selected_extensions a)) * (et - st + 1) in
  let cands := candidates (selected_extensions a) st et in
  let a1 := app_after a ([EvProgress 0 0; progress_event total 0] ++
                         search_trace (server (net a)) base_url total 0 cands) in
  search_worker target_id a =
    match search_found (server (net a)) base_url cands with
    | None => (Ok tt, add_dialog DlgNotFound (app_after a1 [EvProgress 0 0]))
    | Some (ext, url) =>
        let a2 := app_after a1 [progress_event total total] in
        match os_makedirs "download" (net a2) with
        | (Exc e, w3) => (Ok tt, add_dialog (DlgSearchError e) (app_after (set_net w3 a2) [EvProgress 0 0]))
        | (Ok _, w3) =>
            match gallery_download url "download" w3 with
            | (Ok _, w4) => (Ok tt, add_dialog (DlgFound ext) (app_after (set_net w4 a2) [EvProgress 0 0]))
            | (Exc e, w4) => (Ok tt, add_dialog (DlgSearchError e) (app_after (set_net w4 a2) [EvProgress 0 0]))
            end
        end
    end.
Proof.
  intros Ht Hs He total cands a1.
  unfold search_worker, reset_progress, update_progress, extract_time_range, strptime_or_raise.
  py_unfold. unfold lift at 1. simpl. rewrite Ht, Hs, He.
  unfold lift at 1. simpl.
  rewrite (ext_loop_spec _ _ _ _ st et Hs He). simpl.
  fold total cands. unfold a1. clear a1.
  destruct (search_found _ _ _) as [[ext url]|] eqn:Ef.
  - unfold lift, show, modify_st, app_after, set_net, emit, add_dialog.
    simpl. rewrite <- !app_assoc. simpl.
    destruct (os_makedirs _ _) as [[[]|e] w3]; simpl; [|done].
    by destruct (gallery_download url "download" w3) as [[[]|e] w4].
  - unfold show, modify_st, app_after, set_net, emit, add_dialog.
    simpl. by rewrite <- !app_assoc.
Qed.
End WorkerFacts.

(** ** Dialogs: the worker always answers the user exactly once *)

(** [m] leaves the dialogs alone: [keeps_dialogs] is [stable] for the
    preorder [same_dialogs]. *)
Definition same_dialogs (a a' : app) : Prop := dialogs a' = dialogs a.

#[export] Instance same_dialogs_preorder : PreOrder same_dialogs.
Proof. split; [done|]. intros a1 a2 a3 H12 H23. unfold same_dialogs in *. congruence. Qed.

Abbreviation keeps_dialogs := (stable same_dialogs).

(** [m] shows one dialog when it returns, none when it raises. *)
Definition one_dialog {A} (m : PyM app A) : Prop :=
  forall a, match m a with
            | (Ok _, a') => exists d, dialogs a' = dialogs a ++ [d]
            | (Exc _, a') => dialogs a' = dialogs a
            end.

Create HintDb dialogs discriminated.

Lemma keeps_lift {A} (m : PyM world A) : keeps_dialogs (lift m).
Proof. intros a. unfold lift, same_dialogs. by destruct (m (net a)). Qed.

Lemma one_show d : one_dialog (show d).
Proof. intros a. by exists d. Qed.

Lemma one_bind {A B} (m : PyM app A) (f : A -> PyM app B) :
  keeps_dialogs m -> (forall x, one_dialog (f x)) -> one_dialog (bind m f).
Proof.
  intros Hm Hf a. specialize (Hm a). unfold bind, same_dialogs in *.
  destruct (m a) as [[x|e] a'] eqn:E; simpl in *; [|done].
  specialize (Hf x a'). rewrite Hm in Hf. done.
Qed.

#[export] Hint Resolve keeps_lift one_show one_bind : dialogs.

(** Close a [keeps_dialogs] or [one_dialog] goal by the structure of the
    program: binds, lets on pairs, and the branches of [if] and [match]. *)
Ltac dialog_auto :=
  repeat first [ solve [eauto with dialogs]
               | match goal with
                 | p : _ * _ |- _ => destruct p
                 | |- forall _, _ => intros ?
                 end
               | case_match
               | match goal with
                 | |- one_dialog (bind _ _) => apply one_bind
                 end
               | stable_step ].

Lemma keeps_ext_step base_url ext end_time total st :
  keeps_dialogs (ext_step base_url ext end_time total st).
Proof. unfold ext_step, update_progress, strptime_or_raise. dialog_auto. Qed.

Lemma keeps_ext_loop base_url prev_time next_time total extensions c :
  keeps_dialogs (ext_loop base_url prev_time next_time total extensions c).
Proof.
  revert c. induction extensions as [|ext rest IH]; intros c; simpl; [dialog_auto|].
  unfold strptime_or_raise. pose proof keeps_ext_step. dialog_auto.
Qed.

(** [try: c except Exception: h]: with a body that shows one dialog when
    it returns, and a handler that shows one and returns, one dialog is
    shown and nothing escapes. *)
Lemma try_one_dialog (c : PyM app unit) (h : exn -> PyM app unit) a :
  one_dialog c ->
  (forall e a', fst (h e a') = Ok tt /\ exists d, dialogs (snd (h e a')) = dialogs a' ++ [d]) ->
  fst (try_except is_exception c h a) = Ok tt /\
  exists d, dialogs (snd (try_except is_exception c h a)) = dialogs a ++ [d].
Proof.
  intros Hc Hh. specialize (Hc a). unfold try_except.
  destruct (c a) as [[[]|e] a']; [done|]. simpl. rewrite <- Hc. apply Hh.
Qed.

(** C16: the worker thread never dies with an exception and always
    answers the user with exactly one message box, whatever the inputs,
    the server and the file system. *)
Theorem search_worker_one_dialog `{GalleryDownloader} target_id a :
  fst (search_worker target_id a) = Ok tt /\
  exists d, dialogs (snd (search_worker target_id a)) = dialogs a ++ [d].
Proof.
  apply try_one_dialog.
  - unfold reset_progress, update_progress, extract_time_range, strptime_or_raise.
    pose proof keeps_ext_loop. dialog_auto.
  - intros e a'. split; [done|]. by eexists.
Qed.

(** ** Progress: the bar never shows more than 100% *)

(** A value the bar can show: [current] between [0] and [total]. *)
Definition progress_ok (e : event) : Prop :=
  match e with EvProgress c t => 0 <= c <= t | _ => True end.

(** [m] appends to the trace only events that satisfy [P]: [emits P] is
    [stable] for the preorder [grows P]. *)
Definition grows (P : event -> Prop) (a a' : app) : Prop :=
  exists evs, trace (net a') = trace (net a) ++ evs /\ Forall P evs.

#[export] Instance grows_preorder P : PreOrder (grows P).
Proof.
  split.
  - intros a. exists []. by rewrite app_nil_r.
  - intros a1 a2 a3 (e1 & H1 & F1) (e2 & H2 & F2). exists (e1 ++ e2).
    rewrite H2, H1, app_assoc. split; [done|]. by apply Forall_app.
Qed.

Abbreviation emits P := (stable (grows P)).

Create HintDb emits discriminated.

Section EmitsLogic.
Variable P : event -> Prop.

Lemma emits_nil {A} (m : PyM app A) : (forall a, net (snd (m a)) = net a) -> emits P m.
Proof. intros Hm a. exists []. by rewrite Hm, app_nil_r. Qed.

Lemma emits_show d : emits P (show d).
Proof. by apply emits_nil. Qed.

Lemma emits_lift {A} (m : PyM world A) :
  (forall w, exists evs, trace (snd (m w)) = trace w ++ evs /\ Forall P evs) -> emits P (lift m).
Proof. intros Hm a. unfold lift. specialize (Hm (net a)). by destruct (m (net a)). Qed.
End EmitsLogic.

Lemma emits_update current total :
  (0 < total -> 0 <= current <= total) -> emits progress_ok (update_progress current total).
Proof.
  intros Hc. apply emits_lift. intros w. eexists. split; [done|].
  repeat constructor. case_match; simpl; [apply Hc, Z.ltb_lt|]; done || lia.
Qed.

Lemma emits_reset : emits progress_ok reset_progress.
Proof. apply emits_lift. intros w. eexists. split; [done|]. repeat constructor; simpl; lia. Qed.

Lemma emits_makedirs p : emits progress_ok (lift (os_makedirs p)).
Proof.
  apply emits_lift. intros w. exists []. rewrite app_nil_r. unfold os_makedirs.
  by repeat case_match.
Qed.

Lemma emits_download `{GalleryDownloader} url dir :
  emits progress_ok (lift (gallery_download url dir)).
Proof.
  apply emits_lift. intros w. destruct (gallery_download_quiet url dir w) as [_ (evs & Ht & Hf)].
  exists evs. split; [done|]. eapply Forall_impl; [exact Hf|]. by intros [].
Qed.

#[export] Hint Resolve emits_show emits_reset emits_makedirs emits_download : emits.

Lemma emits_bind_ret {A B} P (x : A) (f : A -> PyM app B) :
  emits P (f x) -> emits P (bind (ret x) f).
Proof. done. Qed.

Lemma emits_bind_raise {A B} P e (f : A -> PyM app B) : emits P (bind (raise e) f).
Proof. by apply emits_nil. Qed.

#[export] Hint Resolve emits_bind_raise : emits.

(** A parsed time, with what it came from. *)
Lemma emits_bind_strptime {B} P s (f : Z -> PyM app B) :
  (forall t, strptime_hms s = Some t -> emits P (f t)) ->
  emits P (bind (strptime_or_raise s) f).
Proof.
  intros Hf. unfold strptime_or_raise. destruct (strptime_hms s) eqn:E.
  - by apply emits_bind_ret, Hf.
  - apply emits_bind_raise.
Qed.

(** The progress events of the probes, the counter starting at [c]. *)
Lemma search_trace_ok srv base_url total c l :
  0 <= c -> (0 < total -> c + Z.of_nat (length l) <= total) ->
  Forall progress_ok (search_trace srv base_url total c l).
Proof.
  revert c. induction l as [|x l IH]; intros c Hc Hl; simpl; [constructor|].
  assert (Hp : progress_ok (progress_event total (c + 1))).
  { unfold progress_event. case_match; simpl; [|lia]. apply Z.ltb_lt in H. specialize (Hl H). simpl in Hl. lia. }
  repeat constructor; [done|]. case_match; [by repeat constructor|].
  apply IH; [lia|]. intros Ht. specialize (Hl Ht). simpl in Hl. lia.
Qed.

Lemma candidates_length extensions st et :
  length (candidates extensions st et) = (length extensions * Z.to_nat (et - st + 1))%nat.
Proof.
  induction extensions as [|ext rest IH]; [done|]. unfold candidates in *.
  rewrite bind_cons, length_app, length_fmap, length_seqZ, IH. simpl. lia.
Qed.

Lemma emits_ext_loop base_url prev_time next_time st et extensions :
  strptime_hms prev_time = Some st -> strptime_hms next_time = Some et ->
  emits progress_ok
    (ext_loop base_url prev_time next_time (Z.of_nat (length extensions) * (et - st + 1)) extensions 0).
Proof.
  intros Hs He a. rewrite (ext_loop_spec _ _ _ _ _ _ Hs He). simpl.
  eexists. split; [reflexivity|]. apply search_trace_ok; [lia|].
  rewrite candidates_length, Nat2Z.inj_mul. intros Ht.
  assert (0 < et - st + 1) by nia. rewrite Z2Nat.id; lia.
Qed.

Ltac emits_auto :=
  repeat first [ solve [eauto with emits]
               | match goal with
                 | p : _ * _ |- _ => destruct p
                 | |- forall _, _ => intros ?
                 end
               | case_match
               | match goal with
                 | |- emits _ (bind (ret _) _) => apply emits_bind_ret
                 | |- emits _ (bind (strptime_or_raise _) _) => apply emits_bind_strptime
                 | |- emits _ (ext_loop _ _ _ _ _ _) => eapply emits_ext_loop; eassumption
                 | |- emits _ (update_progress _ _) => apply emits_update; lia
                 end
               | stable_step ].

Lemma emits_search_worker `{GalleryDownloader} target_id :
  emits progress_ok (search_worker target_id).
Proof. unfold search_worker, extract_time_range. emits_auto. Qed.

(** C17: whatever the inputs and the answers of the server, every
    progress value the worker shows is between [0] and the total: the
    counter of checks never passes [total_checks]. *)
Theorem search_worker_progress `{GalleryDownloader} target_id a :
  exists evs, trace (net (snd (search_worker target_id a))) = trace (net a) ++ evs /\
              Forall progress_ok evs.
Proof. revert a. apply emits_search_worker. Qed.

(** C20: the count of checks the worker computes, [len(extensions) *
    time_range_seconds], bounds the requests of its extension loop, as
    the spec says: the loop sends at most that many, and exactly that
    many when no probe finds the resource. *)
Theorem ext_loop_probe_bound base_url prev_time next_time total st et extensions c a :
  strptime_hms prev_time = Some st -> strptime_hms next_time = Some et ->
  exists evs,
    trace (net (snd (ext_loop base_url prev_time next_time total extensions c a))) =
      trace (net a) ++ evs /\
    (length (gets evs) <= length extensions * Z.to_nat (et - st + 1))%nat /\
    (fst (ext_loop base_url prev_time next_time total extensions c a) = Ok None ->
     length (gets evs) = (length extensions * Z.to_nat (et - st + 1))%nat).
Proof.
  intros Hs He. rewrite (ext_loop_spec _ _ _ _ _ _ Hs He). simpl.
  eexists. split_and!; [reflexivity| |].
  - rewrite gets_search_trace, length_fmap, <- candidates_length.
    apply prefix_length, upto_prefix.
  - intros [= Hnone]. unfold search_found in Hnone. apply fmap_None in Hnone.
    by rewrite gets_search_trace, length_fmap, upto_all, candidates_length.
Qed.

Lemma candidates_empty extensions st et : et < st -> candidates extensions st et = [].
Proof.
  intros Hlt. induction extensions as [|ext rest IH]; [done|]. unfold candidates in *.
  rewrite bind_cons, IH, seqZ_nil by lia. done.
Qed.

(** C31: a time range whose end is before its start (a window that
    crosses midnight, such as 23:59:58 to 00:00:02) is searched as
    empty: the worker sends no request, sets the bar to empty three times
    and reports that nothing was found. *)
Theorem search_worker_empty_window `{GalleryDownloader} target_id a prev_time next_time base_url st et :
  time_range (prev_uri a) (next_uri a) target_id = Some (prev_time, next_time, base_url) ->
  strptime_hms prev_time = Some st -> strptime_hms next_time = Some et -> et < st ->
  search_worker target_id a =
    (Ok tt, add_dialog DlgNotFound (app_after a [EvProgress 0 0; EvProgress 0 0; EvProgress 0 0])).
Proof.
  intros Ht Hs He Hlt.
  unfold search_worker, reset_progress, update_progress, extract_time_range, strptime_or_raise.
  py_unfold. unfold lift at 1. simpl. rewrite Ht, Hs, He.
  unfold lift at 1. simpl.
  rewrite (ext_loop_spec _ _ _ _ st et Hs He), candidates_empty by done. simpl.
  rewrite (proj2 (Z.ltb_ge 0 _)) by nia.
  unfold show, modify_st, app_after, set_net, emit, add_dialog. simpl. by rewrite <- !app_assoc.
Qed.

(** ** Witnesses *)

Definition worker_server (r : request) : response :=
  if String.eqb (req_url r) "https://i.pximg.net/img-original/img/2023/01/01/12/00/02/104_p0.png"
  then Resp 200 "png0" false
  else Resp 404 EmptyString false.

Definition worker_app (prev next : string) : app :=
  App (World worker_server [] ∅ ∅) "104" prev next true true false EmptyString EmptyString [].

Definition uri_at (hms : string) : string :=
  ("https://i.pximg.net/img-original/img/2023/01/01/" ++ hms ++ "/103_p0.jpg")%string.

(** The search from 12:00:00 to 12:00:03 for artwork 104: the jpg probes
    fail, the png probe at 12:00:02 answers, the gallery is downloaded. *)
Lemma search_worker_spec_witness :
  (time_range (uri_at "12/00/00") (uri_at "12/00/03") 104 =
     Some ("12:00:00"%string, "12:00:03"%string,
           "https://i.pximg.net/img-original/img/2023/01/01/{time}/104_p0"%string) /\
   strptime_hms "12:00:00" = Some 43200 /\ strptime_hms "12:00:03" = Some 43203) /\
  dialogs (snd (search_worker (H := pixiv_downloader 8) 104
                  (worker_app (uri_at "12/00/00") (uri_at "12/00/03")))) = [DlgFound "png"].
Proof.
  split; [split_and!; vm_compute; reflexivity|].
  rewrite (search_worker_spec (H := pixiv_downloader 8) 104 (worker_app (uri_at "12/00/00") (uri_at "12/00/03"))
             "12:00:00" "12:00:03" "https://i.pximg.net/img-original/img/2023/01/01/{time}/104_p0" 43200 43203);
    vm_compute; reflexivity.
Defined.

(** The same run, observed: nine requests (four jpg probes, three png
    probes, two pages of the gallery) and the one file of the gallery. *)
Example search_worker_run_example :
  let a' := snd (search_worker (H := pixiv_downloader 8) 104
                   (worker_app (uri_at "12/00/00") (uri_at "12/00/03"))) in
  length (filter (fun e => match e with EvGet _ => true | _ => false end = true) (trace (net a'))) = 9%nat /\
  files (net a') !! "download/104_p0.png"%string = Some "png0"%string.
Proof. vm_compute. split; reflexivity. Qed.

Lemma search_worker_empty_window_witness :
  (time_range (uri_at "23/59/58") (uri_at "00/00/02") 104 =
     Some ("23:59:58"%string, "00:00:02"%string,
           "https://i.pximg.net/img-original/img/2023/01/01/{time}/104_p0"%string) /\
   strptime_hms "23:59:58" = Some 86398 /\ strptime_hms "00:00:02" = Some 2 /\ 2 < 86398) /\
  search_worker (H := pixiv_downloader 8) 104 (worker_app (uri_at "23/59/58") (uri_at "00/00/02")) =
    (Ok tt, add_dialog DlgNotFound (app_after (worker_app (uri_at "23/59/58") (uri_at "00/00/02"))
                                     [EvProgress 0 0; EvProgress 0 0; EvProgress 0 0])).
Proof.
  split; [split_and!; [vm_compute; reflexivity..|lia]|].
  apply (search_worker_empty_window _ _ "23:59:58" "00:00:02"
           "https://i.pximg.net/img-original/img/2023/01/01/{time}/104_p0" 86398 2);
    [vm_compute; reflexivity..|lia].
Defined.

(** ** From the worker to the downloader *)

Definition pximg_prefix : string := "https://i.pximg.net/img-original/img/".

Definition not_brace (c : ascii) : bool := negb (Ascii.eqb c "{").

Lemma not_brace_digits (l : list ascii) : all_digits l = true -> forallb not_brace l = true.
Proof.
  apply all_digits_forallb. intros c Hc. unfold not_brace.
  destruct (Ascii.eqb_spec c "{") as [->|]; [discriminate|done].
Qed.

Lemma base_template_split year month day target_id :
  base_template year month day target_id =
    ((pximg_prefix ++ year ++ "/" ++ month ++ "/" ++ day ++ "/") ++ "{time}" ++
     ("/" ++ py_str target_id ++ "_p0"))%string.
Proof.
  apply list_ascii_of_string_inj. unfold base_template, pximg_prefix. str_norm. reflexivity.
Qed.

(** C14: the URL the worker hands to [download_pixiv_gallery] is one the
    downloader understands: for the template built from a date of digits
    and a target id, the URL probed for extension [ext] at time [t]
    parses as page [0] of the target's gallery, with the base up to the
    time directory and the extension [.ext]. *)
Theorem found_url_parses year month day target_id ext t :
  all_digits (list_ascii_of_string year) = true ->
  all_digits (list_ascii_of_string month) = true ->
  all_digits (list_ascii_of_string day) = true ->
  0 <= target_id -> ext ∈ ["jpg"; "png"; "gif"]%string ->
  parse_seed (test_url (base_template year month day target_id) ext t) =
    Some (Seed (pximg_prefix ++ year ++ "/" ++ month ++ "/" ++ day ++ "/" ++
                strftime_hms "/" t ++ "/")%string
               (py_str target_id) ("." ++ ext)%string).
Proof.
  intros Hy Hm Hd Hid Hext. destruct (py_str_digits target_id Hid) as [Hi Hi0].
  assert (He : (newline ∉ list_ascii_of_string ext) /\ ("/"%char ∉ list_ascii_of_string ext) /\
               list_ascii_of_string ext <> []).
  { repeat (apply elem_of_cons in Hext as [->|Hext]; [split_and!; py_decide || discriminate|]).
    by apply elem_of_nil in Hext. }
  destruct He as (He1 & He2 & He3).
  unfold test_url. rewrite base_template_split, (py_replace_once _ _ _ _ "{").
  2: reflexivity.
  2, 3: apply (forallb_not_elem not_brace); [done|];
        rewrite !list_ascii_of_string_app, !forallb_app;
        repeat (apply andb_true_intro; split); first [reflexivity | by apply not_brace_digits].
  set (hp := list_ascii_of_string "i.pximg.net/img-original/img/" ++
             list_ascii_of_string year ++ ["/"%char] ++ list_ascii_of_string month ++ ["/"%char] ++
             list_ascii_of_string day ++ ["/"%char] ++ list_ascii_of_string (strftime_hms "/" t)).
  match goal with
  | |- parse_seed ?u = _ => rewrite <- (string_of_list_ascii_of_string u)
  end.
  match goal with
  | |- parse_seed (string_of_list_ascii ?l) = _ => replace l with
    (list_ascii_of_string "http" ++ (if true then ["s"%char] else []) ++ list_ascii_of_string "://" ++
     hp ++ "/"%char :: list_ascii_of_string (py_str target_id) ++ list_ascii_of_string "_p" ++
     ["0"%char] ++ "."%char :: list_ascii_of_string ext)
    by (unfold hp, pximg_prefix; str_norm; reflexivity)
  end.
  rewrite (parse_seed_fields true); [|apply forallb_dot|done..].
  - f_equal. f_equal; apply list_ascii_of_string_inj;
      rewrite ?list_ascii_of_string_of_list_ascii; unfold hp, pximg_prefix; str_norm; reflexivity.
  - unfold hp. rewrite !forallb_app. repeat (apply andb_true_intro; split);
      first [reflexivity | apply strftime_dot | by apply digits_dot].
Qed.

Lemma found_url_parses_witness :
  (all_digits (list_ascii_of_string "2023") = true /\ all_digits (list_ascii_of_string "01") = true /\
   0 <= 104 /\ "png"%string ∈ ["jpg"; "png"; "gif"]%string) /\
  parse_seed (test_url (base_template "2023" "01" "01" 104) "png" 43202) =
    Some (Seed "https://i.pximg.net/img-original/img/2023/01/01/12/00/02/" "104" ".png").
Proof.
  split; [split_and!; [reflexivity|reflexivity|lia|py_decide]|].
  rewrite (found_url_parses "2023" "01" "01" 104 "png" 43202);
    [vm_compute; reflexivity|reflexivity|reflexivity|reflexivity|lia|py_decide].
Defined.

(** ** [extract_time_range] on the URIs of [i.pximg.net] *)

(** The date and time directories of an original image URI. *)
Record stamp := Stamp {
  st_year : string; st_month : string; st_day : string;
  st_hour : string; st_minute : string; st_second : string }.

Definition digits_n (n : nat) (s : string) : bool :=
  (length (list_ascii_of_string s) =? n)%nat && all_digits (list_ascii_of_string s).

(** Four digits of year, two of every other field, as [\d{4}] and [\d{2}]. *)
Definition stamp_ok (st : stamp) : bool :=
  digits_n 4 (st_year st) && digits_n 2 (st_month st) && digits_n 2 (st_day st) &&
  digits_n 2 (st_hour st) && digits_n 2 (st_minute st) && digits_n 2 (st_second st).

Definition pximg_uri (st : stamp) (file : string) : string :=
  (pximg_prefix ++ st_year st ++ "/" ++ st_month st ++ "/" ++ st_day st ++ "/" ++
   st_hour st ++ "/" ++ st_minute st ++ "/" ++ st_second st ++ "/" ++ file)%string.

Definition stamp_time (st : stamp) : string :=
  (st_hour st ++ ":" ++ st_minute st ++ ":" ++ st_second st)%string.

Section DigitGroups.
Context {R : Type}.

Lemma grp_digits_intro i n s t g (k : list ascii -> groups -> option R) x :
  digits_n n s = true -> k t (<[i := list_ascii_of_string s]> g) = Some x ->
  mtch (Grp i (Rep is_digit n (Some n))) (list_ascii_of_string s ++ t) g k = Some x.
Proof.
  intros [Hn Hd]%andb_prop Hk. apply Nat.eqb_eq in Hn.
  apply mtch_grp_intro, mtch_rep_exact_intro; [done|done|]. by rewrite take_consumed.
Qed.
End DigitGroups.

Lemma time_uri_match st file :
  stamp_ok st = true ->
  match_at time_uri_pattern
    (list_ascii_of_string "img/" ++ list_ascii_of_string (st_year st) ++ "/"%char ::
     list_ascii_of_string (st_month st) ++ "/"%char :: list_ascii_of_string (st_day st) ++ "/"%char ::
     list_ascii_of_string (st_hour st) ++ "/"%char :: list_ascii_of_string (st_minute st) ++ "/"%char ::
     list_ascii_of_string (st_second st) ++ "/"%char :: list_ascii_of_string file) =
  Some (MatchObj
          (<[6%nat := list_ascii_of_string (st_second st)]>
           (<[5%nat := list_ascii_of_string (st_minute st)]>
            (<[4%nat := list_ascii_of_string (st_hour st)]>
             (<[3%nat := list_ascii_of_string (st_day st)]>
              (<[2%nat := list_ascii_of_string (st_month st)]>
               (<[1%nat := list_ascii_of_string (st_year st)]> ∅))))))
          (list_ascii_of_string file)).
Proof.
  unfold stamp_ok. intros Hst. do 5 (apply andb_prop in Hst as [Hst ?]).
  unfold match_at, time_uri_pattern, two_digit_grp.
  apply mtch_cat_intro, mtch_lits_intro.
  apply mtch_cat_intro, grp_digits_intro; [done|].
  repeat (apply mtch_cat_intro, mtch_lit_intro, mtch_cat_intro, grp_digits_intro; [done|]).
  by apply mtch_lit_intro.
Qed.

(** [re.search] finds the time directories of a [i.pximg.net] URI at the
    [img/] after [img-original/], whatever the file name after them. *)
Lemma re_search_pximg st file :
  stamp_ok st = true ->
  re_search time_uri_pattern (pximg_uri st file) =
  Some (MatchObj
          (<[6%nat := list_ascii_of_string (st_second st)]>
           (<[5%nat := list_ascii_of_string (st_minute st)]>
            (<[4%nat := list_ascii_of_string (st_hour st)]>
             (<[3%nat := list_ascii_of_string (st_day st)]>
              (<[2%nat := list_ascii_of_string (st_month st)]>
               (<[1%nat := list_ascii_of_string (st_year st)]> ∅))))))
          (list_ascii_of_string file)).
Proof.
  intros Hok. unfold re_search, pximg_uri, pximg_prefix.
  rewrite !list_ascii_of_string_app. cbn [list_ascii_of_string Datatypes.app].
  do 33 (rewrite search_l_skip; [|reflexivity]).
  apply search_l_hit, time_uri_match, Hok.
Qed.

(** C15: [extract_time_range] on two original-image URIs of
    [i.pximg.net]: the times are the [HH:MM:SS] of their time
    directories, and the template keeps the date of the first URI, puts
    [{time}] for its time and the target id for its file name. *)
Theorem time_range_pximg prev next prev_file next_file target_id :
  stamp_ok prev = true -> stamp_ok next = true ->
  time_range (pximg_uri prev prev_file) (pximg_uri next next_file) target_id =
    Some (stamp_time prev, stamp_time next,
          base_template (st_year prev) (st_month prev) (st_day prev) target_id).
Proof.
  intros Hp Hn. unfold time_range. rewrite !re_search_pximg by done.
  unfold match_time, grp, group, stamp_time. cbn [m_groups].
  simplify_map_eq. by rewrite !string_of_list_ascii_of_string.
Qed.

Lemma time_range_pximg_witness :
  (stamp_ok (Stamp "2023" "01" "01" "12" "00" "00") = true /\
   stamp_ok (Stamp "2023" "01" "02" "08" "15" "30") = true) /\
  time_range (pximg_uri (Stamp "2023" "01" "01" "12" "00" "00") "103_p0.jpg")
             (pximg_uri (Stamp "2023" "01" "02" "08" "15" "30") "105_p0.png") 104 =
    Some ("12:00:00"%string, "08:15:30"%string, base_template "2023" "01" "01" 104).
Proof.
  split; [split; reflexivity|].
  apply (time_range_pximg (Stamp "2023" "01" "01" "12" "00" "00") (Stamp "2023" "01" "02" "08" "15" "30"));
    reflexivity.
Defined.

(** ** The checks of [start_search] *)

(** C27: [start_search] checks its inputs before the worker runs: with
    a URI field empty, no file type checked, or an artwork id that
    [int()] rejects, it only shows an error box; no request is sent and
    nothing else changes. *)
Theorem start_search_rejects `{GalleryDownloader} a :
  (prev_uri a = EmptyString \/ next_uri a = EmptyString \/
   (file_jpg a || file_png a || file_gif a) = false \/ py_int (artwork_id a) = None) ->
  exists msg, start_search a = (Ok tt, add_dialog (DlgError msg) a).
Proof.
  intros Hbad. unfold start_search, get_st. py_unfold.
  destruct (String.eqb (prev_uri a) EmptyString) eqn:Ep; [by eexists|].
  destruct (String.eqb (next_uri a) EmptyString) eqn:En; [by eexists|].
  apply String.eqb_neq in Ep, En. simpl.
  destruct (file_jpg a || file_png a || file_gif a) eqn:Ef; simpl; [|by eexists].
  destruct (py_int (artwork_id a)) eqn:Ei; [|by eexists].
  exfalso. destruct Hbad as [?|[?|[?|?]]]; congruence.
Qed.

Lemma start_search_rejects_witness :
  (prev_uri (worker_app EmptyString (uri_at "12/00/03")) = EmptyString \/
   next_uri (worker_app EmptyString (uri_at "12/00/03")) = EmptyString \/
   (file_jpg (worker_app EmptyString (uri_at "12/00/03")) ||
    file_png (worker_app EmptyString (uri_at "12/00/03")) ||
    file_gif (worker_app EmptyString (uri_at "12/00/03"))) = false \/
   py_int (artwork_id (worker_app EmptyString (uri_at "12/00/03"))) = None) /\
  exists msg, start_search (H := pixiv_downloader 8) (worker_app EmptyString (uri_at "12/00/03")) =
    (Ok tt, add_dialog (DlgError msg) (worker_app EmptyString (uri_at "12/00/03"))).
Proof.
  split; [left; reflexivity|]. apply start_search_rejects. left. reflexivity.
Defined.

(** ** The extension resolver of the spec *)

(** The contract of the spec's [ExtensionResolver]: the first extension,
    in the order given, that answers somewhere in the window, with the
    first second at which it answers. *)
Definition resolve (hit : string -> Z -> bool) (extensions : list string) (window : list Z)
    : option (string * Z) :=
  match List.find (fun ext => existsb (hit ext) window) extensions with
  | Some ext => pair ext <$> List.find (hit ext) window
  | None => None
  end.

Section Resolver.
Variables (srv : request -> response) (base_url : string).

Lemma existsb_pair ext ts :
  existsb (cand_hit srv base_url) (pair ext <$> ts) = existsb (fun t => cand_hit srv base_url (ext, t)) ts.
Proof. induction ts as [|t ts IH]; simpl; [done|]. f_equal. exact IH. Qed.

Lemma search_found_pair ext ts :
  search_found srv base_url (pair ext <$> ts) =
    (fun t => (ext, test_url base_url ext t)) <$> List.find (fun t => cand_hit srv base_url (ext, t)) ts.
Proof.
  unfold search_found. induction ts as [|t ts IH]; simpl; [done|].
  by destruct (cand_hit srv base_url (ext, t)).
Qed.
End Resolver.

(** C6: the extension loop of [search_worker] implements the spec's
    extension resolver: it returns the first checked extension that
    answers 200 at some second of the window, with the URL of the first
    such second, and [None] when no extension does. *)
Theorem ext_loop_refines base_url prev_time next_time total st et extensions c a :
  strptime_hms prev_time = Some st -> strptime_hms next_time = Some et ->
  fst (ext_loop base_url prev_time next_time total extensions c a) =
    Ok ((fun x => (x.1, test_url base_url x.1 x.2)) <$>
        resolve (fun ext t => answers_200 (server (net a)) (test_request base_url ext t))
                extensions (seqZ st (et - st + 1))).
Proof.
  intros Hs He. rewrite (ext_loop_spec _ _ _ _ _ _ Hs He). simpl. f_equal.
  unfold resolve, candidates. induction extensions as [|ext rest IH]; [done|].
  rewrite bind_cons, search_found_app, existsb_pair. simpl.
  unfold cand_hit in *. simpl in *.
  destruct (existsb _ (seqZ st (et - st + 1))); [|exact IH].
  rewrite search_found_pair. unfold cand_hit. simpl.
  by destruct (List.find _ (seqZ st (et - st + 1))).
Qed.

Lemma ext_loop_refines_witness :
  (strptime_hms "12:00:00" = Some 43200 /\ strptime_hms "12:00:03" = Some 43203) /\
  fst (ext_loop "https://i.pximg.net/img-original/img/2023/01/01/{time}/104_p0" "12:00:00" "12:00:03" 8
         ["jpg"; "png"]%string 0 (worker_app (uri_at "12/00/00") (uri_at "12/00/03"))) =
    Ok (Some ("png"%string,
              "https://i.pximg.net/img-original/img/2023/01/01/12/00/02/104_p0.png"%string)).
Proof.
  split; [split; vm_compute; reflexivity|].
  rewrite (ext_loop_refines _ _ _ _ 43200 43203); [vm_compute; reflexivity|vm_compute; reflexivity..].
Defined.

(** ** The probe URLs in the format of the URIs *)

Lemma pad2_digits n : 0 <= n < 60 -> digits_n 2 (pad2 n) = true.
Proof.
  intros Hn.
  assert (Hall : forallb (fun k => digits_n 2 (pad2 (Z.of_nat k))) (seq 0 60) = true)
    by (vm_compute; reflexivity).
  rewrite forallb_forall in Hall. rewrite <- (Z2Nat.id n) by lia.
  apply Hall, in_seq. lia.
Qed.

(** The URL probed at [t] is an original-image URI whose time
    directories are the three fields [strftime('%H/%M/%S')] writes. *)
Lemma test_url_pximg year month day target_id ext t :
  all_digits (list_ascii_of_string year) = true ->
  all_digits (list_ascii_of_string month) = true ->
  all_digits (list_ascii_of_string day) = true -> 0 <= target_id ->
  test_url (base_template year month day target_id) ext t =
  pximg_uri (Stamp year month day (pad2 ((t / 3600) mod 24)) (pad2 ((t / 60) mod 60)) (pad2 (t mod 60)))
            (py_str target_id ++ "_p0." ++ ext).
Proof.
  intros Hy Hm Hd Hid. destruct (py_str_digits target_id Hid) as [Hi Hi0].
  unfold test_url. rewrite base_template_split, (py_replace_once _ _ _ _ "{").
  2: reflexivity.
  2, 3: apply (forallb_not_elem not_brace); [done|];
        rewrite !list_ascii_of_string_app, !forallb_app;
        repeat (apply andb_true_intro; split); first [reflexivity | by apply not_brace_digits].
  apply list_ascii_of_string_inj. unfold pximg_uri, strftime_hms. str_norm. reflexivity.
Qed.

(** C12: the worker writes its probe URLs in the format it reads the
    URIs in: for a date of digits and two times of day [t1] and [t2],
    [extract_time_range] on the URLs the worker probes at [t1] and [t2]
    finds exactly the times [strftime('%H:%M:%S')] writes for them (the
    [\d{2}] groups need the zero padding) and the template the URLs came
    from, and [strptime] reads those times back as [t1] and [t2]. *)
Theorem probe_url_time_roundtrip year month day target_id ext1 ext2 t1 t2 :
  digits_n 4 year = true -> digits_n 2 month = true -> digits_n 2 day = true ->
  0 <= target_id -> 0 <= t1 < 86400 -> 0 <= t2 < 86400 ->
  time_range (test_url (base_template year month day target_id) ext1 t1)
             (test_url (base_template year month day target_id) ext2 t2) target_id =
    Some (strftime_hms ":" t1, strftime_hms ":" t2, base_template year month day target_id) /\
  strptime_hms (strftime_hms ":" t1) = Some t1 /\ strptime_hms (strftime_hms ":" t2) = Some t2.
Proof.
  intros Hy Hm Hd Hid Ht1 Ht2.
  pose proof Hy as [_ Hy']%andb_prop. pose proof Hm as [_ Hm']%andb_prop.
  pose proof Hd as [_ Hd']%andb_prop.
  split; [|split; apply strptime_strftime; lia].
  rewrite !test_url_pximg by done. unfold time_range.
  rewrite !re_search_pximg
    by (unfold stamp_ok; simpl; rewrite Hy, Hm, Hd, !pad2_digits by (Z.div_mod_to_equations; lia);
        reflexivity).
  unfold match_time, grp, group. cbn [m_groups].
  simplify_map_eq. by rewrite !string_of_list_ascii_of_string.
Qed.

Lemma probe_url_time_roundtrip_witness :
  (digits_n 4 "2023" = true /\ digits_n 2 "01" = true /\ digits_n 2 "01" = true /\
   0 <= 104 /\ 0 <= 43200 < 86400 /\ 0 <= 3723 < 86400) /\
  time_range (test_url (base_template "2023" "01" "01" 104) "png" 43200)
             (test_url (base_template "2023" "01" "01" 104) "jpg" 3723) 104 =
    Some ("12:00:00"%string, "01:02:03"%string, base_template "2023" "01" "01" 104) /\
  strptime_hms "12:00:00" = Some 43200 /\ strptime_hms "01:02:03" = Some 3723.
Proof.
  split; [split_and!; reflexivity || lia|].
  apply (probe_url_time_roundtrip "2023" "01" "01" 104 "png" "jpg" 43200 3723);
    reflexivity || lia.
Defined.

(** ** [find_adjacent_artworks] *)

(** C9: functional behaviour of the button "Find adjacent artworks": when
    the entry holds the integer [c] and the two loops of
    [find_adjacent_valid_artworks] find [p] and [n], the method sends the
    requests of the two loops, sets the two URL fields to the pages of [p]
    and [n], and shows no message box. *)
Theorem find_adjacent_artworks_spec a c p n :
  py_int (artwork_id a) = Some c -> prev_answer (net a) c p -> next_answer (net a) c n ->
  find_adjacent_artworks a =
    (Ok tt, set_urls (build_pixiv_artwork_url p) (build_pixiv_artwork_url n)
              (app_after a (prev_requests c p ++ next_requests c n))).
Proof.
  intros Hc Hp Hn. unfold find_adjacent_artworks, lift.
  py_unfold. by rewrite Hc, (find_adjacent_run c (net a) p n Hp Hn).
Qed.

(** The application with [entry] in the artwork field, on the server of
    [AdjacentSearch]. *)
Definition entry_app (entry : string) : app :=
  App neighbours_world entry EmptyString EmptyString false false false EmptyString EmptyString [].

Lemma find_adjacent_artworks_spec_witness :
  py_int (artwork_id (entry_app " 5")) = Some 5 /\
  prev_answer (net (entry_app " 5")) 5 3 /\ next_answer (net (entry_app " 5")) 5 7 /\
  find_adjacent_artworks (entry_app " 5") =
    (Ok tt, set_urls "https://www.pixiv.net/en/artworks/3" "https://www.pixiv.net/en/artworks/7"
              (app_after (entry_app " 5") (prev_requests 5 3 ++ next_requests 5 7))).
Proof.
  destruct neighbours_answers as [Hp Hn].
  split_and!; [reflexivity|exact Hp|exact Hn|].
  apply (find_adjacent_artworks_spec (entry_app " 5") 5 3 7); [reflexivity|exact Hp|exact Hn].
Defined.

(** The search of the witness of [search_worker_spec]: seven of the eight
    possible probes. *)
Lemma ext_loop_probe_bound_witness :
  (strptime_hms "12:00:00" = Some 43200 /\ strptime_hms "12:00:03" = Some 43203) /\
  exists evs,
    trace (net (snd (ext_loop "https://i.pximg.net/img-original/img/2023/01/01/{time}/104_p0"
                       "12:00:00" "12:00:03" 8 ["jpg"; "png"]%string 0
                       (worker_app (uri_at "12/00/00") (uri_at "12/00/03"))))) = [] ++ evs /\
    (length (gets evs) <= 2 * Z.to_nat (43203 - 43200 + 1))%nat /\
    (fst (ext_loop "https://i.pximg.net/img-original/img/2023/01/01/{time}/104_p0"
            "12:00:00" "12:00:03" 8 ["jpg"; "png"]%string 0
            (worker_app (uri_at "12/00/00") (uri_at "12/00/03"))) = Ok None ->
     length (gets evs) = (2 * Z.to_nat (43203 - 43200 + 1))%nat).
Proof.
  split; [split; vm_compute; reflexivity|].
  apply (ext_loop_probe_bound _ _ _ _ 43200 43203 ["jpg"; "png"]%string 0
           (worker_app (uri_at "12/00/00") (uri_at "12/00/03"))); vm_compute; reflexivity.
Defined.

