(* ===== verification/Scripts.v ===== *)
(** * The script entry points: the [if __name__ == '__main__'] blocks

    Each of [find_adj.py], [find_resource.py] and [resource_downloader.py]
    ends with a block that runs its function on constants written in the
    file.  [FindAdjScript], [FindResourceScript] and [DownloaderScript]
    model the three blocks on the world of [Http].  The strings the
    blocks [print] are the result of the model, in the order of the
    calls; the prints inside the functions are not modelled, as
    elsewhere.

    The constants of [find_resource.py] and [resource_downloader.py] are
    placeholders ([HH/MM/SS], [{ARTWORK_ID}]): as shipped, the two blocks
    return at their first check and touch nothing.  [main.py]'s block
    calls [main()], which [Gui] models ([main_sys], [mainloop]). *)

From stdpp Require Import base list gmap strings sets.
From Stdlib Require Import ZArith Ascii String.
From S2P Require Import Prelude PyStr Regex Http Downloader PageProbe AdjacentSearch TimeWindow.

Open Scope Z_scope.

(** ** [find_adj.py] *)

Module FindAdjScript.

Definition ARTWORK_ID : Z := 123456789.

(** The six [print] calls after the search. *)
Definition summary (prev_id next_id : Z) : list string :=
  [String newline "=== 结果汇总 ===";
   "中心作品 ID: " ++ py_str ARTWORK_ID;
   "前一个作品 ID: " ++ py_str prev_id;
   "前一个作品 URL: " ++ build_pixiv_artwork_url prev_id;
   "后一个作品 ID: " ++ py_str next_id;
   "后一个作品 URL: " ++ build_pixiv_artwork_url next_id]%string.

Definition find_adj_main : PyM world (list string) :=
  r <- find_adjacent_valid_artworks ARTWORK_ID ;;
  let '(prev_id, next_id) := r in
  ret (summary prev_id next_id).

End FindAdjScript.

(** ** [find_resource.py] *)

Module FindResourceScript.

Definition BASE_URL_TEMPLATE : string :=
  ("https://i.pximg.net/img-original/img/YYYY/MM/DD/" ++ "{time}/")%string.

Definition ARTWORK_ID : Z := 123456789.

Definition IMAGE_ID : string := (py_str ARTWORK_ID ++ "_p0.png")%string.

Definition START_TIME : string := "HH/MM/SS".

Definition END_TIME : string := "HH/MM/SS".

Definition find_resource_main : PyM world (option (list string)) :=
  check_pixiv_image_existence BASE_URL_TEMPLATE START_TIME END_TIME IMAGE_ID.

(** As shipped, the block stops at the time check: [HH:MM:SS] does
    not parse, so [check_pixiv_image_existence] returns at its
    [except ValueError] without a request, on every world. *)
Theorem find_resource_placeholder w : find_resource_main w = (Ok None, w).
Proof.
  assert (H : strptime_hms (py_replace START_TIME "/" ":") = None) by (vm_compute; reflexivity).
  unfold find_resource_main, check_pixiv_image_existence, END_TIME. cbv zeta. by rewrite H.
Qed.

End FindResourceScript.

(** ** [resource_downloader.py] *)

Module DownloaderScript.

Definition TARGET_URL : string :=
  "https://i.pximg.net/img-original/img/YYYY/MM/DD/HH/MM/SS/{ARTWORK_ID}_p0.png".

(** [r"C:\Downloads"]: a raw string, the backslash is a character. *)
Definition DOWNLOAD_PATH : string := "C:\Downloads".

Definition downloader_main (fuel : positive) : PyM world gallery_report :=
  download_pixiv_gallery fuel TARGET_URL DOWNLOAD_PATH.

(** As shipped, the block downloads nothing: [{ARTWORK_ID}] was
    never substituted, the id before [_p] is not a run of digits, the
    pattern does not match, and the function returns at its first check
    without creating the directory or sending a request. *)
Theorem downloader_placeholder fuel w : downloader_main fuel w = (Ok ParseFailed, w).
Proof.
  assert (H : parse_seed TARGET_URL = None) by (vm_compute; reflexivity).
  unfold downloader_main, download_pixiv_gallery. by rewrite H.
Qed.

End DownloaderScript.

