(* ===== verification/Agreement.v ===== *)
(** * The worker's scan and [find_resource.py]'s scan agree

    [search_worker] does not call [check_pixiv_image_existence]: it
    re-implements its loop inline (the comment of [main.py] says "Use
    find_resource.py function to check existence").  The worker builds
    its URL with [base_url.replace('{time}', ...) + '.' + ext] from the
    template of [extract_time_range]; the tool builds it with
    [template.format(time=...) + image_id].  This file shows that for
    one extension the two loops send the same request at each second.
    The tool reports every second that answers, and the worker stops at
    the first of them. *)

From stdpp Require Import base list gmap strings sets.
From Stdlib Require Import ZArith Ascii String.
From S2P Require Import Prelude PyStr PyFormat Regex Http Downloader PageProbe AdjacentSearch TimeWindow SearchWorker.

Open Scope Z_scope.

(** ** The tool's arguments for the worker's search *)

(** The template [find_resource.py] documents, with the date of the
    worker's template: [https://i.pximg.net/img-original/img/Y/M/D/{time}/]. *)
Definition tool_template (year month day : string) : string :=
  (pximg_prefix ++ year ++ "/" ++ month ++ "/" ++ day ++ "/{time}/")%string.

(** [image_id = f"{target_id}_p0.{ext}"], as the worker names it. *)
Definition image_name (target_id : Z) (ext : string) : string :=
  (py_str target_id ++ "_p0." ++ ext)%string.

(** ** [str.format] on plain text *)

Lemma digits_plain l : all_digits l = true -> forallb plain l = true.
Proof.
  apply all_digits_forallb. intros c Hc. unfold plain.
  destruct (Ascii.eqb_spec c "{") as [->|]; [discriminate|].
  destruct (Ascii.eqb_spec c "}") as [->|]; [discriminate|done].
Qed.

(** ** The same URL, the same request *)

(** The tool's template is its prefix, the field and a slash, for any
    renderer of the field. *)
Lemma tool_format_l year month day r v :
  all_digits (list_ascii_of_string year) = true ->
  all_digits (list_ascii_of_string month) = true ->
  all_digits (list_ascii_of_string day) = true ->
  r (list_ascii_of_string "time") None [] = Ok v ->
  format_l r FmtText (list_ascii_of_string (tool_template year month day)) =
    Ok (list_ascii_of_string (pximg_prefix ++ year ++ "/" ++ month ++ "/" ++ day ++ "/") ++
        v ++ ["/"%char]).
Proof.
  intros Hy Hm Hd Hr. unfold tool_template.
  set (pre := list_ascii_of_string pximg_prefix ++ list_ascii_of_string year ++ ["/"%char] ++
              list_ascii_of_string month ++ ["/"%char] ++ list_ascii_of_string day ++ ["/"%char]).
  match goal with
  | |- format_l _ FmtText (list_ascii_of_string ?t) = _ =>
      replace (list_ascii_of_string t) with (pre ++ list_ascii_of_string "{time}" ++ ["/"%char])
        by (unfold pre; str_norm; reflexivity)
  end.
  rewrite format_l_plain, format_l_time, Hr.
  - change (format_l r FmtText ["/"%char]) with (Ok ["/"%char]). simpl. do 2 f_equal.
    unfold pre. str_norm. reflexivity.
  - unfold pre. rewrite !forallb_app.
    repeat (apply andb_true_intro; split); first [reflexivity | by apply digits_plain].
Qed.

Lemma tool_format year month day v :
  all_digits (list_ascii_of_string year) = true ->
  all_digits (list_ascii_of_string month) = true ->
  all_digits (list_ascii_of_string day) = true ->
  py_format_time (tool_template year month day) v =
    Ok (pximg_prefix ++ year ++ "/" ++ month ++ "/" ++ day ++ "/" ++ v ++ "/")%string.
Proof.
  intros Hy Hm Hd. unfold py_format_time. cbn [format_d].
  rewrite (tool_format_l _ _ _ _ (list_ascii_of_string v)) by (done || apply render_time).
  f_equal. apply list_ascii_of_string_inj.
  rewrite list_ascii_of_string_of_list_ascii. str_norm. reflexivity.
Qed.

Lemma tool_template_ok year month day :
  all_digits (list_ascii_of_string year) = true ->
  all_digits (list_ascii_of_string month) = true ->
  all_digits (list_ascii_of_string day) = true ->
  template_ok (tool_template year month day) = true.
Proof.
  intros. unfold template_ok. cbn [format_d].
  by rewrite (tool_format_l _ _ _ _ []) by (done || apply render_time).
Qed.

(** The worker's URL at [t] is the tool's URL at [t]. *)
Lemma test_url_tool year month day target_id ext t :
  all_digits (list_ascii_of_string year) = true ->
  all_digits (list_ascii_of_string month) = true ->
  all_digits (list_ascii_of_string day) = true -> 0 <= target_id ->
  test_url (base_template year month day target_id) ext t =
    probe_url (tool_template year month day) (image_name target_id ext) t.
Proof.
  intros Hy Hm Hd Hid. destruct (py_str_digits target_id Hid) as [Hi _].
  unfold test_url, probe_url. rewrite tool_format by done.
  rewrite base_template_split, (py_replace_once _ _ _ _ "{"); [|reflexivity|..].
  - apply list_ascii_of_string_inj. unfold image_name. str_norm. reflexivity.
  - apply (forallb_not_elem not_brace); [done|].
    rewrite !list_ascii_of_string_app, !forallb_app.
    repeat (apply andb_true_intro; split); first [reflexivity | by apply not_brace_digits].
  - apply (forallb_not_elem not_brace); [done|].
    rewrite !list_ascii_of_string_app, !forallb_app.
    repeat (apply andb_true_intro; split); first [reflexivity | by apply not_brace_digits].
Qed.

Lemma test_request_tool year month day target_id ext t :
  all_digits (list_ascii_of_string year) = true ->
  all_digits (list_ascii_of_string month) = true ->
  all_digits (list_ascii_of_string day) = true -> 0 <= target_id ->
  test_request (base_template year month day target_id) ext t =
    probe_request (tool_template year month day) (image_name target_id ext) t.
Proof. intros. unfold test_request, probe_request. by rewrite test_url_tool. Qed.

(** ** The requests of a run *)

Lemma gets_probes (f : Z -> request) (l : list Z) : gets ((fun t => EvGet (f t)) <$> l) = f <$> l.
Proof. induction l as [|x l IH]; [done|]. simpl. f_equal. exact IH. Qed.

(** The worker's probes of one extension: one request per second up to
    the first hit. *)
Lemma gets_search_trace_ext srv base_url total c ext (l : list Z) :
  gets (search_trace srv base_url total c (pair ext <$> l)) =
    test_request base_url ext <$> upto (fun t => cand_hit srv base_url (ext, t)) l.
Proof.
  rewrite gets_search_trace, upto_fmap, <- list_fmap_compose. done.
Qed.

(** ** The two scans *)

(** C7: Equivalence of the worker's inline scan with the tool it
    re-implements, for the date and target of the worker's template and
    one extension.  [check_pixiv_image_existence] on the tool's template
    and the worker's times reports the timestamps of a list [hits] of
    seconds.  The worker's loop returns the URL of the first of them, the
    URL the tool requests at that second, or [None] when the list is
    empty.  The worker's requests are a prefix of the tool's, in the same
    order, and all of them when nothing is found. *)
Theorem worker_scan_agrees year month day target_id ext prev_time next_time total c a st et :
  all_digits (list_ascii_of_string year) = true ->
  all_digits (list_ascii_of_string month) = true ->
  all_digits (list_ascii_of_string day) = true -> 0 <= target_id ->
  "/"%char ∉ list_ascii_of_string prev_time -> "/"%char ∉ list_ascii_of_string next_time ->
  strptime_hms prev_time = Some st -> strptime_hms next_time = Some et ->
  exists hits evs_tool evs_worker,
    check_pixiv_image_existence (tool_template year month day) prev_time next_time
      (image_name target_id ext) (net a) =
      (Ok (Some (strftime_hms ":" <$> hits)),
       World (server (net a)) (trace (net a) ++ evs_tool) (files (net a)) (dirs (net a))) /\
    fst (ext_loop (base_template year month day target_id) prev_time next_time total [ext] c a) =
      Ok ((fun t => (ext, probe_url (tool_template year month day) (image_name target_id ext) t))
            <$> head hits) /\
    trace (net (snd (ext_loop (base_template year month day target_id) prev_time next_time
                       total [ext] c a))) = trace (net a) ++ evs_worker /\
    gets evs_worker `prefix_of` gets evs_tool /\
    (hits = [] -> gets evs_worker = gets evs_tool).
Proof.
  intros Hy Hm Hd Hid Hp Hn Hs He.
  set (T := tool_template year month day). set (I := image_name target_id ext).
  set (B := base_template year month day target_id). set (srv := server (net a)).
  set (window := seqZ st (et - st + 1)).
  assert (Hreq : forall t, test_request B ext t = probe_request T I t)
    by (intros; by apply test_request_tool).
  assert (Hhit : forall t, cand_hit srv B (ext, t) = answers_200 srv (probe_request T I t))
    by (intros; unfold cand_hit; simpl; by rewrite Hreq).
  assert (Hfind : List.find (fun t => cand_hit srv B (ext, t)) window =
                  head (filter (fun t => answers_200 srv (probe_request T I t) = true) window)).
  { rewrite find_head_filter. f_equal. apply list_filter_iff. intros t. by rewrite Hhit. }
  exists (filter (fun t => answers_200 srv (probe_request T I t) = true) window),
    ((fun t => EvGet (probe_request T I t)) <$> window),
    (search_trace srv B total c (pair ext <$> window)).
  assert (Hloop := ext_loop_spec B prev_time next_time total st et Hs He [ext] c a).
  assert (Hc : candidates [ext] st et = pair ext <$> window)
    by (unfold candidates; simpl; by rewrite app_nil_r).
  rewrite Hc in Hloop.
  rewrite Hloop. split_and!.
  - unfold check_pixiv_image_existence.
    rewrite !(py_replace_absent _ _ _ "/"), Hs, He by done. py_unfold.
    rewrite iter_pos_nat, (scan_loop _ _ _ (tool_template_ok _ _ _ Hy Hm Hd) (Z.to_nat (et - st + 1)));
      [done|done|].
    replace (et - st + 2) with (et - st + 1 + 1) by lia. apply to_pos_fuel_succ.
  - simpl. f_equal. unfold search_found. rewrite find_fmap. fold srv. rewrite Hfind.
    destruct (head _); [|done]. simpl. unfold B, T, I. by rewrite test_url_tool.
  - done.
  - rewrite gets_search_trace_ext, (gets_probes (probe_request T I)), (list_fmap_ext _ (probe_request T I)) by (intros; apply Hreq).
    apply prefix_of_fmap, upto_prefix.
  - intros Hnil. rewrite gets_search_trace_ext, (gets_probes (probe_request T I)), upto_all.
    + apply list_fmap_ext. intros. apply Hreq.
    + by rewrite Hfind, Hnil.
Qed.

(** The png of artwork 104 at 12:00:02: the tool reports [12:00:02] and
    the worker returns its URL. *)
Lemma worker_scan_agrees_witness :
  (all_digits (list_ascii_of_string "2023") = true /\ all_digits (list_ascii_of_string "01") = true /\
   0 <= 104 /\ "/"%char ∉ list_ascii_of_string "12:00:00" /\
   "/"%char ∉ list_ascii_of_string "12:00:03" /\
   strptime_hms "12:00:00" = Some 43200 /\ strptime_hms "12:00:03" = Some 43203) /\
  exists hits evs_tool evs_worker,
    check_pixiv_image_existence (tool_template "2023" "01" "01") "12:00:00" "12:00:03"
      (image_name 104 "png") (World worker_server [] ∅ ∅) =
      (Ok (Some (strftime_hms ":" <$> hits)), World worker_server ([] ++ evs_tool) ∅ ∅) /\
    fst (ext_loop (base_template "2023" "01" "01" 104) "12:00:00" "12:00:03" 4 ["png"%string] 0
           (worker_app (uri_at "12/00/00") (uri_at "12/00/03"))) =
      Ok ((fun t => ("png"%string, probe_url (tool_template "2023" "01" "01") (image_name 104 "png") t))
            <$> head hits) /\
    trace (net (snd (ext_loop (base_template "2023" "01" "01" 104) "12:00:00" "12:00:03" 4
                       ["png"%string] 0 (worker_app (uri_at "12/00/00") (uri_at "12/00/03"))))) =
      [] ++ evs_worker /\
    gets evs_worker `prefix_of` gets evs_tool /\ (hits = [] -> gets evs_worker = gets evs_tool).
Proof.
  split; [split_and!; first [reflexivity | lia | py_decide | vm_compute; reflexivity]|].
  apply (worker_scan_agrees "2023" "01" "01" 104 "png" "12:00:00" "12:00:03" 4 0
           (worker_app (uri_at "12/00/00") (uri_at "12/00/03")) 43200 43203);
    first [reflexivity | lia | py_decide | vm_compute; reflexivity].
Defined.
