(* ===== verification/WorkerThread.v ===== *)
(** * The search worker as a thread

    [start_search] checks the form on the Tk thread and then starts
    [search_worker] in a daemon thread ([threading.Thread(target=...,
    args=(target_id,))], lines 206-208 of [main.py]).  This file gives
    the worker in the form of [Threads]: every statement that touches
    the window or the network is one atomic step.  The reads of
    [prev_uri], [next_uri] and of each check button are separate steps,
    each iteration of the scan is three (the progress update, the
    request and the progress update of a hit), and the call of the
    downloader is one.  [start_thread] is the part of [start_search] run
    by the Tk thread: it returns the id the new thread is started with.

    Run alone, the thread is [SearchWorker.search_worker]; so the
    sequential [start_search] of [SearchWorker] is the schedule in which
    the started thread runs to its end before the next event. *)

From stdpp Require Import base list gmap strings sets.
From Stdlib Require Import ZArith Ascii String.
From S2P Require Import Prelude Threads PyStr Regex Http Downloader PageProbe AdjacentSearch TimeWindow SearchWorker.

Open Scope Z_scope.

(** ** The thread *)

Section WorkerThread.
Local Open Scope thread_scope.

(** One iteration of [while current_time <= end_time], statement by
    statement. *)
Definition ext_step_t (base_url ext : string) (end_time total : Z) (st : Z * Z)
    : thread app (step (Z * Z) (Z * option string)) :=
  let '(current_time, current_check) := st in
  if current_time <=? end_time then
    let current_check := current_check + 1 in
    atomic (update_progress current_check total) ;;
    hit <- ttry is_exception
             (response <- atomic (lift (requests_get (test_request base_url ext current_time))) ;;
              if status_code response =? 200 then
                atomic (update_progress current_check total) ;; tret true
              else tret false)
             (fun _ => tret false) ;;
    if hit then tret (Break (current_check, Some (test_url base_url ext current_time)))
    else tret (Continue (current_time + 1, current_check))
  else tret (Break (current_check, None)).

(** [for ext in extensions: ...] *)
Fixpoint ext_loop_t (base_url prev_time next_time : string) (total : Z)
    (extensions : list string) (current_check : Z) : thread app (option (string * string)) :=
  match extensions with
  | [] => tret None
  | ext :: rest =>
      current_time <- atomic (strptime_or_raise prev_time) ;;
      end_time <- atomic (strptime_or_raise next_time) ;;
      r <- titer_pos (Z.to_pos (end_time - current_time + 2))
             (ext_step_t base_url ext end_time total) (current_time, current_check) ;;
      match r with
      | Break (_, Some url) => tret (Some (ext, url))
      | Break (c, None) | Continue (_, c) =>
          ext_loop_t base_url prev_time next_time total rest c
      end
  end.

Context `{GalleryDownloader}.

(** The target of the thread: [search_worker(target_id)]. *)
Definition search_worker_t (target_id : Z) : thread app unit :=
  ttry is_exception
    (atomic reset_progress ;;
     prev_uri <- tget prev_uri ;;
     next_uri <- tget next_uri ;;
     r <- atomic (extract_time_range prev_uri next_uri target_id) ;;
     let '(prev_time, next_time, base_url) := r in
     jpg <- tget file_jpg ;;
     png <- tget file_png ;;
     gif <- tget file_gif ;;
     let extensions := ext_list jpg png gif in
     start_time <- atomic (strptime_or_raise prev_time) ;;
     end_time <- atomic (strptime_or_raise next_time) ;;
     let time_range_seconds := end_time - start_time + 1 in
     let total_checks := Z.of_nat (length extensions) * time_range_seconds in
     atomic (update_progress 0 total_checks) ;;
     found <- ext_loop_t base_url prev_time next_time total_checks extensions 0 ;;
     match found with
     | Some (ext, url) =>
         atomic (update_progress total_checks total_checks) ;;
         atomic (lift (os_makedirs "download")) ;;
         atomic (lift (gallery_download url "download")) ;;
         atomic reset_progress ;;
         atomic (show (DlgFound ext))
     | None => atomic reset_progress ;; atomic (show DlgNotFound)
     end)
    (fun e => atomic reset_progress ;; atomic (show (DlgSearchError e))).
End WorkerThread.

(** The Tk half of [start_search]: the checks of the form, then the id
    the worker thread is started with ([None]: no thread). *)
Definition start_thread : PyM app (option Z) :=
  a <- get_st ;;
  if String.eqb (prev_uri a) EmptyString || String.eqb (next_uri a) EmptyString then
    show (DlgError "Please enter both previous and next artwork URIs") ;; ret None
  else if negb (file_jpg a || file_png a || file_gif a) then
    show (DlgError "Please select at least one file type") ;; ret None
  else
    match py_int (artwork_id a) with
    | None => show (DlgError "Invalid artwork ID") ;; ret None
    | Some target_id => ret (Some target_id)
    end.

(** [thread.start()]: the threads a click starts. *)
Definition spawn `{GalleryDownloader} (o : option Z) : list (thread app unit) :=
  match o with
  | Some target_id => [search_worker_t target_id]
  | None => []
  end.

(** ** Run alone, the thread is [search_worker] *)

Lemma extract_time_range_pure prev_uri next_uri target_id (a : app) :
  snd (extract_time_range prev_uri next_uri target_id a) = a.
Proof. unfold extract_time_range. by case_match. Qed.

Lemma strptime_or_raise_pure s (a : app) : snd (strptime_or_raise s a) = a.
Proof. unfold strptime_or_raise. by case_match. Qed.

(** Match the thread against its sequential program, statement by
    statement. *)
Ltac run_congr :=
  repeat first
    [ rewrite run_tget_bind
    | rewrite bind_get
    | rewrite run_tbind; apply bind_pure_congr;
        [apply extract_time_range_pure || apply strptime_or_raise_pure|intros..]
    | rewrite run_tbind; apply bind_congr; intros
    | rewrite run_ttry; apply try_congr; intros
    | rewrite run_titer_pos; apply iter_pos_congr; intros
    | rewrite run_atomic; reflexivity
    | reflexivity
    | case_match ].

Lemma run_ext_step_t base_url ext end_time total st a :
  run (ext_step_t base_url ext end_time total st) a = ext_step base_url ext end_time total st a.
Proof. destruct st as [t c]. unfold ext_step_t, ext_step. run_congr. Qed.

Lemma run_ext_loop_t base_url prev_time next_time total extensions c a :
  run (ext_loop_t base_url prev_time next_time total extensions c) a =
  ext_loop base_url prev_time next_time total extensions c a.
Proof.
  revert c a. induction extensions as [|ext rest IH]; intros c a; [done|]. cbn [ext_loop_t ext_loop].
  run_congr; try apply run_ext_step_t; apply IH.
Qed.

(** Run alone, the worker thread is the sequential [search_worker]:
    splitting it into atomic steps adds no behaviour of its own. *)
Lemma search_thread_solo `{GalleryDownloader} target_id a :
  run (search_worker_t target_id) a = search_worker target_id a.
Proof.
  unfold search_worker_t, search_worker.
  run_congr; try apply run_ext_loop_t.
Qed.

(** The sequential [start_search] of [SearchWorker], on which the
    theorems about the worker are stated, is the Tk half of the code
    ([start_thread]: the checks of the form) followed by the worker
    thread it starts, run alone to its end. *)
Lemma start_search_split `{GalleryDownloader} a :
  start_search a =
  (o <- start_thread ;;
   match o with Some target_id => run (search_worker_t target_id) | None => ret tt end) a.
Proof.
  cbv [start_search start_thread bind get_st ret show modify_st].
  repeat case_match; simplify_eq; try reflexivity. symmetry. apply search_thread_solo.
Qed.

(** ** The progress bar, step by step *)

Lemma emits_requests_get r : emits progress_ok (lift (requests_get r)).
Proof.
  apply emits_lift. intros w. exists [EvGet r].
  unfold requests_get. repeat case_match; (split; [reflexivity|by repeat constructor]).
Qed.

(** A parsed time, for any preorder: parsing does not touch the state. *)
Lemma tpost_strptime {W} (R : W -> W -> Prop) `{!PreOrder R} s :
  tpost R (fun t => strptime_hms s = Some t) (atomic (strptime_or_raise s)).
Proof.
  apply tpost_atomic. intros a. unfold strptime_or_raise.
  case_match; simpl; (split; [reflexivity|by intros ? [= <-]]).
Qed.

Lemma tpost_tbind_stable {W A B} (R : W -> W -> Prop) (Q : B -> Prop)
    (t : thread W A) (f : A -> thread W B) :
  tstable R t -> (forall a, tpost R Q (f a)) -> tpost R Q (tbind t f).
Proof. intros Ht Hf. eapply tpost_tbind; [exact Ht|]. auto. Qed.

Section ProgressCounter.
Variables (st et total : Z).

(** Before the scan of the extensions [exts], [c] checks are counted:
    the ones still to come fit in [total]. *)
Definition outer_inv (exts : list string) (c : Z) : Prop :=
  0 <= c /\ (0 < total -> 0 < et - st + 1 /\ c + Z.of_nat (length exts) * (et - st + 1) <= total).

(** In the scan of one extension, [rest] extensions after it. *)
Definition inner_inv (rest : list string) (l : Z * Z) : Prop :=
  let '(t, c) := l in
  0 <= c /\ (0 < total -> 0 < et - st + 1 /\ st <= t <= et + 1 /\ c + (et + 1 - t) + Z.of_nat (length rest) * (et - st + 1) <= total).

Definition inner_post (rest : list string) (r : Z * option string) : Prop :=
  match r with (c, None) => outer_inv rest c | (_, Some _) => True end.

Lemma tprog_ext_step_t base_url ext rest l :
  inner_inv rest l ->
  tpost (grows progress_ok) (step_post (inner_inv rest) (inner_post rest))
    (ext_step_t base_url ext et total l).
Proof.
  destruct l as [t c]. intros [Hc Hi]. unfold ext_step_t.
  destruct (t <=? et) eqn:Ht; [apply Z.leb_le in Ht|apply Z.leb_gt in Ht].
  - assert (Hu : emits progress_ok (update_progress (c + 1) total)).
    { apply emits_update. intros Hp. specialize (Hi Hp). nia. }
    apply tpost_tbind_stable; [by apply tstable_atomic|intros _].
    apply tpost_tbind_stable; [ |intros [|]; apply tpost_tret; simpl; [done|]].
    + apply tpost_ttry; [|intros; by apply tpost_tret].
      apply tpost_tbind_stable; [apply tstable_atomic, emits_requests_get|].
      intros r. case_match; [|by apply tpost_tret].
      apply tpost_tbind_stable; [by apply tstable_atomic|intros; by apply tpost_tret].
    + split; [lia|]. intros Hp. specialize (Hi Hp). lia.
  - apply tpost_tret. simpl. split; [done|]. intros Hp. specialize (Hi Hp). nia.
Qed.

Lemma tprog_ext_loop_t base_url prev_time next_time exts c :
  strptime_hms prev_time = Some st -> strptime_hms next_time = Some et ->
  outer_inv exts c ->
  tstable (grows progress_ok) (ext_loop_t base_url prev_time next_time total exts c).
Proof.
  intros Hs He. revert c. induction exts as [|ext rest IH]; intros c Hc; cbn [ext_loop_t];
    [by apply tpost_tret|].
  eapply tpost_tbind; [apply tpost_strptime, _|]. intros t0 Ht0. rewrite Hs in Ht0. simplify_eq.
  eapply tpost_tbind; [apply tpost_strptime, _|]. intros t1 Ht1. rewrite He in Ht1. simplify_eq.
  eapply tpost_tbind.
  { apply (tpost_titer_pos _ (inner_inv rest) (inner_post rest)); [apply tprog_ext_step_t|].
    destruct Hc as [Hc Ho]. split; [done|]. intros Hp. specialize (Ho Hp). simpl in Ho. lia. }
  intros [[t c']|[c' [url|]]] Hr; simpl in Hr; [| by apply tpost_tret | by apply IH].
  apply IH. destruct Hr as [Hc' Hr]. split; [done|]. intros Hp. specialize (Hr Hp). nia.
Qed.
End ProgressCounter.

Ltac tprog_auto :=
  repeat first [ progress tstable_step | apply emits_update; lia | case_match
               | solve [auto with emits] | intros ? ].

Lemma tprog_search_worker_t `{GalleryDownloader} target_id :
  tstable (grows progress_ok) (search_worker_t target_id).
Proof.
  unfold search_worker_t. apply tpost_ttry; [|tprog_auto].
  apply tpost_tbind_stable; [apply tstable_atomic; auto with emits|intros _].
  apply tpost_tbind_stable; [apply tstable_tget; apply _|intros pu].
  apply tpost_tbind_stable; [apply tstable_tget; apply _|intros nu].
  apply tpost_tbind_stable; [ |intros [[prev_time next_time] base_url]].
  { apply tstable_atomic. unfold extract_time_range. repeat stable_step || case_match. }
  apply tpost_tbind_stable; [apply tstable_tget; apply _|intros jpg].
  apply tpost_tbind_stable; [apply tstable_tget; apply _|intros png].
  apply tpost_tbind_stable; [apply tstable_tget; apply _|intros gif].
  eapply tpost_tbind; [apply tpost_strptime, _|intros st Hs].
  eapply tpost_tbind; [apply tpost_strptime, _|intros et He].
  apply tpost_tbind_stable; [apply tstable_atomic, emits_update; lia|intros _].
  apply tpost_tbind_stable; [ |intros found].
  { eapply tprog_ext_loop_t; [exact Hs|exact He|]. split; [lia|]. intros Hp. nia. }
  tprog_auto.
Qed.
