(* ===== verification/Gui.v ===== *)
(** * The window and its threads

    [main()] creates the Tk root, [PixivResourceFinder.__init__] creates
    the Tk variables with their defaults (both URL fields empty, JPG and
    PNG checked, GIF not), [setup_gui] binds them to the widgets, and
    [root.mainloop()] dispatches the user's actions.  The entries edit
    the string variables, the check buttons the boolean ones.  Return in
    the artwork-id entry and the button "Find Adjacent Artworks" run
    [find_adjacent_artworks] on the Tk thread.  "Start Resource Search"
    runs [start_search], which checks the form and starts
    [search_worker] in a new thread ([WorkerThread]).  Nothing disables
    the button or waits for the thread: the window keeps taking actions
    while workers run, and each click can start one more.

    [on_event] is the wiring: one action, the method it runs and the
    threads it starts.  A state of the program ([sys]) is the window and
    the pool of running worker threads.  [sys_next] is one step of the
    program chosen by the scheduler ([choice]): an action of the user,
    or one atomic step of one thread.  [sys_step] is its step relation,
    [main_sys] the state [main()] starts from, [mainloop] the run of a
    schedule and [reachable] the states some schedule reaches.

    In every reachable state, whatever the interleaving, every progress
    value shown lies between [0] and its total: induction on the run
    from the [stable] facts of the handlers and the [tstable] facts of
    the worker thread ([sys_run_ok]).  The
    click on "Start Resource Search" starts a worker whatever workers
    already run ([click_starts_worker]); an example shows two searches
    whose requests interleave, and another that the worker reads the
    check buttons after the click has checked them. *)

From stdpp Require Import base list gmap strings sets relations.
From Stdlib Require Import ZArith Ascii String.
From S2P Require Import Prelude Threads PyStr Regex Http Downloader PageProbe AdjacentSearch TimeWindow SearchWorker WorkerThread.

Open Scope Z_scope.

(** ** The widgets *)

(** What the user does with the window. *)
Inductive user_event :=
  | TypeArtworkId (s : string)       (* the Entry of artwork_id *)
  | TypePrevArtworkUrl (s : string)  (* the Entry of prev_artwork_url *)
  | TypeNextArtworkUrl (s : string)  (* the Entry of next_artwork_url *)
  | TypePrevUri (s : string)         (* the Entry of prev_uri *)
  | TypeNextUri (s : string)         (* the Entry of next_uri *)
  | CheckJpg (b : bool)              (* the Checkbutton "JPG" *)
  | CheckPng (b : bool)              (* the Checkbutton "PNG" *)
  | CheckGif (b : bool)              (* the Checkbutton "GIF" *)
  | PressReturn                      (* <Return> in the artwork-id entry *)
  | ClickFindAdjacent                (* the Button "Find Adjacent Artworks" *)
  | ClickStartSearch.                (* the Button "Start Resource Search" *)

(** The state [__init__] builds on a world [w]. *)
Definition initial_app (w : world) : app :=
  App w EmptyString EmptyString EmptyString true true false EmptyString EmptyString [].

(** A widget writes its variable. *)
Definition set_var (e : user_event) (a : app) : app :=
  let '(App w id pu nu jpg png gif pau nau ds) := a in
  match e with
  | TypeArtworkId s => App w s pu nu jpg png gif pau nau ds
  | TypePrevArtworkUrl s => App w id pu nu jpg png gif s nau ds
  | TypeNextArtworkUrl s => App w id pu nu jpg png gif pau s ds
  | TypePrevUri s => App w id s nu jpg png gif pau nau ds
  | TypeNextUri s => App w id pu s jpg png gif pau nau ds
  | CheckJpg b => App w id pu nu b png gif pau nau ds
  | CheckPng b => App w id pu nu jpg b gif pau nau ds
  | CheckGif b => App w id pu nu jpg png b pau nau ds
  | _ => a
  end.

(** A state of the program: the window and the running worker threads. *)
Record sys := Sys {
  gui : app;
  pool : list (thread app unit)
}.

(** What the scheduler runs next: an action of the user on the Tk
    thread, or one atomic step of the [i]-th worker thread. *)
Inductive choice :=
  | User (e : user_event)
  | Sched (i : nat).

Section Window.
Context `{GalleryDownloader}.

(** The handler [setup_gui] binds to each action, with the threads it
    starts. *)
Definition on_event (e : user_event) : PyM app (list (thread app unit)) :=
  match e with
  | PressReturn | ClickFindAdjacent => find_adjacent_artworks ;; ret []
  | ClickStartSearch => o <- start_thread ;; ret (spawn o)
  | _ => modify_st (set_var e) ;; ret []
  end.

(** One step of the program.  An exception of a handler ends the handler
    (Tk prints it) and keeps its effects.  A finished thread leaves the
    pool. *)
Definition sys_next (c : choice) (s : sys) : sys :=
  match c with
  | User e =>
      let '(r, a') := on_event e (gui s) in
      Sys a' (pool s ++ match r with Ok ts => ts | Exc _ => [] end)
  | Sched i =>
      match pool s !! i with
      | Some (Yield eff k) => Sys (eff (gui s)) (<[i := k (gui s)]> (pool s))
      | Some (Done _) => Sys (gui s) (delete i (pool s))
      | None => s
      end
  end.

Inductive sys_step : sys -> sys -> Prop :=
  | SysStep c s : sys_step s (sys_next c s).

(** [main()]: the window on a world, no thread yet. *)
Definition main_sys (w : world) : sys := Sys (initial_app w) [].

(** [root.mainloop()] under a schedule. *)
Definition mainloop (cs : list choice) (s : sys) : sys :=
  foldl (fun s c => sys_next c s) s cs.

Definition reachable (w : world) (s : sys) : Prop := rtc sys_step (main_sys w) s.

End Window.

(** ** Every handler keeps the invariants *)

Lemma set_var_net e a : net (set_var e a) = net a.
Proof. destruct a, e; reflexivity. Qed.

(** A request appends its [EvGet] and nothing else. *)
Lemma quiet_requests_get r : stable quiet_step (requests_get r).
Proof.
  intros w. assert (Hq : quiet_step w (emit (EvGet r) w))
    by (apply (quiet_extend _ _ [EvGet r]); [done|done|repeat constructor]).
  unfold requests_get. by repeat case_match.
Qed.

Lemma quiet_find_adjacent center : stable quiet_step (find_adjacent_valid_artworks center).
Proof.
  unfold find_adjacent_valid_artworks, prev_step, next_step, walk_step, probe_body,
    get_artwork_page_content, raise_for_status.
  repeat first [ apply quiet_requests_get | case_match | stable_step
               | match goal with |- forall _, _ => intros ? end ].
Qed.

(** A tool that sends no progress event keeps the bar in range. *)
Lemma emits_quiet {A} (m : PyM world A) : stable quiet_step m -> emits progress_ok (lift m).
Proof.
  intros Hm. apply emits_lift. intros w. destruct (Hm w) as [_ (evs & Ht & Hf)].
  exists evs. split; [done|]. eapply Forall_impl; [exact Hf|]. by intros [].
Qed.

(** Follow the code of a handler down to [emits] facts. *)
Ltac emits_handler :=
  repeat first [ apply emits_show | apply emits_search_worker
               | apply emits_quiet, quiet_find_adjacent
               | match goal with
                 | |- stable _ (modify_st _) => apply emits_nil; intros; reflexivity
                 | |- forall _, _ => intros ?
                 end
               | case_match | stable_step ].

Lemma emits_find_adjacent_artworks : emits progress_ok find_adjacent_artworks.
Proof. unfold find_adjacent_artworks. emits_handler. Qed.

Lemma emits_start_thread : emits progress_ok start_thread.
Proof. unfold start_thread. emits_handler. Qed.

Lemma gui_handler_emits `{GalleryDownloader} e : emits progress_ok (on_event e).
Proof.
  destruct e; unfold on_event;
    repeat first [ apply emits_find_adjacent_artworks | apply emits_start_thread
                 | apply emits_nil; intros; apply set_var_net
                 | match goal with |- forall _, _ => intros ? end | stable_step ].
Qed.

(** ** Schedules *)

Lemma mainloop_rtc `{GalleryDownloader} cs s : rtc sys_step s (mainloop cs s).
Proof.
  revert s. induction cs as [|c cs IH]; intros s; [apply rtc_refl|].
  eapply rtc_l; [apply (SysStep c)|apply IH].
Qed.

(** [root.mainloop()] reaches exactly the states of the step relation:
    the executable scheduler and [sys_step] agree. *)
Lemma reachable_mainloop `{GalleryDownloader} w s :
  reachable w s <-> exists cs, s = mainloop cs (main_sys w).
Proof.
  split; [|intros [cs ->]; apply mainloop_rtc]. revert s.
  apply (rtc_ind_r (fun s => exists cs, s = mainloop cs (main_sys w))); [by exists []|].
  intros s1 s2 _ Hs [cs ->]. inversion Hs as [c s0]; subst. exists (cs ++ [c]).
  unfold mainloop. by rewrite foldl_app.
Qed.

(** ** Invariants of the thread pool *)

Section PoolInvariant.
Context `{GalleryDownloader} (R : app -> app -> Prop) `{!PreOrder R}.
Hypothesis handler_R : forall e, stable R (on_event e).
Hypothesis worker_R : forall target_id, tstable R (search_worker_t target_id).

Definition pool_ok (s : sys) : Prop := Forall (tstable R) (pool s).

Lemma on_event_spawns e a ts : fst (on_event e a) = Ok ts -> Forall (tstable R) ts.
Proof.
  intros Hts. destruct e; unfold on_event, bind, ret, modify_st in Hts;
    repeat case_match; simplify_eq/=; unfold spawn; repeat case_match; eauto.
Qed.

Lemma sys_next_ok c s : pool_ok s -> R (gui s) (gui (sys_next c s)) /\ pool_ok (sys_next c s).
Proof.
  intros Hp. destruct c as [e|i]; simpl.
  - pose proof (handler_R e (gui s)) as HR. pose proof (on_event_spawns e (gui s)) as Hs.
    destruct (on_event e (gui s)) as [[ts|ex] a'] eqn:E; simpl in *;
      (split; [done|]); unfold pool_ok; simpl; apply Forall_app; auto.
  - destruct (pool s !! i) as [[o|eff k]|] eqn:Hi; simpl; [| |done].
    + split; [reflexivity|]. by apply Forall_delete.
    + pose proof (Forall_lookup_1 _ _ _ _ Hp Hi) as Ht. inversion Ht as [| |eff' k' Heff Hk]; subst.
      split; [apply Heff|]. apply Forall_insert; [done|apply Hk].
Qed.

(** Rule induction on the run: every interleaving moves the window
    along [R], and the pool keeps only threads whose steps do. *)
Lemma sys_run_ok s s' : rtc sys_step s s' -> pool_ok s -> R (gui s) (gui s') /\ pool_ok s'.
Proof.
  induction 1 as [s|s1 s2 s3 Hs _ IH]; intros Hp; [split; [reflexivity|done]|].
  destruct Hs as [c s1]. destruct (sys_next_ok c s1 Hp) as [H1 H2].
  destruct (IH H2) as [H3 H4]. split; [etrans; eauto|done].
Qed.
End PoolInvariant.

(** ** Searches are not serialised *)

(** C19: [start_search] does not look at the searches already running:
    in every state of the program, whatever workers run, a click on
    "Start Resource Search" with both URIs filled in, a file type
    checked and an artwork id [int()] accepts leaves the window as it is
    (no message box) and starts one more worker, beside the running
    ones, for that id. *)
Theorem click_starts_worker `{GalleryDownloader} s target_id :
  prev_uri (gui s) <> EmptyString -> next_uri (gui s) <> EmptyString ->
  file_jpg (gui s) || file_png (gui s) || file_gif (gui s) = true ->
  py_int (artwork_id (gui s)) = Some target_id ->
  sys_next (User ClickStartSearch) s = Sys (gui s) (pool s ++ [search_worker_t target_id]).
Proof.
  intros Hp Hn Hx Hi. destruct s as [a ts]; simpl in *.
  unfold on_event, start_thread, bind, get_st, ret.
  rewrite (proj2 (String.eqb_neq _ _) Hp), (proj2 (String.eqb_neq _ _) Hn), Hx, Hi.
  reflexivity.
Qed.

(** ** Invariants of the reachable states *)

(** C18: in every reachable state, whatever the interleaving of the
    window and of the running searches, every progress value shown since
    the window opened is between [0] and its total, for any downloader
    that sends no progress event. *)
Theorem gui_progress_invariant `{GalleryDownloader} w s :
  reachable w s -> exists evs, trace (net (gui s)) = trace w ++ evs /\ Forall progress_ok evs.
Proof.
  intros Hr.
  destruct (sys_run_ok (grows progress_ok) gui_handler_emits tprog_search_worker_t _ _ Hr)
    as [HR _]; [constructor|exact HR].
Qed.

(** ** Schedules of the window *)

Definition worker_world : world := World worker_server [] ∅ ∅.

(** The form filled in for a search of artwork [id] from 12:00:00 to
    12:00:02. *)
Definition fill_form (id : string) : list choice :=
  [User (TypePrevUri (uri_at "12/00/00")); User (TypeNextUri (uri_at "12/00/02"));
   User (TypeArtworkId id)].

(** One search, run to its end: it finds the png at 12:00:02. *)
Definition one_search : list choice :=
  fill_form "104" ++ [User ClickStartSearch] ++ repeat (Sched 0) 40.

Lemma one_search_reachable :
  reachable (H := pixiv_downloader 8) worker_world (mainloop (H := pixiv_downloader 8) one_search (main_sys worker_world)).
Proof. apply reachable_mainloop. eauto. Qed.

Lemma gui_progress_invariant_witness :
  reachable (H := pixiv_downloader 8) worker_world (mainloop (H := pixiv_downloader 8) one_search (main_sys worker_world)) /\
  exists evs, trace (net (gui (mainloop (H := pixiv_downloader 8) one_search (main_sys worker_world)))) =
              trace worker_world ++ evs /\ Forall progress_ok evs.
Proof.
  split; [exact one_search_reachable|].
  apply (gui_progress_invariant (H := pixiv_downloader 8)). exact one_search_reachable.
Defined.

(** The search above ends with the gallery saved and its message box. *)
Example one_search_run :
  let s := mainloop (H := pixiv_downloader 8) one_search (main_sys worker_world) in
  pool s = [] /\ dialogs (gui s) = [DlgFound "png"] /\
  files (net (gui s)) !! "download/104_p0.png"%string = Some "png0"%string.
Proof. vm_compute. split_and!; reflexivity. Qed.

(** Two clicks, with the artwork id changed in between, start two
    workers; the scheduler runs the first up to its first request, then
    the second, then the first again. *)
Definition two_searches : list choice :=
  fill_form "104" ++ [User ClickStartSearch; User (TypeArtworkId "105"); User ClickStartSearch] ++
  repeat (Sched 0) 14 ++ repeat (Sched 1) 14 ++ repeat (Sched 0) 2.

(** A search is running after one click; a second click with the same
    form starts a second worker beside it. *)
Definition one_running : list choice := fill_form "104" ++ [User ClickStartSearch].

Lemma click_starts_worker_witness :
  let s := mainloop (H := pixiv_downloader 8) one_running (main_sys worker_world) in
  (prev_uri (gui s) <> EmptyString /\ next_uri (gui s) <> EmptyString /\
   file_jpg (gui s) || file_png (gui s) || file_gif (gui s) = true /\
   py_int (artwork_id (gui s)) = Some 104 /\ length (pool s) = 1%nat) /\
  sys_next (H := pixiv_downloader 8) (User ClickStartSearch) s =
    Sys (gui s) (pool s ++ [search_worker_t (H := pixiv_downloader 8) 104]).
Proof.
  cbv zeta. split.
  - split; [vm_compute; discriminate|]. split; [vm_compute; discriminate|].
    split; [vm_compute; reflexivity|]. split; vm_compute; reflexivity.
  - apply click_starts_worker; [vm_compute; discriminate|vm_compute; discriminate|vm_compute; reflexivity|vm_compute; reflexivity].
Defined.

(** An example of the above: two clicks, with the artwork id changed in
    between, start two workers whose requests interleave on the
    network. *)
Example concurrent_searches :
  let s := mainloop (H := pixiv_downloader 8) two_searches (main_sys worker_world) in
  reachable (H := pixiv_downloader 8) worker_world s /\ length (pool s) = 2%nat /\
  req_url <$> gets (trace (net (gui s))) =
    ["https://i.pximg.net/img-original/img/2023/01/01/12/00/00/104_p0.jpg";
     "https://i.pximg.net/img-original/img/2023/01/01/12/00/00/105_p0.jpg";
     "https://i.pximg.net/img-original/img/2023/01/01/12/00/01/104_p0.jpg"]%string.
Proof. split; [apply reachable_mainloop; eauto|]. vm_compute. split; reflexivity. Qed.

(** [start_search] checks the check buttons on the Tk thread, but the
    worker reads them again later, on its own thread.  Cleared before
    the click, they give the error message; cleared just after it, the
    worker searches no extension and reports that nothing was found,
    without a request. *)
Example start_check_not_atomic :
  let before := mainloop (H := pixiv_downloader 8)
    (fill_form "104" ++ [User (CheckJpg false); User (CheckPng false); User ClickStartSearch])
    (main_sys worker_world) in
  let after := mainloop (H := pixiv_downloader 8)
    (fill_form "104" ++ [User ClickStartSearch; User (CheckJpg false); User (CheckPng false)] ++
     repeat (Sched 0) 16) (main_sys worker_world) in
  dialogs (gui before) = [DlgError "Please select at least one file type"] /\ pool before = [] /\
  dialogs (gui after) = [DlgNotFound] /\ gets (trace (net (gui after))) = [] /\ pool after = [].
Proof. vm_compute. split_and!; reflexivity. Qed.
